(** * Shopearn Pro API: click attribution, redirects and admin vendor links

    A shallow embedding of [src/main.py] and [src/schemas.py].  Handlers are
    functions in a small reader/state/exception monad over the document
    store; pydantic models are lists of validated fields; MongoDB documents
    are finite maps from field names to values. *)

From Stdlib Require Import ZArith String Ascii List PrimFloat Uint63 Permutation.
From stdpp Require Import gmap strings list fin_maps.

Local Open Scope string_scope.
Local Open Scope list_scope.
Local Open Scope Z_scope.

(** ** bson.ObjectId

    [ObjectId(s)] on a [str] checks [len(s) == 24] and then takes
    [bytes.fromhex(s)] for the id; it raises [InvalidId] when the length is
    another or [fromhex] fails.  [bytes.fromhex] reads pairs of hexadecimal
    digits and skips ASCII whitespace before each pair, so a string of 24
    characters with whitespace in it can be accepted, and then gives fewer
    than 12 bytes.  [str(ObjectId(s))] is the lower-case hexadecimal text of
    the bytes, and two ids are equal when their bytes are: an [ObjectId] is
    kept as that text.

    Strings are byte strings.  A character outside ASCII is neither a digit
    nor whitespace, so a string that has one is refused whatever its length,
    by its bytes as by its characters. *)

Definition is_hex (c : ascii) : bool :=
  let n := nat_of_ascii c in
  ((48 <=? n) && (n <=? 57) || (97 <=? n) && (n <=? 102) || (65 <=? n) && (n <=? 70))%nat.

Definition lower (c : ascii) : ascii :=
  let n := nat_of_ascii c in
  if ((65 <=? n) && (n <=? 90))%nat then ascii_of_nat (n + 32) else c.

(** ASCII whitespace: tab, line feed, vertical tab, form feed, carriage
    return and space. *)
Definition is_space (c : ascii) : bool :=
  let n := nat_of_ascii c in
  ((9 <=? n) && (n <=? 13) || (n =? 32))%nat.

(** [bytes.fromhex(s).hex()]: the digits of the pairs in lower case, or
    nothing where [fromhex] raises [ValueError] (a character that is neither
    a digit nor whitespace, or a digit without its second digit next to
    it). *)
Fixpoint fromhex (s : string) : option string :=
  match s with
  | EmptyString => Some EmptyString
  | String c s' =>
      if is_space c then fromhex s'
      else
        match s' with
        | String c' s'' =>
            if is_hex c && is_hex c'
            then String (lower c) <$> (String (lower c') <$> fromhex s'')
            else None
        | EmptyString => None
        end
  end.

Record ObjectId : Type := Oid { hex : string }.

Global Instance ObjectId_eq_dec : EqDecision ObjectId.
Proof. solve_decision. Defined.

Definition ObjectId_new (s : string) : option ObjectId :=
  if (String.length s =? 24)%nat then Oid <$> fromhex s else None.

Definition str (o : ObjectId) : string := hex o.

(** ** Values and documents *)

(** The values a document field holds: JSON scalars, datetimes (milliseconds
    since the epoch), object ids and arrays of strings (the only arrays the
    schemas declare: [images] and [tags]). *)
Inductive value : Type :=
| VNull
| VBool (b : bool)
| VInt (n : Z)
| VFloat (x : float)
| VStr (s : string)
| VDate (t : Z)
| VOid (o : ObjectId)
| VList (l : list string).

(** Python truth value, as tested by [if x] and [not x]. *)
Definition truthy (v : value) : bool :=
  match v with
  | VNull => false
  | VBool b => b
  | VInt n => negb (n =? 0)
  | VFloat x => negb (PrimFloat.eqb x 0%float)
  | VStr s => negb (bool_decide (s = ""))
  | VDate _ => true
  | VOid _ => true
  | VList l => negb (bool_decide (l = []))
  end.

Definition value_eqb (a b : value) : bool :=
  match a, b with
  | VNull, VNull => true
  | VBool x, VBool y => bool_decide (x = y)
  | VInt x, VInt y => x =? y
  | VFloat x, VFloat y => PrimFloat.eqb x y
  | VStr x, VStr y => bool_decide (x = y)
  | VDate x, VDate y => x =? y
  | VOid x, VOid y => bool_decide (x = y)
  | VList x, VList y => bool_decide (x = y)
  | _, _ => false
  end.

(** A Python [dict] with string keys. *)
Abbreviation dict := (gmap string value).

(** A stored document.  The store gives every document an [_id], and no
    handler lets a caller choose or change it (the update handlers pop
    ["_id"] from their payload), so it is always an [ObjectId]. *)
Record document : Type := Document { _id : ObjectId; fields : dict }.

(** The [dict] pymongo returns for a stored document. *)
Definition as_dict (d : document) : dict := <["_id" := VOid (_id d)]> (fields d).

(** [d.get(k)] *)
Definition get (d : document) (k : string) : value := default VNull (as_dict d !! k).

(** [k in d] *)
Definition has_key (d : document) (k : string) : bool := bool_decide (is_Some (as_dict d !! k)).

Definition float_of_Z (n : Z) : float :=
  if n <? 0 then PrimFloat.opp (PrimFloat.of_uint63 (Uint63.of_Z (- n)))
  else PrimFloat.of_uint63 (Uint63.of_Z n).

(** ** The document store

    Modelled from the spec: the store handle [db] and [create_document] come
    from [database.py], which is not under src/.  The spec (sections 2 and 6)
    gives a document store keyed by collection name with insert, find-one and
    find-many with filters, update with [$set] and [$inc], and delete.  A
    collection is the list of its documents in insertion order; find-one
    returns the first match.  Every call on the store is recorded in [calls],
    so that "no store access" is a statement about the world. *)

Inductive db_call : Type :=
| FindOne (collection : string)
| Find (collection : string)
| InsertOne (collection : string)
| UpdateOne (collection : string)
| DeleteOne (collection : string)
| CountDocuments (collection : string)
| Aggregate (collection : string).

Record world : Type := World {
  db : gmap string (list document);
  calls : list db_call
}.

(** What a request reads from its environment: the clock
    ([datetime.now(timezone.utc)], one instant per request) and the
    [ObjectId] the driver generates if the request inserts a document. *)
Record env : Type := Env { now : Z; new_id : ObjectId }.

Inductive exn : Type :=
| HTTPException (status_code : Z) (detail : string)
| ValidationError
| WriteError
| InvalidId
| TypeError.

Inductive outcome (A : Type) : Type :=
| Ok (a : A)
| Raise (e : exn).
Arguments Ok {A} a.
Arguments Raise {A} e.

(** A handler reads the environment, may change the store and returns or
    raises; what it did to the store before raising stays done. *)
Definition M (A : Type) : Type := env → world → outcome A * world.

Global Instance M_ret : MRet M := λ A a _ w, (Ok a, w).
Global Instance M_bind : MBind M := λ A B f m e w,
  match m e w with
  | (Ok a, w') => f a e w'
  | (Raise x, w') => (Raise x, w')
  end.

Definition raise {A : Type} (x : exn) : M A := λ _ w, (Raise x, w).
Definition utcnow : M Z := λ e w, (Ok (now e), w).
Definition log (c : db_call) (w : world) : world :=
  {| db := db w; calls := calls w ++ [c] |}.

(** Filters, as the handlers build them: a conjunction of clauses, each a
    condition on one field or an [$or] of such conditions. *)
Inductive cond : Type :=
| Eq (v : value)                       (* {k: v} *)
| Gt (t : Z)                           (* {k: {"$gt": datetime}} *)
| Regex (pattern options : string).    (* {k: {"$regex": p, "$options": o}} *)

Inductive clause : Type :=
| Field (k : string) (c : cond)
| Or (alternatives : list (string * cond)).

Abbreviation filter_ := (list clause).

(** [{"$inc": {...}, "$set": {...}}] *)
Record update : Type := Update { inc_ : list (string * Z); set_ : dict }.

(** *** Libraries the handlers call and the source does not contain *)
Class Libs : Type := {
  (** the store's regular-expression search: pattern, options, subject *)
  regex_search : string → string → string → bool;
  (** pydantic's [HttpUrl]: the normalised URL, or nothing if invalid *)
  HttpUrl : string → option string;
  (** [hashlib.sha256(s.encode("utf-8")).hexdigest()] *)
  sha256_hexdigest : string → string
}.

Section Store.
Context {libs : Libs}.

Definition cond_holds (c : cond) (field : option value) : bool :=
  match c, field with
  | Eq VNull, None => true
  | Eq v, Some (VList l) =>
      value_eqb v (VList l) || match v with VStr s => bool_decide (s ∈ l) | _ => false end
  | Eq v, Some x => value_eqb v x
  | Gt t, Some (VDate t') => t <? t'
  | Regex p o, Some (VStr s) => regex_search p o s
  | Regex p o, Some (VList l) => existsb (regex_search p o) l
  | _, _ => false
  end.

Definition clause_holds (d : document) (c : clause) : bool :=
  match c with
  | Field k c => cond_holds c (as_dict d !! k)
  | Or alts => existsb (λ a, cond_holds a.2 (as_dict d !! a.1)) alts
  end.

Definition matches (q : filter_) (d : document) : bool := forallb (clause_holds d) q.

Definition apply_inc (fs : dict) (kn : string * Z) : option dict :=
  if bool_decide (kn.1 = "_id") then None else
  match fs !! kn.1 with
  | None => Some (<[kn.1 := VInt kn.2]> fs)
  | Some (VInt m) => Some (<[kn.1 := VInt (m + kn.2)]> fs)
  | Some (VFloat x) => Some (<[kn.1 := VFloat (x + float_of_Z kn.2)]> fs)
  | Some _ => None
  end.

Fixpoint apply_incs (fs : dict) (l : list (string * Z)) : option dict :=
  match l with
  | [] => Some fs
  | kn :: l' => fs' ← apply_inc fs kn; apply_incs fs' l'
  end.

(** The update of one document; [None] is a write error ([$inc] on a field
    that holds no number, or a change of [_id]). *)
Definition apply_update (u : update) (d : document) : option document :=
  fs ← apply_incs (fields d) (inc_ u);
  match set_ u !! "_id" with
  | None => Some {| _id := _id d; fields := set_ u ∪ fs |}
  | Some v =>
      if value_eqb v (VOid (_id d))
      then Some {| _id := _id d; fields := delete "_id" (set_ u) ∪ fs |}
      else None
  end.

(** The first match is updated; the count of matched documents comes back. *)
Fixpoint update_first (q : filter_) (u : update) (l : list document)
  : option (Z * list document) :=
  match l with
  | [] => Some (0, [])
  | d :: l' =>
      if matches q d then d' ← apply_update u d; Some (1, d' :: l')
      else r ← update_first q u l'; Some (r.1, d :: r.2)
  end.

Fixpoint delete_first (q : filter_) (l : list document) : Z * list document :=
  match l with
  | [] => (0, [])
  | d :: l' =>
      if matches q d then (1, l')
      else let r := delete_first q l' in (r.1, d :: r.2)
  end.

Definition collection (w : world) (name : string) : list document := db w !!! name.

Definition find_one (name : string) (q : filter_) : M (option document) := λ _ w,
  (Ok (head (filter (λ d, matches q d = true) (collection w name))), log (FindOne name) w).

Definition insert_one (name : string) (fs : dict) : M ObjectId := λ e w,
  (Ok (new_id e),
   {| db := <[name := collection w name ++ [Document (new_id e) fs]]> (db w);
      calls := calls w ++ [InsertOne name] |}).

Definition update_one (name : string) (q : filter_) (u : update) : M Z := λ _ w,
  match update_first q u (collection w name) with
  | Some (n, l) =>
      (Ok n, {| db := <[name := l]> (db w); calls := calls w ++ [UpdateOne name] |})
  | None => (Raise WriteError, log (UpdateOne name) w)
  end.

Definition delete_one (name : string) (q : filter_) : M Z := λ _ w,
  let r := delete_first q (collection w name) in
  (Ok r.1, {| db := <[name := r.2]> (db w); calls := calls w ++ [DeleteOne name] |}).

(** Modelled from the spec: [create_document] of [database.py] (not under
    src/).  Section 4.2: it "appends the event verbatim; assigns a creation
    timestamp and unique id", and returns the id as text. *)
Definition create_document (name : string) (data : dict) : M string :=
  t ← utcnow;
  i ← insert_one name (<["created_at" := VDate t]> data);
  mret (str i).

End Store.

(** ** pydantic models ([src/schemas.py])

    A model class is the list of its fields; building an instance validates
    each keyword argument against the field's type, takes the default of a
    field that is not given, fails if a required field is missing, and
    ignores unknown keywords.  An instance is kept as its [model_dump()]. *)

Record field_ : Type := FieldDef {
  fname : string;
  ftype : value → option value;
  fdefault : option value          (* [None]: the field is required *)
}.

Fixpoint BaseModel (schema : list field_) (kwargs : dict) : option dict :=
  match schema with
  | [] => Some ∅
  | f :: rest =>
      v ← match kwargs !! fname f with
          | Some x => ftype f x
          | None => fdefault f
          end;
      d ← BaseModel rest kwargs;
      Some (<[fname f := v]> d)
  end.

Definition str_ (v : value) : option value :=
  match v with VStr s => Some v | _ => None end.
Definition bool_ (v : value) : option value :=
  match v with VBool b => Some v | _ => None end.
Definition int_ (v : value) : option value :=
  match v with VInt n => Some v | _ => None end.
Definition float_ (v : value) : option value :=
  match v with
  | VFloat x => Some v
  | VInt n => Some (VFloat (float_of_Z n))
  | _ => None
  end.
Definition datetime_ (v : value) : option value :=
  match v with VDate t => Some v | _ => None end.
Definition Optional (t : value → option value) (v : value) : option value :=
  match v with VNull => Some VNull | _ => t v end.
Definition Literal (allowed : list string) (v : value) : option value :=
  match v with
  | VStr s => if bool_decide (s ∈ allowed) then Some v else None
  | _ => None
  end.
Definition List_str (v : value) : option value :=
  match v with VList l => Some v | _ => None end.

(** [Field(..., ge=lo)] and [Field(..., le=hi)] on a field already
    validated by [t] *)
Definition ge (lo : Z) (t : value → option value) (v : value) : option value :=
  x ← t v;
  match x with
  | VInt n => if lo <=? n then Some x else None
  | VFloat y => if PrimFloat.leb (float_of_Z lo) y then Some x else None
  | _ => Some x
  end.
Definition le (hi : Z) (t : value → option value) (v : value) : option value :=
  x ← t v;
  match x with
  | VInt n => if n <=? hi then Some x else None
  | VFloat y => if PrimFloat.leb y (float_of_Z hi) then Some x else None
  | _ => Some x
  end.

Definition Role : list string := ["buyer"; "affiliate"; "admin"].
Definition Gender : list string := ["male"; "female"; "other"; "prefer_not_to_say"].
Definition Vendor : list string :=
  ["amazon"; "flipkart"; "meesho"; "shopify"; "myntra"; "ajio"; "alibaba"; "snapdeal"].

Section Schemas.
Context {libs : Libs}.

Definition HttpUrl_ (v : value) : option value :=
  match v with VStr s => VStr <$> HttpUrl s | _ => None end.
Definition List_HttpUrl (v : value) : option value :=
  match v with VList l => VList <$> mapM HttpUrl l | _ => None end.

Definition User : list field_ := [
  FieldDef "name" str_ None;
  FieldDef "email" str_ None;
  FieldDef "password_hash" str_ None;
  FieldDef "role" (Literal Role) (Some (VStr "buyer"));
  FieldDef "phone" (Optional str_) (Some VNull);
  FieldDef "age" (Optional (le 120 (ge 0 int_))) (Some VNull);
  FieldDef "gender" (Optional (Literal Gender)) (Some VNull);
  FieldDef "photo_url" (Optional str_) (Some VNull);
  FieldDef "is_active" bool_ (Some (VBool true));
  FieldDef "ad_free" bool_ (Some (VBool false)) ].

Definition Product : list field_ := [
  FieldDef "affiliate_id" str_ None;
  FieldDef "title" str_ None;
  FieldDef "description" (Optional str_) (Some VNull);
  FieldDef "price" (ge 0 float_) None;
  FieldDef "margin" (Optional (ge 0 float_)) (Some VNull);
  FieldDef "images" List_HttpUrl (Some (VList []));
  FieldDef "vendor" (Literal Vendor) None;
  FieldDef "affiliate_link" HttpUrl_ None;
  FieldDef "category" (Optional str_) (Some VNull);
  FieldDef "tags" List_str (Some (VList []));
  FieldDef "rating" (le 5 (ge 0 float_)) (Some (VInt 0));
  FieldDef "hot_deal" bool_ (Some (VBool false));
  FieldDef "hot_deal_expires_at" (Optional datetime_) (Some VNull);
  FieldDef "featured" bool_ (Some (VBool false));
  FieldDef "clicks" int_ (Some (VInt 0));
  FieldDef "orders" int_ (Some (VInt 0)) ].

Definition Order : list field_ := [
  FieldDef "user_id" str_ None;
  FieldDef "product_id" str_ None;
  FieldDef "affiliate_id" (Optional str_) (Some VNull);
  FieldDef "status" (Literal ["redirected"; "placed_on_vendor"; "cancelled"])
           (Some (VStr "redirected"));
  FieldDef "vendor_url" (Optional str_) (Some VNull) ].

Definition Click : list field_ := [
  FieldDef "product_id" (Optional str_) (Some VNull);
  FieldDef "affiliate_id" (Optional str_) (Some VNull);
  FieldDef "user_id" (Optional str_) (Some VNull);
  FieldDef "target" (Literal ["product"; "vendor_logo"]) None;
  FieldDef "vendor" (Optional (Literal Vendor)) (Some VNull);
  FieldDef "ip" (Optional str_) (Some VNull);
  FieldDef "user_agent" (Optional str_) (Some VNull) ].

Definition AdminSetting : list field_ := [
  FieldDef "amazon" (Optional HttpUrl_) (Some VNull);
  FieldDef "flipkart" (Optional HttpUrl_) (Some VNull);
  FieldDef "meesho" (Optional HttpUrl_) (Some VNull);
  FieldDef "shopify" (Optional HttpUrl_) (Some VNull);
  FieldDef "myntra" (Optional HttpUrl_) (Some VNull);
  FieldDef "ajio" (Optional HttpUrl_) (Some VNull);
  FieldDef "alibaba" (Optional HttpUrl_) (Some VNull);
  FieldDef "snapdeal" (Optional HttpUrl_) (Some VNull) ].

Definition Subscription : list field_ := [
  FieldDef "user_id" str_ None;
  FieldDef "tx_id" str_ None;
  FieldDef "amount" float_ None;
  FieldDef "starts_at" datetime_ None;
  FieldDef "expires_at" datetime_ None ].

(** Building an instance of a model class from keyword arguments: the
    instance, or pydantic's [ValidationError]. *)
Definition new (schema : list field_) (kwargs : dict) : M dict :=
  match BaseModel schema kwargs with
  | Some d => mret d
  | None => raise ValidationError
  end.

End Schemas.

(** ** Sorted find

    [find(q).sort(key, -1)]: the matching documents, largest key first.  Keys
    of different kinds are ordered by kind as the store orders them (empty
    array, null or missing, numbers, strings, object ids, booleans, dates); an
    array sorts by its largest element. *)

Definition sort_key (v : option value) : option value :=
  match v with
  | Some (VList (s :: l)) =>
      Some (VStr (foldr (λ a b, if String.leb a b then b else a) s l))
  | _ => v
  end.

Definition sort_rank (v : option value) : Z :=
  match v with
  | Some (VList _) => 0
  | None | Some VNull => 1
  | Some (VInt _) | Some (VFloat _) => 2
  | Some (VStr _) => 3
  | Some (VOid _) => 7
  | Some (VBool _) => 8
  | Some (VDate _) => 9
  end.

Definition key_le (a b : option value) : bool :=
  let a := sort_key a in
  let b := sort_key b in
  if sort_rank a <? sort_rank b then true
  else if sort_rank b <? sort_rank a then false
  else match a, b with
       | Some (VInt x), Some (VInt y) => x <=? y
       | Some (VInt x), Some (VFloat y) => PrimFloat.leb (float_of_Z x) y
       | Some (VFloat x), Some (VInt y) => PrimFloat.leb x (float_of_Z y)
       | Some (VFloat x), Some (VFloat y) => PrimFloat.leb x y
       | Some (VStr x), Some (VStr y) => String.leb x y
       | Some (VOid x), Some (VOid y) => String.leb (hex x) (hex y)
       | Some (VBool x), Some (VBool y) => implb x y
       | Some (VDate x), Some (VDate y) => x <=? y
       | _, _ => true
       end.

Fixpoint insert_desc (key : string) (d : document) (l : list document) : list document :=
  match l with
  | [] => [d]
  | x :: l' =>
      if key_le (as_dict x !! key) (as_dict d !! key) then d :: l
      else x :: insert_desc key d l'
  end.

Definition sort_desc (key : string) (l : list document) : list document :=
  foldr (insert_desc key) [] l.

(** ** Requests and responses *)

Record Address : Type := { host : string; port : Z }.

(** A starlette [Request]: the peer address, if known, and the headers
    by lower-case name. *)
Record Request : Type := { client : option Address; headers : gmap string string }.

Inductive response : Type :=
| RedirectResponse (url : value) (status_code : Z)
| JSON_doc (body : dict)                        (* a document *)
| JSON_items (items : list dict)                (* {"items": [...]} *)
| JSON_user (user : option dict)                (* {"user": ...} *)
| JSON_ok                                       (* {"ok": True} *)
| JSON_ok_expires (expires_at : Z)              (* {"ok": True, "expires_at": ...} *)
| JSON_empty                                    (* {} *)
| JSON_stats (total_buyers total_affiliates subscribers : Z) (app_earnings : value).

Definition opt (o : option string) : value :=
  match o with Some s => VStr s | None => VNull end.

(** A document as the handlers return it: [doc["_id"] = str(doc["_id"])]. *)
Definition str_id (d : document) : dict := <["_id" := VStr (str (_id d))]> (fields d).

(** Request bodies, as FastAPI hands them to the handlers (already parsed
    against the handler's [BaseModel]). *)
Module SignupIn.
Record t : Type := {
  name : string; email : string; password : string;
  role : option string; phone : option string; age : option Z;
  gender : option string }.
End SignupIn.

Module LoginIn.
Record t : Type := { email : string; password : string }.
End LoginIn.

Module UserUpdateIn.
(** a field is unset ([None]) or set, possibly to null *)
Record t : Type := {
  name : option (option string); phone : option (option string);
  photo_url : option (option string); ad_free : option (option bool) }.

Definition put {A} (k : string) (f : A → value) (x : option (option A)) (d : dict) : dict :=
  match x with
  | Some (Some a) => <[k := f a]> d
  | Some None => <[k := VNull]> d
  | None => d
  end.

(** [model_dump(exclude_unset=True)] *)
Definition model_dump_exclude_unset (p : t) : dict :=
  put "name" VStr (name p) (put "phone" VStr (phone p)
    (put "photo_url" VStr (photo_url p) (put "ad_free" VBool (ad_free p) ∅))).
End UserUpdateIn.

Module ProductIn.
Record t : Type := {
  affiliate_id : string; title : string; description : option string;
  price : float; margin : option float; images : list string;
  vendor : string; affiliate_link : string; category : option string;
  tags : list string; rating : float; hot_deal : bool;
  hot_deal_expires_at : option Z }.

Definition model_dump (p : t) : dict :=
  <["affiliate_id" := VStr (affiliate_id p)]>
  (<["title" := VStr (title p)]>
  (<["description" := opt (description p)]>
  (<["price" := VFloat (price p)]>
  (<["margin" := from_option VFloat VNull (margin p)]>
  (<["images" := VList (images p)]>
  (<["vendor" := VStr (vendor p)]>
  (<["affiliate_link" := VStr (affiliate_link p)]>
  (<["category" := opt (category p)]>
  (<["tags" := VList (tags p)]>
  (<["rating" := VFloat (rating p)]>
  (<["hot_deal" := VBool (hot_deal p)]>
  (<["hot_deal_expires_at" := from_option VDate VNull (hot_deal_expires_at p)]> ∅)))))))))))).
End ProductIn.

Module OrderIn.
Record t : Type := { user_id : string; product_id : string }.
End OrderIn.

Module SubscriptionIn.
Record t : Type := { user_id : string; tx_id : string; amount : float }.
End SubscriptionIn.

(** An optional string parameter that is given and not empty ([if q:]). *)
Definition given (o : option string) : option string :=
  match o with
  | Some s => if bool_decide (s = "") then None else Some s
  | None => None
  end.

Section Handlers.
Context {libs : Libs}.

Definition find (name : string) (q : filter_) (key : string) : M (list document) := λ _ w,
  (Ok (sort_desc key (filter (λ d, matches q d = true) (collection w name))),
   log (Find name) w).

(** *** Helpers *)

Definition oid (id_str : string) : M ObjectId :=
  match ObjectId_new id_str with
  | Some o => mret o
  | None => raise (HTTPException 400 "Invalid id")
  end.

Definition by_id (o : ObjectId) : filter_ := [Field "_id" (Eq (VOid o))].

Definition hash_password (password : string) : string := sha256_hexdigest password.

Definition strip_password (doc : option document) : option dict :=
  match doc with
  | None => None
  | Some d => Some (<["_id" := VStr (str (_id d))]> (delete "password_hash" (fields d)))
  end.

(** [ObjectId(s)] outside [oid]: its [InvalidId] is not caught. *)
Definition to_ObjectId (s : string) : M ObjectId :=
  match ObjectId_new s with
  | Some o => mret o
  | None => raise InvalidId
  end.

(** [doc["_id"] = str(doc["_id"]); return doc] on the result of a find-one,
    which is [None] when nothing matched. *)
Definition with_str_id (doc : option document) : M response :=
  match doc with
  | Some d => mret (JSON_doc (str_id d))
  | None => raise TypeError
  end.

(** *** Auth and users *)

Definition signup (payload : SignupIn.t) : M response :=
  existing ← find_one "user" [Field "email" (Eq (VStr (SignupIn.email payload)))];
  match existing with
  | Some _ => raise (HTTPException 400 "Account exists — please login instead.")
  | None =>
      user ← new User
        (<["name" := VStr (SignupIn.name payload)]>
         (<["email" := VStr (SignupIn.email payload)]>
         (<["password_hash" := VStr (hash_password (SignupIn.password payload))]>
         (<["role" := match SignupIn.role payload with
                      | Some r => if bool_decide (r ∈ ["buyer"; "affiliate"])
                                  then VStr r else VStr "buyer"
                      | None => VStr "buyer"
                      end]>
         (<["phone" := opt (SignupIn.phone payload)]>
         (<["age" := from_option VInt VNull (SignupIn.age payload)]>
         (<["gender" := opt (SignupIn.gender payload)]> ∅)))))));
      uid ← create_document "user" user;
      i ← to_ObjectId uid;
      created ← find_one "user" (by_id i);
      mret (JSON_user (strip_password created))
  end.

Definition login (payload : LoginIn.t) : M response :=
  user ← find_one "user" [Field "email" (Eq (VStr (LoginIn.email payload)))];
  match user with
  | None => raise (HTTPException 401 "Invalid credentials")
  | Some u =>
      if negb (value_eqb (get u "password_hash")
                         (VStr (hash_password (LoginIn.password payload))))
      then raise (HTTPException 401 "Invalid credentials")
      else mret (JSON_user (strip_password user))
  end.

Definition update_user (user_id : string) (payload : UserUpdateIn.t) : M response :=
  let to_set := UserUpdateIn.model_dump_exclude_unset payload in
  if bool_decide (dom to_set = (∅ : gset string)) then
    i ← oid user_id;
    user ← find_one "user" (by_id i);
    mret (JSON_user (strip_password user))
  else
    t ← utcnow;
    let to_set := <["updated_at" := VDate t]> to_set in
    i ← oid user_id;
    matched_count ← update_one "user" (by_id i) {| inc_ := []; set_ := to_set |};
    if matched_count =? 0 then raise (HTTPException 404 "User not found") else
    i ← oid user_id;
    user ← find_one "user" (by_id i);
    mret (JSON_user (strip_password user)).

Definition list_users (role email : option string) : M response :=
  let filt :=
    match given role with Some r => [Field "role" (Eq (VStr r))] | None => [] end ++
    match given email with Some m => [Field "email" (Regex m "i")] | None => [] end in
  users ← find "user" filt "created_at";
  mret (JSON_items (omap (λ u, strip_password (Some u)) users)).

(** *** Products *)

Definition list_products (q category vendor : option string) (hot_only : bool)
    (affiliate_id : option string) : M response :=
  let filt :=
    match given q with Some x => [Field "title" (Regex x "i")] | None => [] end ++
    match given category with
    | Some c => [Field "category" (Regex (String.append "^" (String.append c "$")) "i")]
    | None => []
    end ++
    match given vendor with
    | Some v => [Field "vendor" (Regex (String.append "^" (String.append v "$")) "i")]
    | None => []
    end ++
    match given affiliate_id with
    | Some a => [Field "affiliate_id" (Eq (VStr a))]
    | None => []
    end in
  filt ← (if hot_only then
            t ← utcnow;
            mret (filt ++ [Field "hot_deal" (Eq (VBool true));
                           Or [("hot_deal_expires_at", Eq VNull);
                               ("hot_deal_expires_at", Gt t)]])
          else mret filt);
  items ← find "product" filt "updated_at";
  mret (JSON_items (str_id <$> items)).

Definition create_product (payload : ProductIn.t) : M response :=
  prod ← new Product (ProductIn.model_dump payload);
  pid ← create_document "product" prod;
  i ← to_ObjectId pid;
  created ← find_one "product" (by_id i);
  with_str_id created.

Definition get_product (product_id : string) : M response :=
  i ← oid product_id;
  doc ← find_one "product" (by_id i);
  match doc with
  | None => raise (HTTPException 404 "Product not found")
  | Some d => mret (JSON_doc (str_id d))
  end.

Definition update_product (product_id : string) (payload : dict) : M response :=
  let payload := delete "_id" payload in
  t ← utcnow;
  let payload := <["updated_at" := VDate t]> payload in
  i ← oid product_id;
  matched_count ← update_one "product" (by_id i) {| inc_ := []; set_ := payload |};
  if matched_count =? 0 then raise (HTTPException 404 "Not found")
  else get_product product_id.

Definition delete_product (product_id : string) : M response :=
  i ← oid product_id;
  deleted_count ← delete_one "product" (by_id i);
  if deleted_count =? 0 then raise (HTTPException 404 "Not found")
  else mret JSON_ok.

(** *** Click tracking and redirects *)

(** The lookup of [redirect_vendor] (lines 241-243): [url = None], then
    [if settings and vendor in settings: url = settings.get(vendor)]. *)
Definition vendor_url (settings : option document) (vendor : string) : value :=
  match settings with
  | Some s => if has_key s vendor then get s vendor else VNull
  | None => VNull
  end.

Definition redirect_vendor (vendor : string) (request : Request) (user_id : option string)
  : M response :=
  settings ← find_one "adminsetting" [];
  let url := vendor_url settings vendor in
  if negb (truthy url) then raise (HTTPException 404 "Link not available yet") else
  click ← new Click
    (<["target" := VStr "vendor_logo"]>
     (<["vendor" := VStr vendor]>
     (<["user_id" := opt user_id]>
     (<["ip" := opt (host <$> client request)]>
     (<["user_agent" := opt (headers request !! "user-agent")]> ∅)))));
  _ ← create_document "click" click;
  mret (RedirectResponse url 302).

Definition redirect_product (product_id : string) (request : Request) (user_id : option string)
  : M response :=
  i ← oid product_id;
  prod ← find_one "product" (by_id i);
  match prod with
  | None => raise (HTTPException 404 "Product not found")
  | Some prod =>
      t ← utcnow;
      _ ← update_one "product" (by_id (_id prod))
            {| inc_ := [("clicks", 1)]; set_ := {["updated_at" := VDate t]} |};
      click ← new Click
        (<["target" := VStr "product"]>
         (<["product_id" := VStr (str (_id prod))]>
         (<["affiliate_id" := get prod "affiliate_id"]>
         (<["user_id" := opt user_id]>
         (<["ip" := opt (host <$> client request)]>
         (<["user_agent" := opt (headers request !! "user-agent")]> ∅))))));
      _ ← create_document "click" click;
      mret (RedirectResponse (get prod "affiliate_link") 302)
  end.

(** *** Orders *)

Definition create_order (payload : OrderIn.t) : M response :=
  i ← oid (OrderIn.product_id payload);
  prod ← find_one "product" (by_id i);
  match prod with
  | None => raise (HTTPException 404 "Product not found")
  | Some prod =>
      order ← new Order
        (<["user_id" := VStr (OrderIn.user_id payload)]>
         (<["product_id" := VStr (OrderIn.product_id payload)]>
         (<["affiliate_id" := get prod "affiliate_id"]>
         (<["status" := VStr "redirected"]>
         (<["vendor_url" := get prod "affiliate_link"]> ∅)))));
      oid_str ← create_document "order" order;
      _ ← update_one "product" (by_id (_id prod)) {| inc_ := [("orders", 1)]; set_ := ∅ |};
      j ← to_ObjectId oid_str;
      created ← find_one "order" (by_id j);
      with_str_id created
  end.

Definition list_orders (user_id affiliate_id : option string) : M response :=
  let filt :=
    match given user_id with Some u => [Field "user_id" (Eq (VStr u))] | None => [] end ++
    match given affiliate_id with
    | Some a => [Field "affiliate_id" (Eq (VStr a))]
    | None => []
    end in
  items ← find "order" filt "created_at";
  mret (JSON_items (str_id <$> items)).

(** *** Subscriptions *)

(** [timedelta(days=30)], in milliseconds *)
Definition days_30 : Z := 30 * 24 * 60 * 60 * 1000.

Definition create_subscription (payload : SubscriptionIn.t) : M response :=
  t ← utcnow;
  let expires := t + days_30 in
  sub ← new Subscription
    (<["user_id" := VStr (SubscriptionIn.user_id payload)]>
     (<["tx_id" := VStr (SubscriptionIn.tx_id payload)]>
     (<["amount" := VFloat (SubscriptionIn.amount payload)]>
     (<["starts_at" := VDate t]>
     (<["expires_at" := VDate expires]> ∅)))));
  _ ← create_document "subscription" sub;
  i ← oid (SubscriptionIn.user_id payload);
  _ ← update_one "user" (by_id i)
        {| inc_ := []; set_ := <["ad_free" := VBool true]> {["updated_at" := VDate t]} |};
  mret (JSON_ok_expires expires).

Definition list_subscriptions (user_id : option string) : M response :=
  let filt :=
    match given user_id with Some u => [Field "user_id" (Eq (VStr u))] | None => [] end in
  items ← find "subscription" filt "created_at";
  mret (JSON_items (str_id <$> items)).

(** *** Admin settings and stats *)

Definition get_admin_settings : M response :=
  doc ← find_one "adminsetting" [];
  match doc with
  | None => mret JSON_empty
  | Some d => mret (JSON_doc (str_id d))
  end.

Definition save_admin_settings (payload : dict) : M response :=
  let payload := delete "_id" payload in
  existing ← find_one "adminsetting" [];
  _ ← match existing with
      | Some ex =>
          _ ← update_one "adminsetting" (by_id (_id ex)) {| inc_ := []; set_ := payload |};
          mret tt
      | None =>
          setting ← new AdminSetting payload;
          _ ← create_document "adminsetting" setting;
          mret tt
      end;
  get_admin_settings.

Definition count_documents (name : string) (q : filter_) : M Z := λ _ w,
  (Ok (Z.of_nat (length (filter (λ d, matches q d = true) (collection w name)))),
   log (CountDocuments name) w).

Definition add_number (acc v : value) : value :=
  match acc, v with
  | VInt a, VInt b => VInt (a + b)
  | VInt a, VFloat y => VFloat (float_of_Z a + y)
  | VFloat x, VInt b => VFloat (x + float_of_Z b)
  | VFloat x, VFloat y => VFloat (x + y)
  | _, _ => acc
  end.

(** [aggregate([{"$group": {"_id": None, "sum": {"$sum": "$" + key}}}])]:
    one row for a collection that has documents, none otherwise. *)
Definition aggregate_sum (name key : string) : M (list value) := λ _ w,
  (Ok match collection w name with
      | [] => []
      | l => [foldl (λ acc d, add_number acc (get d key)) (VInt 0) l]
      end,
   log (Aggregate name) w).

Definition admin_stats : M response :=
  buyers ← count_documents "user" [Field "role" (Eq (VStr "buyer"))];
  affiliates ← count_documents "user" [Field "role" (Eq (VStr "affiliate"))];
  t ← utcnow;
  subscribers ← count_documents "subscription" [Field "expires_at" (Gt t)];
  earnings ← aggregate_sum "subscription" "amount";
  let total_earnings := foldl (λ _ r, r) (VInt 0) earnings in
  mret (JSON_stats buyers affiliates subscribers total_earnings).

(** ** The API

    Every endpoint of [main.py] that works on documents.  The three others
    ([/], [/test] and [/schema]) return constants and connection data. *)
Inductive api_call : Type :=
| Signup (payload : SignupIn.t)
| Login (payload : LoginIn.t)
| UpdateUser (user_id : string) (payload : UserUpdateIn.t)
| ListUsers (role email : option string)
| ListProducts (q category vendor : option string) (hot_only : bool)
               (affiliate_id : option string)
| CreateProduct (payload : ProductIn.t)
| GetProduct (product_id : string)
| UpdateProduct (product_id : string) (payload : dict)
| DeleteProduct (product_id : string)
| RedirectVendor (vendor : string) (request : Request) (user_id : option string)
| RedirectProduct (product_id : string) (request : Request) (user_id : option string)
| CreateOrder (payload : OrderIn.t)
| ListOrders (user_id affiliate_id : option string)
| CreateSubscription (payload : SubscriptionIn.t)
| ListSubscriptions (user_id : option string)
| GetAdminSettings
| SaveAdminSettings (payload : dict)
| AdminStats.

Definition handle (c : api_call) : M response :=
  match c with
  | Signup p => signup p
  | Login p => login p
  | UpdateUser u p => update_user u p
  | ListUsers r m => list_users r m
  | ListProducts q c v h a => list_products q c v h a
  | CreateProduct p => create_product p
  | GetProduct i => get_product i
  | UpdateProduct i p => update_product i p
  | DeleteProduct i => delete_product i
  | RedirectVendor v r u => redirect_vendor v r u
  | RedirectProduct i r u => redirect_product i r u
  | CreateOrder p => create_order p
  | ListOrders u a => list_orders u a
  | CreateSubscription p => create_subscription p
  | ListSubscriptions u => list_subscriptions u
  | GetAdminSettings => get_admin_settings
  | SaveAdminSettings p => save_admin_settings p
  | AdminStats => admin_stats
  end.

(** Requests served one after the other, each with its own environment. *)
Fixpoint run (l : list (env * api_call)) (w : world) : list (outcome response) * world :=
  match l with
  | [] => ([], w)
  | ec :: l' =>
      let r := handle ec.2 ec.1 w in
      let rs := run l' r.2 in
      (r.1 :: rs.1, rs.2)
  end.

End Handlers.

(** * Vocabulary of the properties *)

Section Vocabulary.
Context {libs : Libs}.

(** The document of collection [name] that find-one returns for an id. *)
Definition lookup_id (l : list document) (i : ObjectId) : option document :=
  head (filter (λ d, matches (by_id i) d = true) l).
Definition stored (w : world) (name : string) (i : ObjectId) : option document :=
  lookup_id (collection w name) i.

(** An integer counter of a document; a missing counter counts as 0, which
    is how [$inc] reads it. *)
Definition counter (d : document) (k : string) : Z :=
  match fields d !! k with Some (VInt n) => n | _ => 0 end.

(** The types the [Product] schema gives the two fields the redirect reads
    from a stored product: [clicks] holds an [int] (or is missing) and
    [affiliate_id] holds a [str] (or null, or is missing). *)
Definition is_int_field (d : document) (k : string) : bool :=
  match fields d !! k with None | Some (VInt _) => true | _ => false end.
Definition is_str_field (d : document) (k : string) : bool :=
  match fields d !! k with None | Some VNull | Some (VStr _) => true | _ => false end.

(** A field that [$inc] accepts: it holds a number, or is missing. *)
Definition is_number_field (d : document) (k : string) : bool :=
  match fields d !! k with None | Some (VInt _) | Some (VFloat _) => true | _ => false end.

(** A [Click] instance, field by field in schema order. *)
Definition click_fields (product_id affiliate_id user_id target vendor ip user_agent : value)
  : dict :=
  <["product_id" := product_id]> (<["affiliate_id" := affiliate_id]>
  (<["user_id" := user_id]> (<["target" := target]> (<["vendor" := vendor]>
  (<["ip" := ip]> (<["user_agent" := user_agent]> ∅)))))).

(** [n] product redirects for the same id, one after the other, each with
    its own request, user and environment. *)
Definition redirects (product_id : string) (reqs : list (env * (Request * option string)))
  : list (env * api_call) :=
  map (λ r, (r.1, RedirectProduct product_id r.2.1 r.2.2)) reqs.

(** The hot deals at [now], in the words of the spec: [hot_deal] is true and
    [hot_deal_expires_at] is null or later than [now]. *)
Definition is_hot_deal (now : Z) (d : document) : bool :=
  match get d "hot_deal" with
  | VBool true =>
      match get d "hot_deal_expires_at" with
      | VNull => true
      | VDate t => now <? t
      | _ => false
      end
  | _ => false
  end.

(** The filter [list_products] builds for [hot_only]. *)
Definition hot_filter (now : Z) : filter_ :=
  [Field "hot_deal" (Eq (VBool true));
   Or [("hot_deal_expires_at", Eq VNull); ("hot_deal_expires_at", Gt now)]].

(** [effect name P m]: whatever [m] does, collection [name] before and after
    it are related by [P]; [frames name m]: [m] leaves the collection as it
    is. *)
Definition effect (name : string) (P : list document → list document → Prop)
    {A : Type} (m : M A) : Prop :=
  ∀ e w, P (collection w name) (collection (m e w).2 name).

Definition frames (name : string) {A : Type} (m : M A) : Prop := effect name eq m.

End Vocabulary.

(** * Vocabulary of the endpoint properties *)

Section EndpointVocabulary.
Context {libs : Libs}.

(** The endpoints that only read: the GET endpoints on documents, and login. *)
Definition is_read (c : api_call) : bool :=
  match c with
  | Login _ | ListUsers _ _ | ListProducts _ _ _ _ _ | GetProduct _
  | ListOrders _ _ | ListSubscriptions _ | GetAdminSettings | AdminStats => true
  | _ => false
  end.

(** [keeps_db m]: [m] leaves the whole database as it is. *)
Definition keeps_db {A : Type} (m : M A) : Prop := ∀ e w, db (m e w).2 = db w.

(** The first stored user with an email, as [find_one({"email": email})]
    finds it. *)
Definition user_by_email (w : world) (email : string) : option document :=
  head (filter (λ d, matches [Field "email" (Eq (VStr email))] d = true)
               (collection w "user")).

(** No user document of a response carries a password hash. *)
Definition no_password_hash (r : response) : Prop :=
  match r with
  | JSON_user (Some u) => u !! "password_hash" = None
  | JSON_items items => Forall (λ u : dict, u !! "password_hash" = None) items
  | _ => True
  end.

(** The endpoints that answer with user documents. *)
Definition is_user_endpoint (c : api_call) : bool :=
  match c with
  | Signup _ | Login _ | UpdateUser _ _ | ListUsers _ _ => true
  | _ => false
  end.

(** [returns P m]: whenever [m] answers, its answer satisfies [P]. *)
Definition returns {A : Type} (P : A → Prop) (m : M A) : Prop :=
  ∀ e w a w', m e w = (Ok a, w') → P a.

(** What [signup] checks of its payload through the [User] schema: the age,
    if given, is between 0 and 120, and the gender, if given, is one of the
    [Gender] names. *)
Definition signup_valid (p : SignupIn.t) : bool :=
  match SignupIn.age p with
  | Some n => (0 <=? n) && (n <=? 120)
  | None => true
  end &&
  match SignupIn.gender p with
  | Some g => bool_decide (g ∈ Gender)
  | None => true
  end.

(** The role [signup] stores. *)
Definition signup_role (p : SignupIn.t) : string :=
  match SignupIn.role p with
  | Some r => if bool_decide (r ∈ ["buyer"; "affiliate"]) then r else "buyer"
  | None => "buyer"
  end.

(** The [User] instance [signup] builds, field by field in schema order. *)
Definition new_user (p : SignupIn.t) : dict :=
  <["name" := VStr (SignupIn.name p)]>
  (<["email" := VStr (SignupIn.email p)]>
  (<["password_hash" := VStr (hash_password (SignupIn.password p))]>
  (<["role" := VStr (signup_role p)]>
  (<["phone" := opt (SignupIn.phone p)]>
  (<["age" := from_option VInt VNull (SignupIn.age p)]>
  (<["gender" := opt (SignupIn.gender p)]>
  (<["photo_url" := VNull]>
  (<["is_active" := VBool true]>
  (<["ad_free" := VBool false]> ∅))))))))).

(** The world after [signup] has stored its user. *)
Definition signed_up (p : SignupIn.t) (e : env) (w : world) : world :=
  {| db := <["user" := collection w "user" ++
              [Document (new_id e) (<["created_at" := VDate (now e)]> (new_user p))]]> (db w);
     calls := (calls w ++ [FindOne "user"]) ++ [InsertOne "user"] |}.

(** The document [signup] stores. *)
Definition signed_up_user (p : SignupIn.t) (e : env) : document :=
  Document (new_id e) (<["created_at" := VDate (now e)]> (new_user p)).

(** The document [create_product] stores for a validated [Product]. *)
Definition created_product (prod : dict) (e : env) : document :=
  Document (new_id e) (<["created_at" := VDate (now e)]> prod).

(** The world after [create_product] has stored it. *)
Definition with_product (prod : dict) (e : env) (w : world) : world :=
  {| db := <["product" := collection w "product" ++ [created_product prod e]]> (db w);
     calls := calls w ++ [InsertOne "product"] |}.

(** An [Order] instance, field by field in schema order. *)
Definition order_fields (user_id product_id affiliate_id status vendor_url : value) : dict :=
  <["user_id" := user_id]> (<["product_id" := product_id]>
  (<["affiliate_id" := affiliate_id]> (<["status" := status]>
  (<["vendor_url" := vendor_url]> ∅)))).

(** The subscription [create_subscription] stores. *)
Definition new_subscription (payload : SubscriptionIn.t) (e : env) : document :=
  Document (new_id e)
    (<["created_at" := VDate (now e)]>
     (<["user_id" := VStr (SubscriptionIn.user_id payload)]>
     (<["tx_id" := VStr (SubscriptionIn.tx_id payload)]>
     (<["amount" := VFloat (SubscriptionIn.amount payload)]>
     (<["starts_at" := VDate (now e)]>
     (<["expires_at" := VDate (now e + days_30)]> ∅)))))).

(** The world after [create_subscription] has stored it. *)
Definition subscribed (payload : SubscriptionIn.t) (e : env) (w : world) : world :=
  {| db := <["subscription" := collection w "subscription" ++ [new_subscription payload e]]>
             (db w);
     calls := calls w ++ [InsertOne "subscription"] |}.

(** A field that holds a string, as an equality filter of the store reads
    it: the field is that string, or an array that contains it. *)
Definition holds_str (v : value) (s : string) : Prop :=
  v = VStr s ∨ ∃ l, v = VList l ∧ s ∈ l.

(** The collection a request inserts into, if any. *)
Definition appends_to (c : api_call) : option string :=
  match c with
  | Signup _ => Some "user"
  | CreateProduct _ => Some "product"
  | RedirectVendor _ _ _ | RedirectProduct _ _ _ => Some "click"
  | CreateOrder _ => Some "order"
  | CreateSubscription _ => Some "subscription"
  | SaveAdminSettings _ => Some "adminsetting"
  | _ => None
  end.

(** How a request may change the user collection: not at all, by one more
    user at the end, or by a [$set] on the user with some id that names none
    of [email], [password_hash], [role] and [_id]. *)
Definition user_change (l l' : list document) : Prop :=
  l' = l ∨ (∃ d, l' = l ++ [d]) ∨
  ∃ j s n, s !! "email" = None ∧ s !! "password_hash" = None ∧ s !! "role" = None ∧
           s !! "_id" = None ∧
           update_first (by_id j) {| inc_ := []; set_ := s |} l = Some (n, l').

End EndpointVocabulary.

(** * Example data *)

(** A stand-in for the libraries in the examples: no regular expression
    matches, every URL is valid as it is, and the digest is the identity. *)
Definition example_libs : Libs :=
  {| regex_search := λ _ _ _, false;
     HttpUrl := λ s, Some s;
     sha256_hexdigest := λ s, s |}.

Definition id_a : ObjectId := Oid "aaaaaaaaaaaaaaaaaaaaaaaa".
Definition id_b : ObjectId := Oid "bbbbbbbbbbbbbbbbbbbbbbbb".
Definition id_c : ObjectId := Oid "cccccccccccccccccccccccc".
Definition id_d : ObjectId := Oid "dddddddddddddddddddddddd".

Definition env_1 : env := {| now := 1000; new_id := id_d |}.
Definition env_2 : env := {| now := 2000; new_id := id_c |}.
Definition env_3 : env := {| now := 3000; new_id := id_b |}.

Definition curl : Request :=
  {| client := Some {| host := "10.0.0.7"; port := 40000 |};
     headers := {["user-agent" := "curl/8.5"]} |}.

Definition empty_world : world := {| db := ∅; calls := [] |}.

(** A shop with one product that has been clicked five times. *)
Definition prod_a : document :=
  Document id_a
    (<["affiliate_id" := VStr "u1"]>
     (<["affiliate_link" := VStr "https://www.amazon.in/dp/B0?tag=u1"]>
     (<["clicks" := VInt 5]> (<["orders" := VInt 2]> ∅)))).

Definition shop : world := {| db := {["product" := [prod_a]]}; calls := [] |}.

(** The same product without a link. *)
Definition prod_no_link : document :=
  Document id_a (<["affiliate_id" := VStr "u1"]> (<["clicks" := VInt 5]> ∅)).
Definition shop_no_link : world := {| db := {["product" := [prod_no_link]]}; calls := [] |}.

(** Settings that were created empty and then saved with a link for a
    vendor name outside the [Vendor] enumeration. *)
Definition ebay_link : string := "https://www.ebay.com/?campid=7".
Definition settings_ebay : world :=
  (run (libs := example_libs)
       [(env_1, SaveAdminSettings ∅);
        (env_2, SaveAdminSettings {["ebay" := VStr ebay_link]});
        (env_2, SaveAdminSettings {["amazon" := VStr "https://www.amazon.in/?tag=s"]})]
       empty_world).2.

(** Products A (hot, no expiry), B (hot, expired an hour before [now] of
    [env_hot]) and C (not hot). *)
Definition env_hot : env := {| now := 7200000; new_id := id_d |}.
Definition deal_a : document :=
  Document id_a (<["hot_deal" := VBool true]> (<["hot_deal_expires_at" := VNull]> ∅)).
Definition deal_b : document :=
  Document id_b (<["hot_deal" := VBool true]> (<["hot_deal_expires_at" := VDate 3600000]> ∅)).
Definition deal_c : document :=
  Document id_c (<["hot_deal" := VBool false]> (<["hot_deal_expires_at" := VNull]> ∅)).
Definition deals : world :=
  {| db := {["product" := [deal_b; deal_c; deal_a]]}; calls := [] |}.

Definition three_requests : list (env * (Request * option string)) :=
  [(env_1, (curl, None)); (env_2, (curl, Some "u9")); (env_3, (curl, Some "u3"))].

(** Settings with a link for amazon and none for flipkart. *)
Definition settings_doc : document :=
  Document id_b (<["amazon" := VStr "https://www.amazon.in/?tag=s"]> (<["flipkart" := VNull]> ∅)).
Definition configured : world :=
  {| db := {["adminsetting" := [settings_doc]]}; calls := [] |}.

(** A user base with one buyer (under [example_libs] the hash of a password
    is the password). *)
Definition user_ann : document :=
  Document id_b
    (<["name" := VStr "Ann"]>
     (<["email" := VStr "ann@example.com"]>
     (<["password_hash" := VStr "secret"]>
     (<["role" := VStr "buyer"]>
     (<["ad_free" := VBool false]> ∅))))).
Definition members : world := {| db := {["user" := [user_ann]]}; calls := [] |}.

Definition login_ann : LoginIn.t :=
  {| LoginIn.email := "ann@example.com"; LoginIn.password := "secret" |}.

(** Signups: with Ann's email; Bob, who asks for the admin role; and a
    profile with an age above 120. *)
Definition signup_ann : SignupIn.t :=
  {| SignupIn.name := "Ann"; SignupIn.email := "ann@example.com";
     SignupIn.password := "other"; SignupIn.role := None; SignupIn.phone := None;
     SignupIn.age := None; SignupIn.gender := None |}.
Definition signup_bob : SignupIn.t :=
  {| SignupIn.name := "Bob"; SignupIn.email := "bob@example.com";
     SignupIn.password := "hunter2"; SignupIn.role := Some "admin";
     SignupIn.phone := None; SignupIn.age := Some 30; SignupIn.gender := Some "male" |}.
Definition signup_old : SignupIn.t :=
  {| SignupIn.name := "Old"; SignupIn.email := "old@example.com";
     SignupIn.password := "x"; SignupIn.role := None; SignupIn.phone := None;
     SignupIn.age := Some 130; SignupIn.gender := None |}.

(** A user update that sets the name only. *)
Definition rename_ann : UserUpdateIn.t :=
  {| UserUpdateIn.name := Some (Some "Ann B."); UserUpdateIn.phone := None;
     UserUpdateIn.photo_url := None; UserUpdateIn.ad_free := None |}.

(** A product payload, the same with a vendor outside the enumeration, and
    the [Product] instance the first validates to. *)
Definition new_phone : ProductIn.t :=
  {| ProductIn.affiliate_id := "u1"; ProductIn.title := "Phone";
     ProductIn.description := None; ProductIn.price := 199%float;
     ProductIn.margin := None; ProductIn.images := [];
     ProductIn.vendor := "amazon";
     ProductIn.affiliate_link := "https://www.amazon.in/dp/B1?tag=u1";
     ProductIn.category := None; ProductIn.tags := ["phones"];
     ProductIn.rating := 4.5%float; ProductIn.hot_deal := false;
     ProductIn.hot_deal_expires_at := None |}.
Definition ebay_phone : ProductIn.t :=
  {| ProductIn.affiliate_id := "u1"; ProductIn.title := "Phone";
     ProductIn.description := None; ProductIn.price := 199%float;
     ProductIn.margin := None; ProductIn.images := [];
     ProductIn.vendor := "ebay";
     ProductIn.affiliate_link := "https://www.ebay.com/itm/1";
     ProductIn.category := None; ProductIn.tags := [];
     ProductIn.rating := 4.5%float; ProductIn.hot_deal := false;
     ProductIn.hot_deal_expires_at := None |}.
Definition phone_product : dict :=
  <["featured" := VBool false]>
  (<["clicks" := VInt 0]> (<["orders" := VInt 0]> (ProductIn.model_dump new_phone))).

Definition order_a : OrderIn.t :=
  {| OrderIn.user_id := "u9"; OrderIn.product_id := "aaaaaaaaaaaaaaaaaaaaaaaa" |}.
Definition order_c : OrderIn.t :=
  {| OrderIn.user_id := "u9"; OrderIn.product_id := "cccccccccccccccccccccccc" |}.

Definition subscription_ann : SubscriptionIn.t :=
  {| SubscriptionIn.user_id := "bbbbbbbbbbbbbbbbbbbbbbbb"; SubscriptionIn.tx_id := "tx-1";
     SubscriptionIn.amount := 99%float |}.

(** The shop after the generic product update has stored a number as the
    product's [affiliate_id], and after it has stored text as its
    [clicks]; the shop without a link after the first of these updates. *)
Definition shop_affiliate_7 : world :=
  (handle (libs := example_libs)
          (UpdateProduct "aaaaaaaaaaaaaaaaaaaaaaaa" {["affiliate_id" := VInt 7]})
          env_1 shop).2.
Definition shop_clicks_text : world :=
  (handle (libs := example_libs)
          (UpdateProduct "aaaaaaaaaaaaaaaaaaaaaaaa" {["clicks" := VStr "5"]})
          env_1 shop).2.
Definition shop_no_link_affiliate_7 : world :=
  (handle (libs := example_libs)
          (UpdateProduct "aaaaaaaaaaaaaaaaaaaaaaaa" {["affiliate_id" := VInt 7]})
          env_1 shop_no_link).2.

(** A store that holds a second settings document behind [settings_doc],
    with another link for amazon and a link for flipkart. *)
Definition settings_other : document :=
  Document id_c
    (<["amazon" := VStr "https://www.amazon.in/?tag=other"]>
     (<["flipkart" := VStr "https://www.flipkart.com/?affid=other"]> ∅)).
Definition two_settings : world :=
  {| db := {["adminsetting" := [settings_doc; settings_other]]}; calls := [] |}.

(** * Properties *)

Section Properties.
Context {libs : Libs}.

(** ** The store *)

Lemma as_dict_id d : as_dict d !! "_id" = Some (VOid (_id d)).
Proof. unfold as_dict. by rewrite lookup_insert_eq. Qed.

Lemma as_dict_field d k : k ≠ "_id" → as_dict d !! k = fields d !! k.
Proof. intros Hk. unfold as_dict. by rewrite lookup_insert_ne. Qed.

Lemma matches_by_id i d : matches (by_id i) d = bool_decide (i = _id d).
Proof.
  unfold matches, by_id. simpl. rewrite as_dict_id. simpl.
  by rewrite andb_true_r.
Qed.

Lemma matches_all d : matches [] d = true.
Proof. reflexivity. Qed.

Lemma filter_all (l : list document) : filter (λ d, matches [] d = true) l = l.
Proof.
  induction l as [|d l IH]; [done|].
  rewrite filter_cons_True; [by rewrite IH | done].
Qed.

Lemma find_one_all name e w :
  find_one name [] e w = (Ok (head (collection w name)), log (FindOne name) w).
Proof. unfold find_one. by rewrite filter_all. Qed.

Lemma find_one_by_id name i e w :
  find_one name (by_id i) e w = (Ok (stored w name i), log (FindOne name) w).
Proof. reflexivity. Qed.

Lemma stored_id w name i p : stored w name i = Some p → _id p = i.
Proof.
  unfold stored, lookup_id. intros Hp. apply head_Some_elem_of in Hp.
  apply list_elem_of_filter in Hp as [Hm _].
  rewrite matches_by_id in Hm. by apply bool_decide_eq_true in Hm.
Qed.

Lemma collection_log c w name : collection (log c w) name = collection w name.
Proof. reflexivity. Qed.

Lemma stored_log c w name i : stored (log c w) name i = stored w name i.
Proof. reflexivity. Qed.

Lemma lookup_id_cons d l i :
  lookup_id (d :: l) i = if decide (i = _id d) then Some d else lookup_id l i.
Proof.
  unfold lookup_id. destruct (decide (i = _id d)) as [->|Hne].
  - rewrite filter_cons_True; [done|]. rewrite matches_by_id. by apply bool_decide_eq_true.
  - rewrite filter_cons_False; [done|]. rewrite matches_by_id.
    intros Hm. by apply bool_decide_eq_true in Hm.
Qed.

Lemma lookup_id_app_l l d i :
  lookup_id (l ++ [d]) i =
  match lookup_id l i with Some p => Some p | None => lookup_id [d] i end.
Proof.
  induction l as [|x l IH]; [done|].
  rewrite <- app_comm_cons, (lookup_id_cons x (l ++ [d])), (lookup_id_cons x l).
  destruct (decide (i = _id x)); [done | exact IH].
Qed.

Lemma apply_update_id u d d' : apply_update u d = Some d' → _id d' = _id d.
Proof.
  unfold apply_update. intros Hu.
  destruct (apply_incs (fields d) (inc_ u)) as [fs|]; [|done]. simpl in Hu.
  destruct (set_ u !! "_id") as [v|].
  - destruct (value_eqb v (VOid (_id d))); [|done]. by inversion Hu.
  - by inversion Hu.
Qed.

(** An update by id leaves every other document alone and replaces the one
    with that id, if there is one. *)
Lemma update_first_by_id u l j n l' :
  update_first (by_id j) u l = Some (n, l') →
  length l' = length l ∧
  (∀ i, i ≠ j → lookup_id l' i = lookup_id l i) ∧
  match lookup_id l j with
  | Some p => n = 1 ∧ ∃ p', apply_update u p = Some p' ∧ lookup_id l' j = Some p'
  | None => n = 0 ∧ l' = l
  end.
Proof.
  revert n l'. induction l as [|d l IH]; intros n l' Hu; cbn [update_first] in Hu.
  - inversion Hu; subst. done.
  - rewrite matches_by_id in Hu. rewrite lookup_id_cons.
    destruct (decide (j = _id d)) as [->|Hne].
    + rewrite bool_decide_eq_true_2 in Hu; [|done].
      destruct (apply_update u d) as [d'|] eqn:Hd; [|done]. simpl in Hu.
      inversion Hu; subst. pose proof (apply_update_id _ _ _ Hd) as Hid.
      split; [done|]. split.
      * intros i Hi. rewrite !lookup_id_cons, Hid. by destruct (decide (i = _id d)).
      * split; [done|]. exists d'. split; [done|].
        rewrite lookup_id_cons, Hid. by rewrite decide_True.
    + rewrite bool_decide_eq_false_2 in Hu; [|done].
      destruct (update_first (by_id j) u l) as [[m r]|] eqn:Hr; [|done].
      simpl in Hu. inversion Hu; subst.
      destruct (IH _ _ eq_refl) as (Hlen & Hother & Hj).
      split; [simpl; by rewrite Hlen|]. split.
      * intros i Hi. rewrite !lookup_id_cons. rewrite Hother; done.
      * destruct (lookup_id l j) as [p|].
        -- destruct Hj as (-> & p' & Hp' & Hl). split; [done|]. exists p'.
           split; [done|]. rewrite lookup_id_cons. by rewrite decide_False.
        -- destruct Hj as [-> ->]. done.
Qed.

(** Such an update succeeds whenever the update of the found document does. *)
Lemma update_first_found u l j p p' :
  lookup_id l j = Some p → apply_update u p = Some p' →
  ∃ l', update_first (by_id j) u l = Some (1, l').
Proof.
  revert p. induction l as [|d l IH]; intros p Hp Hu; [done|].
  rewrite lookup_id_cons in Hp. cbn [update_first]. rewrite matches_by_id.
  destruct (decide (j = _id d)) as [->|Hne].
  - inversion Hp; subst. rewrite bool_decide_eq_true_2; [|done].
    rewrite Hu. simpl. eauto.
  - rewrite bool_decide_eq_false_2; [|done].
    destruct (IH _ Hp Hu) as [l' ->]. simpl. eauto.
Qed.

Lemma update_first_not_found u l j :
  lookup_id l j = None → update_first (by_id j) u l = Some (0, l).
Proof.
  induction l as [|d l IH]; intros Hp; [done|].
  rewrite lookup_id_cons in Hp. cbn [update_first]. rewrite matches_by_id.
  destruct (decide (j = _id d)) as [->|Hne]; [done|].
  rewrite bool_decide_eq_false_2; [|done]. by rewrite IH.
Qed.

(** ** Click records *)

Lemma Optional_str_opt o : Optional str_ (opt o) = Some (opt o).
Proof. by destruct o. Qed.

Lemma Click_product pid aff uid ip ua :
  Optional str_ aff = Some aff →
  BaseModel Click
    (<["target" := VStr "product"]>
     (<["product_id" := VStr pid]>
     (<["affiliate_id" := aff]>
     (<["user_id" := opt uid]>
     (<["ip" := opt ip]>
     (<["user_agent" := opt ua]> ∅))))))
  = Some (click_fields (VStr pid) aff (opt uid) (VStr "product") VNull (opt ip) (opt ua)).
Proof.
  intros Haff. unfold Click. cbn [BaseModel fname ftype fdefault].
  repeat (rewrite lookup_insert_eq || (rewrite lookup_insert_ne by done)).
  rewrite lookup_empty.
  rewrite Haff, !Optional_str_opt. reflexivity.
Qed.

Lemma Click_vendor vendor uid ip ua :
  BaseModel Click
    (<["target" := VStr "vendor_logo"]>
     (<["vendor" := VStr vendor]>
     (<["user_id" := opt uid]>
     (<["ip" := opt ip]>
     (<["user_agent" := opt ua]> ∅)))))
  = if bool_decide (vendor ∈ Vendor)
    then Some (click_fields VNull VNull (opt uid) (VStr "vendor_logo") (VStr vendor)
                            (opt ip) (opt ua))
    else None.
Proof.
  unfold Click. cbn [BaseModel fname ftype fdefault].
  repeat (rewrite lookup_insert_eq || (rewrite lookup_insert_ne by done)).
  rewrite lookup_empty, !Optional_str_opt.
  cbn [Optional Literal]. by destruct (bool_decide (vendor ∈ Vendor)).
Qed.

(** ** Counters *)

Lemma apply_update_inc k s d :
  k ≠ "_id" → s !! "_id" = None → is_int_field d k = true →
  apply_update {| inc_ := [(k, 1)]; set_ := s |} d =
  Some {| _id := _id d; fields := s ∪ <[k := VInt (counter d k + 1)]> (fields d) |}.
Proof.
  intros Hk Hs Hint. unfold apply_update, is_int_field, counter in *.
  cbn [inc_ set_ apply_incs]. unfold apply_inc. cbn [fst snd].
  rewrite bool_decide_eq_false_2 by done. rewrite Hs.
  by destruct (fields d !! k) as [[]|].
Qed.

(** A field [$inc] accepts stays in place; every other field is as
    before, but for [updated_at]. *)
Lemma apply_update_inc_number k s d :
  k ≠ "_id" → s !! "_id" = None → is_number_field d k = true →
  ∃ v, apply_update {| inc_ := [(k, 1)]; set_ := s |} d =
       Some {| _id := _id d; fields := s ∪ <[k := v]> (fields d) |}.
Proof.
  intros Hk Hs Hnum. unfold apply_update, is_number_field in *.
  cbn [inc_ set_ apply_incs]. unfold apply_inc. cbn [fst snd].
  rewrite bool_decide_eq_false_2 by done. rewrite Hs.
  destruct (fields d !! k) as [[]|]; try done; eauto.
Qed.

(** What one product redirect does to a world in which the product is
    stored and the store accepts the update of its counter: the product is
    replaced by the updated one, and then the click is recorded and the
    redirect returned, or the [Click] schema refuses the record. *)
Lemma redirect_product_steps product_id request user_id e w i prod prod' :
  ObjectId_new product_id = Some i →
  stored w "product" i = Some prod →
  apply_update {| inc_ := [("clicks", 1)]; set_ := {["updated_at" := VDate (now e)]} |} prod
    = Some prod' →
  ∃ l',
    (∀ j, j ≠ i → lookup_id l' j = lookup_id (collection w "product") j) ∧
    lookup_id l' i = Some prod' ∧
    redirect_product product_id request user_id e w =
      match BaseModel Click
              (<["target" := VStr "product"]>
               (<["product_id" := VStr (str i)]>
               (<["affiliate_id" := get prod "affiliate_id"]>
               (<["user_id" := opt user_id]>
               (<["ip" := opt (host <$> client request)]>
               (<["user_agent" := opt (headers request !! "user-agent")]> ∅)))))) with
      | Some c =>
          (Ok (RedirectResponse (get prod "affiliate_link") 302),
           {| db := <["click" := collection w "click" ++
                       [Document (new_id e) (<["created_at" := VDate (now e)]> c)]]>
                    (<["product" := l']> (db w));
              calls := ((calls w ++ [FindOne "product"]) ++ [UpdateOne "product"])
                       ++ [InsertOne "click"] |})
      | None =>
          (Raise ValidationError,
           {| db := <["product" := l']> (db w);
              calls := (calls w ++ [FindOne "product"]) ++ [UpdateOne "product"] |})
      end.
Proof.
  intros Hoid Hst Hup.
  pose proof (stored_id _ _ _ _ Hst) as Hid. subst i.
  destruct (update_first_found _ _ _ _ _ Hst Hup) as [l' Hl'].
  destruct (update_first_by_id _ _ _ _ _ Hl') as (_ & Hother & Hj).
  unfold stored in Hst. rewrite Hst in Hj. destruct Hj as (_ & p' & Hp' & Hlk).
  rewrite Hup in Hp'. inversion Hp'; subst p'. clear Hp'.
  exists l'. split; [done|]. split; [done|].
  unfold redirect_product, mbind, M_bind, oid. rewrite Hoid. cbn [mret M_ret].
  rewrite find_one_by_id. unfold stored. rewrite Hst. cbn [utcnow].
  unfold update_one. rewrite collection_log, Hl'.
  unfold new. destruct (BaseModel Click _) as [c|]; [|reflexivity].
  cbn [mret M_ret].
  unfold create_document, mbind, M_bind, utcnow, insert_one. cbn [mret M_ret].
  unfold collection at 1. cbn [db calls log].
  rewrite lookup_total_insert_ne by done. reflexivity.
Qed.

(** The product a redirect has updated is stored under its id, whether or
    not the click was recorded. *)
Lemma redirect_product_stored product_id request user_id e w i prod prod' :
  ObjectId_new product_id = Some i →
  stored w "product" i = Some prod →
  apply_update {| inc_ := [("clicks", 1)]; set_ := {["updated_at" := VDate (now e)]} |} prod
    = Some prod' →
  stored (redirect_product product_id request user_id e w).2 "product" i = Some prod'.
Proof.
  intros Hoid Hst Hup.
  destruct (redirect_product_steps _ request user_id _ _ _ _ _ Hoid Hst Hup)
    as (l' & _ & Hlk & ->).
  destruct (BaseModel Click _); unfold stored, collection; cbn [snd db].
  - rewrite lookup_total_insert_ne by done. by rewrite lookup_total_insert_eq.
  - by rewrite lookup_total_insert_eq.
Qed.

Lemma Click_product_str prod pid uid ip ua :
  is_str_field prod "affiliate_id" = true →
  BaseModel Click
    (<["target" := VStr "product"]>
     (<["product_id" := VStr pid]>
     (<["affiliate_id" := get prod "affiliate_id"]>
     (<["user_id" := opt uid]>
     (<["ip" := opt ip]>
     (<["user_agent" := opt ua]> ∅))))))
  = Some (click_fields (VStr pid) (get prod "affiliate_id") (opt uid) (VStr "product") VNull
                       (opt ip) (opt ua)).
Proof.
  intros Hstr. apply Click_product.
  unfold get, is_str_field in *. rewrite as_dict_field by done.
  by destruct (fields prod !! "affiliate_id") as [[]|].
Qed.

Lemma click_doc_get i t pid aff uid target vendor ip ua :
  let c := Document i (<["created_at" := VDate t]>
                        (click_fields pid aff uid target vendor ip ua)) in
  get c "product_id" = pid ∧ get c "affiliate_id" = aff ∧ get c "user_id" = uid ∧
  get c "target" = target ∧ get c "vendor" = vendor ∧ get c "ip" = ip ∧
  get c "user_agent" = ua.
Proof.
  unfold get, as_dict, click_fields. cbn [_id fields].
  repeat split;
    repeat (rewrite lookup_insert_eq || (rewrite lookup_insert_ne by done)); done.
Qed.

Lemma clicked_counter t d :
  counter {| _id := _id d;
             fields := {["updated_at" := VDate t]} ∪
                       <["clicks" := VInt (counter d "clicks" + 1)]> (fields d) |} "clicks"
  = counter d "clicks" + 1.
Proof.
  unfold counter at 1. cbn [fields].
  rewrite lookup_union_r by (by rewrite lookup_singleton_ne).
  by rewrite lookup_insert_eq.
Qed.

Lemma clicked_field t d k :
  k ≠ "updated_at" → k ≠ "clicks" →
  ({["updated_at" := VDate t]} ∪
   <["clicks" := VInt (counter d "clicks" + 1)]> (fields d)) !! k = fields d !! k.
Proof.
  intros H1 H2. rewrite lookup_union_r by (by rewrite lookup_singleton_ne).
  by rewrite lookup_insert_ne.
Qed.

(** ** The product redirect *)

(** C1, as the code has it.  For a well-formed id of a stored product whose
    [clicks] is an integer (or missing), [redirect_product] leaves the
    stored product's [clicks] exactly one higher, however the request ends.
    If moreover the product's [affiliate_id] is a string (or null, or
    missing), as the [Product] schema types it, the request answers with a
    302 redirect and the click collection has exactly one more record:
    target "product", the product's id and affiliate_id, the optional
    user_id, and the ip and user-agent of the request. *)
Theorem redirect_product_counts_and_records product_id request user_id e w i prod :
  ObjectId_new product_id = Some i →
  stored w "product" i = Some prod →
  is_int_field prod "clicks" = true →
  (∃ prod',
     stored (redirect_product product_id request user_id e w).2 "product" i = Some prod' ∧
     counter prod' "clicks" = counter prod "clicks" + 1) ∧
  (is_str_field prod "affiliate_id" = true →
   ∃ url w' prod' c,
     redirect_product product_id request user_id e w = (Ok (RedirectResponse url 302), w') ∧
     stored w' "product" i = Some prod' ∧
     counter prod' "clicks" = counter prod "clicks" + 1 ∧
     collection w' "click" = collection w "click" ++ [c] ∧
     get c "target" = VStr "product" ∧
     get c "product_id" = VStr (str (_id prod)) ∧
     get c "affiliate_id" = get prod "affiliate_id" ∧
     get c "user_id" = opt user_id ∧
     get c "ip" = opt (host <$> client request) ∧
     get c "user_agent" = opt (headers request !! "user-agent")).
Proof.
  intros Hoid Hst Hcnt.
  pose proof (apply_update_inc "clicks" {["updated_at" := VDate (now e)]} prod
                ltac:(done) ltac:(done) Hcnt) as Hup.
  pose proof (stored_id _ _ _ _ Hst) as Hid.
  pose proof (redirect_product_stored _ request user_id _ _ _ _ _ Hoid Hst Hup) as Hst'.
  split.
  { eexists. split; [exact Hst'|]. apply clicked_counter. }
  intros Hstr.
  destruct (redirect_product_steps _ request user_id _ _ _ _ _ Hoid Hst Hup)
    as (l' & _ & _ & Hrun).
  rewrite (Click_product_str prod _ _ _ _ Hstr) in Hrun.
  rewrite Hrun in Hst'. cbn [snd] in Hst'.
  eexists _, _, _, _. split; [exact Hrun|].
  split; [exact Hst'|].
  split; [apply clicked_counter|].
  split; [unfold collection at 1; cbn [db]; by rewrite lookup_total_insert_eq|].
  rewrite Hid.
  match goal with |- context [Document ?a (<["created_at" := VDate ?t]>
                       (click_fields ?p ?af ?u ?tg ?v ?ip ?ua))] =>
    pose proof (click_doc_get a t p af u tg v ip ua) as Hc end.
  cbn zeta in Hc. tauto.
Qed.

(** C4. A product id that is no valid [ObjectId] makes [redirect_product]
    fail with 400 "Invalid id", and the world is the one it started in:
    nothing is read (no call reaches the store), no counter moves and no
    click is recorded. *)
Theorem redirect_product_invalid_id product_id request user_id e w :
  ObjectId_new product_id = None →
  redirect_product product_id request user_id e w =
    (Raise (HTTPException 400 "Invalid id"), w).
Proof.
  intros Hoid. unfold redirect_product, mbind, M_bind, oid. by rewrite Hoid.
Qed.

(** C8, as the code has it.  For a stored product with no [affiliate_link]
    (missing, null or empty) on which the two writes of the handler succeed
    ([clicks] a number or missing, [affiliate_id] a string, null or
    missing), [redirect_product] passes exactly that value to the redirect:
    it neither substitutes a destination nor turns the missing link into an
    error. *)
Theorem redirect_product_link_as_is product_id request user_id e w i prod :
  ObjectId_new product_id = Some i →
  stored w "product" i = Some prod →
  is_number_field prod "clicks" = true →
  is_str_field prod "affiliate_id" = true →
  fields prod !! "affiliate_link" = None ∨
  fields prod !! "affiliate_link" = Some VNull ∨
  fields prod !! "affiliate_link" = Some (VStr "") →
  ∃ w',
    redirect_product product_id request user_id e w =
      (Ok (RedirectResponse (get prod "affiliate_link") 302), w') ∧
    (get prod "affiliate_link" = VNull ∨ get prod "affiliate_link" = VStr "").
Proof.
  intros Hoid Hst Hnum Hstr Hlink.
  destruct (apply_update_inc_number "clicks" {["updated_at" := VDate (now e)]} prod
              ltac:(done) ltac:(done) Hnum) as [v Hup].
  destruct (redirect_product_steps _ request user_id _ _ _ _ _ Hoid Hst Hup)
    as (l' & _ & _ & Hrun).
  rewrite (Click_product_str prod _ _ _ _ Hstr) in Hrun.
  eexists. split; [exact Hrun|].
  unfold get. rewrite as_dict_field by done.
  destruct Hlink as [-> | [-> | ->]]; auto.
Qed.

Lemma redirects_run product_id i reqs : ∀ w prod,
  ObjectId_new product_id = Some i →
  stored w "product" i = Some prod →
  is_int_field prod "clicks" = true →
  (∃ prod', stored (run (redirects product_id reqs) w).2 "product" i = Some prod' ∧
            is_int_field prod' "clicks" = true ∧
            fields prod' !! "affiliate_id" = fields prod !! "affiliate_id" ∧
            counter prod' "clicks" = counter prod "clicks" + Z.of_nat (length reqs)) ∧
  (is_str_field prod "affiliate_id" = true →
   Forall (λ o, ∃ url, o = Ok (RedirectResponse url 302))
          (run (redirects product_id reqs) w).1).
Proof.
  induction reqs as [|[e [rq uid]] reqs IH]; intros w prod Hoid Hst Hcnt.
  - cbn. split; [|constructor]. exists prod. rewrite Z.add_0_r. done.
  - pose proof (apply_update_inc "clicks" {["updated_at" := VDate (now e)]} prod
                  ltac:(done) ltac:(done) Hcnt) as Hup.
    pose proof (redirect_product_stored _ rq uid _ _ _ _ _ Hoid Hst Hup) as Hst'.
    cbn [redirects map run handle fst snd].
    destruct (redirect_product product_id rq uid e w) as [o w'] eqn:Hrun.
    cbn [snd] in Hst'. cbn [fst snd].
    destruct (IH w' _ Hoid Hst') as ((prod' & Hp' & Hi' & Ha' & Hc') & Hall).
    { unfold is_int_field. cbn [fields].
      rewrite lookup_union_r by (by rewrite lookup_singleton_ne).
      by rewrite lookup_insert_eq. }
    split.
    + exists prod'. split; [exact Hp'|]. split; [exact Hi'|].
      split; [rewrite Ha'; cbn [fields]; by rewrite clicked_field|].
      rewrite Hc', clicked_counter. cbn [length]. lia.
    + intros Hstr. constructor.
      * destruct (redirect_product_steps _ rq uid _ _ _ _ _ Hoid Hst Hup)
          as (l' & _ & _ & Hsteps).
        rewrite (Click_product_str prod _ _ _ _ Hstr), Hrun in Hsteps.
        inversion Hsteps. eauto.
      * apply Hall. unfold is_str_field in *. cbn [fields]. by rewrite clicked_field.
Qed.

(** C6, as the code has it.  [n] sequential product redirects for a stored
    product whose [clicks] is an integer (or missing) leave its [clicks]
    exactly [n] higher: one increment per call, none lost, whether or not
    the click record of a call is accepted.  If the product's
    [affiliate_id] is a string (or null, or missing), every call answers
    with a 302 redirect. *)
Theorem redirect_product_n_times product_id i reqs w prod :
  ObjectId_new product_id = Some i →
  stored w "product" i = Some prod →
  is_int_field prod "clicks" = true →
  (∃ prod', stored (run (redirects product_id reqs) w).2 "product" i = Some prod' ∧
            counter prod' "clicks" = counter prod "clicks" + Z.of_nat (length reqs)) ∧
  (is_str_field prod "affiliate_id" = true →
   Forall (λ o, ∃ url, o = Ok (RedirectResponse url 302))
          (run (redirects product_id reqs) w).1).
Proof.
  intros Hoid Hst Hcnt.
  destruct (redirects_run _ _ reqs _ _ Hoid Hst Hcnt) as ((p' & ? & _ & _ & ?) & Hall).
  eauto.
Qed.

(** ** The vendor redirect *)

(** The three ways [redirect_vendor] ends: no usable link, a vendor name
    the [Click] schema refuses, or a recorded click and a redirect. *)
Lemma redirect_vendor_run vendor request user_id e w :
  redirect_vendor vendor request user_id e w =
  let url := vendor_url (head (collection w "adminsetting")) vendor in
  if negb (truthy url) then
    (Raise (HTTPException 404 "Link not available yet"), log (FindOne "adminsetting") w)
  else if bool_decide (vendor ∈ Vendor) then
    (Ok (RedirectResponse url 302),
     {| db := <["click" := collection w "click" ++
                 [Document (new_id e)
                    (<["created_at" := VDate (now e)]>
                      (click_fields VNull VNull (opt user_id) (VStr "vendor_logo")
                         (VStr vendor) (opt (host <$> client request))
                         (opt (headers request !! "user-agent"))))]]> (db w);
        calls := (calls w ++ [FindOne "adminsetting"]) ++ [InsertOne "click"] |})
  else (Raise ValidationError, log (FindOne "adminsetting") w).
Proof.
  unfold redirect_vendor, mbind, M_bind. rewrite find_one_all. cbn zeta.
  destruct (negb (truthy (vendor_url (head (collection w "adminsetting")) vendor)));
    [done|].
  unfold new. rewrite Click_vendor.
  destruct (bool_decide (vendor ∈ Vendor)); [|done].
  reflexivity.
Qed.

(** X30. For a vendor name of the [Vendor] enumeration for which the first
    AdminSetting document stores a non-empty URL, [redirect_vendor] answers
    with a 302 redirect to exactly that URL and appends exactly one click
    record with target "vendor_logo" and that vendor name (and the user id,
    ip and user-agent of the request). *)
Theorem redirect_vendor_listed vendor request user_id e w s u :
  head (collection w "adminsetting") = Some s →
  get s vendor = VStr u →
  u ≠ "" →
  vendor ∈ Vendor →
  ∃ w' c,
    redirect_vendor vendor request user_id e w = (Ok (RedirectResponse (VStr u) 302), w') ∧
    collection w' "click" = collection w "click" ++ [c] ∧
    get c "target" = VStr "vendor_logo" ∧
    get c "vendor" = VStr vendor ∧
    get c "user_id" = opt user_id ∧
    get c "ip" = opt (host <$> client request) ∧
    get c "user_agent" = opt (headers request !! "user-agent").
Proof.
  intros Hs Hu Hne Hv. rewrite redirect_vendor_run, Hs. cbn zeta.
  assert (Hurl : vendor_url (Some s) vendor = VStr u).
  { unfold vendor_url, has_key. unfold get in Hu.
    destruct (as_dict s !! vendor) as [x|] eqn:Hx; [|done]. simpl in Hu. subst x.
    rewrite bool_decide_eq_true_2 by eauto. unfold get. by rewrite Hx. }
  rewrite Hurl. cbn [truthy]. rewrite (bool_decide_eq_false_2 (u = "")) by done.
  cbn [negb]. rewrite bool_decide_eq_true_2 by done.
  eexists _, _. split; [reflexivity|].
  split; [unfold collection at 1; cbn [db]; by rewrite lookup_total_insert_eq|].
  match goal with |- context [Document ?a (<["created_at" := VDate ?t]>
                       (click_fields ?p ?af ?u ?tg ?v ?ip ?ua))] =>
    pose proof (click_doc_get a t p af u tg v ip ua) as Hc end.
  cbn zeta in Hc. tauto.
Qed.

(** C3. When there is no AdminSetting document, or its first document has
    no entry for the vendor, or the entry is empty, [redirect_vendor] fails
    with 404 "Link not available yet"; it has only read the settings: the
    stored collections, clicks included, are as before. *)
Theorem redirect_vendor_not_available vendor request user_id e w :
  head (collection w "adminsetting") = None ∨
  (∃ s, head (collection w "adminsetting") = Some s ∧
        (as_dict s !! vendor = None ∨
         ∃ v, as_dict s !! vendor = Some v ∧ truthy v = false)) →
  ∃ w',
    redirect_vendor vendor request user_id e w =
      (Raise (HTTPException 404 "Link not available yet"), w') ∧
    db w' = db w ∧
    collection w' "click" = collection w "click" ∧
    calls w' = calls w ++ [FindOne "adminsetting"].
Proof.
  intros Hcase. rewrite redirect_vendor_run. cbn zeta.
  assert (Hurl : truthy (vendor_url (head (collection w "adminsetting")) vendor) = false).
  { destruct Hcase as [-> | (s & -> & [Hnone | (v & Hv & Hfalsy)])]; [done| |].
    - unfold vendor_url, has_key. rewrite Hnone.
      rewrite bool_decide_eq_false_2; [done|]. by intros [? ?].
    - unfold vendor_url, has_key, get. rewrite Hv.
      rewrite bool_decide_eq_true_2 by eauto. done. }
  rewrite Hurl. cbn [negb]. eexists. split; [reflexivity|]. done.
Qed.

(** C10. With the vendor path parameter ["_id"], the lookup of
    [redirect_vendor] finds the key in the settings document and takes its
    value, the document's [ObjectId], for the configured link: the request
    does not end in 404 "Link not available yet".  (It ends in the
    validation error of the [Click] schema, ["_id"] being no vendor.) *)
Theorem redirect_vendor_reserved_key request user_id e w s :
  head (collection w "adminsetting") = Some s →
  has_key s "_id" = true ∧
  vendor_url (Some s) "_id" = VOid (_id s) ∧
  truthy (vendor_url (Some s) "_id") = true ∧
  (redirect_vendor "_id" request user_id e w).1 ≠
    Raise (HTTPException 404 "Link not available yet") ∧
  redirect_vendor "_id" request user_id e w =
    (Raise ValidationError, log (FindOne "adminsetting") w).
Proof.
  intros Hs.
  assert (Hk : has_key s "_id" = true).
  { unfold has_key. rewrite as_dict_id. by apply bool_decide_eq_true_2. }
  assert (Hurl : vendor_url (Some s) "_id" = VOid (_id s)).
  { unfold vendor_url. rewrite Hk. unfold get. by rewrite as_dict_id. }
  assert (Hrun : redirect_vendor "_id" request user_id e w =
                 (Raise ValidationError, log (FindOne "adminsetting") w)).
  { rewrite redirect_vendor_run, Hs. cbn zeta. rewrite Hurl. cbn [truthy negb].
    replace (bool_decide ("_id" ∈ Vendor)) with false by (by vm_compute). done. }
  rewrite Hurl, Hrun. done.
Qed.

(** ** The deal filter *)

Lemma hot_filter_matches now d : matches (hot_filter now) d = is_hot_deal now d.
Proof.
  unfold matches, hot_filter, is_hot_deal, get.
  cbn [forallb clause_holds existsb fst snd].
  destruct (as_dict d !! "hot_deal") as [[|[]| | | | | |]|];
    destruct (as_dict d !! "hot_deal_expires_at") as [[]|]; cbn;
    rewrite ?andb_true_r, ?orb_false_r; try done.
Qed.

Lemma filter_hot now (l : list document) :
  filter (λ d, matches (hot_filter now) d = true) l =
  filter (λ d, is_hot_deal now d = true) l.
Proof. apply list_filter_iff. intros d. by rewrite hot_filter_matches. Qed.

Lemma insert_desc_perm key d l : insert_desc key d l ≡ₚ d :: l.
Proof.
  induction l as [|x l IH]; [done|]. cbn [insert_desc].
  destruct (key_le (as_dict x !! key) (as_dict d !! key)); [done|].
  rewrite IH. apply Permutation_swap.
Qed.

Lemma sort_desc_perm key l : sort_desc key l ≡ₚ l.
Proof.
  induction l as [|d l IH]; [done|]. unfold sort_desc in *. cbn [foldr].
  by rewrite insert_desc_perm, IH.
Qed.

(** C7. With [hot_only] (and no other filter) [list_products] returns, with
    their ids as text, exactly the stored products that are hot deals at the
    time of the request: [hot_deal] true and [hot_deal_expires_at] null or
    strictly later than now.  In particular, of A (hot, no expiry), B (hot,
    expired) and C (not hot) it returns exactly A. *)
Theorem list_products_hot_only e w :
  ∃ items,
    list_products None None None true None e w =
      (Ok (JSON_items (str_id <$> items)), log (Find "product") w) ∧
    items ≡ₚ filter (λ d, is_hot_deal (now e) d = true) (collection w "product") ∧
    ∀ a b c t,
      get a "hot_deal" = VBool true → get a "hot_deal_expires_at" = VNull →
      get b "hot_deal" = VBool true → get b "hot_deal_expires_at" = VDate t → t < now e →
      get c "hot_deal" = VBool false →
      collection w "product" ≡ₚ [a; b; c] →
      items = [a].
Proof.
  eexists. split; [|split].
  - unfold list_products, mbind, M_bind. cbn [given app utcnow mret M_ret].
    unfold find. reflexivity.
  - rewrite sort_desc_perm. fold (hot_filter (now e)). by rewrite filter_hot.
  - intros a b c t Ha1 Ha2 Hb1 Hb2 Hlt Hc Hperm.
    apply Permutation_singleton_r. rewrite sort_desc_perm.
    fold (hot_filter (now e)). rewrite filter_hot, Hperm.
    rewrite filter_cons_True by (unfold is_hot_deal; by rewrite Ha1, Ha2).
    rewrite filter_cons_False.
    2:{ unfold is_hot_deal. rewrite Hb1, Hb2.
        intros Hlt'. apply Z.ltb_lt in Hlt'. lia. }
    rewrite filter_cons_False by (unfold is_hot_deal; by rewrite Hc).
    done.
Qed.

(** ** What a handler does to one collection *)

Lemma frames_ret name {A} (a : A) : frames name (mret a).
Proof. by intros e w. Qed.

Lemma frames_raise name {A} x : frames name (raise x : M A).
Proof. by intros e w. Qed.

Lemma frames_utcnow name : frames name utcnow.
Proof. by intros e w. Qed.

Lemma frames_bind name {A B} (m : M A) (f : A → M B) :
  frames name m → (∀ a, frames name (f a)) → frames name (m ≫= f).
Proof.
  intros Hm Hf e w. specialize (Hm e w). unfold mbind, M_bind.
  destruct (m e w) as [[a|x] w1]; cbn [snd] in *; [|done].
  rewrite Hm. apply Hf.
Qed.

Lemma effect_bind_l name P {A B} (m : M A) (f : A → M B) :
  (∀ l, P l l) → frames name m → (∀ a, effect name P (f a)) → effect name P (m ≫= f).
Proof.
  intros Hrefl Hm Hf e w. specialize (Hm e w). unfold mbind, M_bind.
  destruct (m e w) as [[a|x] w1]; cbn [snd] in *.
  - rewrite Hm. apply Hf.
  - rewrite <- Hm. apply Hrefl.
Qed.

Lemma effect_bind_r name P {A B} (m : M A) (f : A → M B) :
  effect name P m → (∀ a, frames name (f a)) → effect name P (m ≫= f).
Proof.
  intros Hm Hf e w. specialize (Hm e w). unfold mbind, M_bind.
  destruct (m e w) as [[a|x] w1]; cbn [snd] in *; [|done].
  by rewrite <- (Hf a e w1).
Qed.

Lemma frames_effect name (P : list document → list document → Prop) {A} (m : M A) :
  (∀ l, P l l) → frames name m → effect name P m.
Proof. intros Hrefl Hm e w. rewrite <- (Hm e w). apply Hrefl. Qed.

Lemma frames_find_one name n q : frames name (find_one n q).
Proof. by intros e w. Qed.

Lemma frames_find name n q k : frames name (find n q k).
Proof. by intros e w. Qed.

Lemma frames_count_documents name n q : frames name (count_documents n q).
Proof. by intros e w. Qed.

Lemma frames_aggregate_sum name n k : frames name (aggregate_sum n k).
Proof. by intros e w. Qed.

Lemma frames_insert_one name n fs : name ≠ n → frames name (insert_one n fs).
Proof.
  intros Hne e w. unfold insert_one, collection. cbn [snd db].
  by rewrite lookup_total_insert_ne.
Qed.

Lemma frames_update_one name n q u : name ≠ n → frames name (update_one n q u).
Proof.
  intros Hne e w. unfold update_one.
  destruct (update_first q u (collection w n)) as [[k l]|]; [|done].
  unfold collection. cbn [snd db]. by rewrite lookup_total_insert_ne.
Qed.

Lemma frames_delete_one name n q : name ≠ n → frames name (delete_one n q).
Proof.
  intros Hne e w. unfold delete_one, collection. cbn [snd db].
  by rewrite lookup_total_insert_ne.
Qed.

Lemma frames_create_document name n data : name ≠ n → frames name (create_document n data).
Proof.
  intros Hne. unfold create_document.
  apply frames_bind; [apply frames_utcnow|intros t].
  apply frames_bind; [by apply frames_insert_one|intros i]. apply frames_ret.
Qed.

Lemma frames_new name schema kwargs : frames name (new schema kwargs).
Proof. unfold new. destruct (BaseModel schema kwargs); [apply frames_ret|apply frames_raise]. Qed.

Lemma frames_oid name s : frames name (oid s).
Proof. unfold oid. destruct (ObjectId_new s); [apply frames_ret|apply frames_raise]. Qed.

Lemma frames_to_ObjectId name s : frames name (to_ObjectId s).
Proof. unfold to_ObjectId. destruct (ObjectId_new s); [apply frames_ret|apply frames_raise]. Qed.

Lemma frames_with_str_id name d : frames name (with_str_id d).
Proof. destruct d; [apply frames_ret|apply frames_raise]. Qed.

Ltac frame_step :=
  lazymatch goal with
  | |- frames _ (mbind _ _) => apply frames_bind; [|intros ?]
  | |- frames _ (mret _) => apply frames_ret
  | |- frames _ (raise _) => apply frames_raise
  | |- frames _ utcnow => apply frames_utcnow
  | |- frames _ (find_one _ _) => apply frames_find_one
  | |- frames _ (find _ _ _) => apply frames_find
  | |- frames _ (count_documents _ _) => apply frames_count_documents
  | |- frames _ (aggregate_sum _ _) => apply frames_aggregate_sum
  | |- frames _ (insert_one _ _) => apply frames_insert_one; discriminate
  | |- frames _ (update_one _ _ _) => apply frames_update_one; discriminate
  | |- frames _ (delete_one _ _) => apply frames_delete_one; discriminate
  | |- frames _ (create_document _ _) => apply frames_create_document; discriminate
  | |- frames _ (new _ _) => apply frames_new
  | |- frames _ (oid _) => apply frames_oid
  | |- frames _ (to_ObjectId _) => apply frames_to_ObjectId
  | |- frames _ (with_str_id _) => apply frames_with_str_id
  | |- frames _ (match ?x with _ => _ end) => destruct x
  end.

Ltac frame := cbv zeta; repeat frame_step.

Lemma frames_get_product name i : frames name (get_product i).
Proof. unfold get_product. frame. Qed.

Lemma frames_get_admin_settings name : frames name get_admin_settings.
Proof. unfold get_admin_settings. frame. Qed.

(** The handlers that never write to the product collection. *)
Lemma frames_product c :
  match c with
  | CreateProduct _ | UpdateProduct _ _ | DeleteProduct _
  | RedirectProduct _ _ _ | CreateOrder _ => True
  | _ => frames "product" (handle c)
  end.
Proof.
  destruct c; try exact I; cbn [handle];
    unfold signup, login, update_user, list_users, list_products, redirect_vendor,
      list_orders, create_subscription, list_subscriptions, save_admin_settings,
      admin_stats;
    frame; try apply frames_get_product; try apply frames_get_admin_settings.
Qed.

(** Only [save_admin_settings] writes to the settings collection. *)
Lemma frames_adminsetting c :
  match c with
  | SaveAdminSettings _ => True
  | _ => frames "adminsetting" (handle c)
  end.
Proof.
  destruct c; try exact I; cbn [handle];
    unfold signup, login, update_user, list_users, list_products, create_product,
      update_product, delete_product, redirect_vendor, redirect_product, create_order,
      list_orders, create_subscription, list_subscriptions, admin_stats;
    frame; try apply frames_get_product; try apply frames_get_admin_settings.
Qed.

Lemma collection_insert_eq name l m c :
  collection {| db := <[name := l]> m; calls := c |} name = l.
Proof. unfold collection. cbn [db]. by rewrite lookup_total_insert_eq. Qed.

Lemma collection_insert_ne name n l m c :
  n ≠ name → collection {| db := <[n := l]> m; calls := c |} name = m !!! name.
Proof. intros Hne. unfold collection. cbn [db]. by rewrite lookup_total_insert_ne. Qed.

Lemma effect_mono name (P Q : list document → list document → Prop) {A} (m : M A) :
  (∀ l l', P l l' → Q l l') → effect name P m → effect name Q m.
Proof. intros HPQ Hm e w. apply HPQ, Hm. Qed.

Lemma effect_create_document name data :
  effect name (λ l l', ∃ d, l' = l ++ [d]) (create_document name data).
Proof.
  intros e w. unfold create_document, mbind, M_bind, utcnow, insert_one. cbn [mret M_ret snd].
  rewrite collection_insert_eq. eauto.
Qed.

Lemma effect_update_one name q u :
  effect name (λ l l', l' = l ∨ ∃ n, update_first q u l = Some (n, l')) (update_one name q u).
Proof.
  intros e w. unfold update_one.
  destruct (update_first q u (collection w name)) as [[n l]|] eqn:Hu; [|by left].
  right. exists n. cbn [snd]. by rewrite collection_insert_eq.
Qed.

Lemma effect_delete_one name q :
  effect name (λ l l', l' = (delete_first q l).2) (delete_one name q).
Proof.
  intros e w. unfold delete_one. cbn [snd]. by rewrite collection_insert_eq.
Qed.

(** The four handlers, other than [update_product], that write products. *)
Lemma effect_create_product payload :
  effect "product" (λ l l', l' = l ∨ ∃ d, l' = l ++ [d]) (create_product payload).
Proof.
  unfold create_product.
  apply effect_bind_l; [by left|apply frames_new|intros prod].
  apply effect_bind_r; [|intros pid; frame].
  eapply effect_mono; [|apply effect_create_document]. intros l l' [d ->]. eauto.
Qed.

Lemma effect_delete_product product_id :
  effect "product" (λ l l', l' = l ∨ ∃ j, l' = (delete_first (by_id j) l).2)
         (delete_product product_id).
Proof.
  unfold delete_product.
  apply effect_bind_l; [by left|apply frames_oid|intros i].
  apply effect_bind_r; [|intros n; frame].
  eapply effect_mono; [|apply effect_delete_one]. intros l l' ->. eauto.
Qed.

Lemma effect_redirect_product product_id request user_id :
  effect "product"
    (λ l l', l' = l ∨
             ∃ j t n, update_first (by_id j)
                        {| inc_ := [("clicks", 1)]; set_ := {["updated_at" := VDate t]} |} l
                      = Some (n, l'))
    (redirect_product product_id request user_id).
Proof.
  unfold redirect_product.
  apply effect_bind_l; [by left|apply frames_oid|intros i].
  apply effect_bind_l; [by left|apply frames_find_one|intros [prod|]].
  2:{ apply frames_effect; [by left|apply frames_raise]. }
  apply effect_bind_l; [by left|apply frames_utcnow|intros t].
  apply effect_bind_r; [|intros n; frame].
  eapply effect_mono; [|apply effect_update_one]. intros l l' [->|[n Hn]]; eauto 6.
Qed.

Lemma effect_create_order payload :
  effect "product"
    (λ l l', l' = l ∨
             ∃ j n, update_first (by_id j) {| inc_ := [("orders", 1)]; set_ := ∅ |} l
                    = Some (n, l'))
    (create_order payload).
Proof.
  unfold create_order.
  apply effect_bind_l; [by left|apply frames_oid|intros i].
  apply effect_bind_l; [by left|apply frames_find_one|intros [prod|]].
  2:{ apply frames_effect; [by left|apply frames_raise]. }
  apply effect_bind_l; [by left|apply frames_new|intros order].
  apply effect_bind_l; [by left|frame|intros oid_str].
  apply effect_bind_r; [|intros n; frame].
  eapply effect_mono; [|apply effect_update_one]. intros l l' [->|[n Hn]]; eauto 6.
Qed.

(** ** Product counters *)

Lemma lookup_id_app_Some l d i p : lookup_id l i = Some p → lookup_id (l ++ [d]) i = Some p.
Proof. intros Hp. by rewrite lookup_id_app_l, Hp. Qed.

Lemma lookup_id_elem l j p : lookup_id l j = Some p → j ∈ _id <$> l.
Proof.
  unfold lookup_id. intros Hp. apply head_Some_elem_of in Hp.
  apply list_elem_of_filter in Hp as [Hm Hin].
  rewrite matches_by_id in Hm. apply bool_decide_eq_true in Hm. subst j.
  by apply list_elem_of_fmap_2.
Qed.

(** Deleting by id removes that document (ids being unique) and leaves the
    others alone. *)
Lemma delete_first_by_id l j :
  (∀ i, i ≠ j → lookup_id (delete_first (by_id j) l).2 i = lookup_id l i) ∧
  (NoDup (_id <$> l) → lookup_id (delete_first (by_id j) l).2 j = None).
Proof.
  induction l as [|d l [IH1 IH2]]; [done|].
  cbn [delete_first]. rewrite matches_by_id.
  destruct (decide (j = _id d)) as [->|Hne].
  - rewrite bool_decide_eq_true_2 by done. cbn [snd]. split.
    + intros i Hi. rewrite lookup_id_cons. by rewrite decide_False.
    + rewrite fmap_cons. intros Hnd. apply NoDup_cons in Hnd as [Hnotin _].
      destruct (lookup_id l (_id d)) as [p|] eqn:Hp; [|done].
      by apply lookup_id_elem in Hp.
  - rewrite bool_decide_eq_false_2 by done. cbn [snd]. split.
    + intros i Hi. rewrite !lookup_id_cons. by rewrite IH1.
    + rewrite fmap_cons. intros Hnd. apply NoDup_cons in Hnd as [_ Hnd].
      rewrite lookup_id_cons, decide_False by done. by apply IH2.
Qed.

(** An increment by id: the document found for any id afterwards is the
    one found before, or that one with the counter one higher. *)
Lemma inc_by_id k s l j n l' i p :
  k ≠ "_id" → s !! "_id" = None →
  update_first (by_id j) {| inc_ := [(k, 1)]; set_ := s |} l = Some (n, l') →
  lookup_id l i = Some p →
  is_int_field p k = true →
  lookup_id l' i = Some p ∨
  (i = j ∧ lookup_id l' i =
           Some {| _id := _id p; fields := s ∪ <[k := VInt (counter p k + 1)]> (fields p) |}).
Proof.
  intros Hk Hs Hu Hp Hint.
  destruct (update_first_by_id _ _ _ _ _ Hu) as (_ & Hother & Hj).
  destruct (decide (i = j)) as [->|Hne].
  - right. split; [done|]. rewrite Hp in Hj. destruct Hj as (_ & p' & Hp' & ->).
    rewrite apply_update_inc in Hp' by done. done.
  - left. by rewrite Hother.
Qed.

Lemma inc_counter_same k s d :
  s !! k = None →
  counter {| _id := _id d; fields := s ∪ <[k := VInt (counter d k + 1)]> (fields d) |} k
  = counter d k + 1.
Proof.
  intros Hs. unfold counter at 1. cbn [fields].
  rewrite lookup_union_r by done. by rewrite lookup_insert_eq.
Qed.

Lemma inc_field_other k k' s d v :
  s !! k' = None → k' ≠ k →
  fields {| _id := _id d; fields := s ∪ <[k := v]> (fields d) |} !! k' = fields d !! k'.
Proof.
  intros Hs Hne. cbn [fields]. rewrite lookup_union_r by done. by rewrite lookup_insert_ne.
Qed.

Lemma inc_counter_other k k' s d v :
  s !! k' = None → k' ≠ k →
  counter {| _id := _id d; fields := s ∪ <[k := v]> (fields d) |} k' = counter d k'.
Proof. intros Hs Hne. unfold counter. by rewrite inc_field_other. Qed.

Lemma inc_is_int_other k k' s d v :
  s !! k' = None → k' ≠ k →
  is_int_field {| _id := _id d; fields := s ∪ <[k := v]> (fields d) |} k'
  = is_int_field d k'.
Proof. intros Hs Hne. unfold is_int_field. by rewrite inc_field_other. Qed.

Lemma inc_is_int_same k s d :
  s !! k = None →
  is_int_field {| _id := _id d; fields := s ∪ <[k := VInt (counter d k + 1)]> (fields d) |} k
  = true.
Proof.
  intros Hs. unfold is_int_field. cbn [fields].
  rewrite lookup_union_r by done. by rewrite lookup_insert_eq.
Qed.

(** C5, as the code has it.  Take a stored product with integer [clicks]
    and [orders] (ids in the collection being unique) and any request other
    than the generic product update.  If the product is still stored after
    the request, its [clicks] and [orders] are integers no lower than
    before; [clicks] differs only after a product redirect, and then by
    exactly +1; [orders] differs only after an order creation, and then by
    exactly +1.  The product is gone only after a product deletion. *)
Theorem counters_change_only_by_redirect_and_order c e w i p :
  (∀ product_id payload, c ≠ UpdateProduct product_id payload) →
  NoDup (_id <$> collection w "product") →
  stored w "product" i = Some p →
  is_int_field p "clicks" = true →
  is_int_field p "orders" = true →
  match stored (handle c e w).2 "product" i with
  | None => ∃ product_id, c = DeleteProduct product_id
  | Some p' =>
      is_int_field p' "clicks" = true ∧ is_int_field p' "orders" = true ∧
      counter p "clicks" ≤ counter p' "clicks" ∧
      counter p "orders" ≤ counter p' "orders" ∧
      (counter p' "clicks" ≠ counter p "clicks" →
       counter p' "clicks" = counter p "clicks" + 1 ∧
       ∃ product_id request user_id, c = RedirectProduct product_id request user_id) ∧
      (counter p' "orders" ≠ counter p "orders" →
       counter p' "orders" = counter p "orders" + 1 ∧
       ∃ payload, c = CreateOrder payload)
  end.
Proof.
  intros Hc Hnd Hp Hclicks Horders. unfold stored in *.
  assert (Hsame : ∀ l', l' = collection w "product" →
            match lookup_id l' i with
            | None => ∃ product_id, c = DeleteProduct product_id
            | Some p' =>
                is_int_field p' "clicks" = true ∧ is_int_field p' "orders" = true ∧
                counter p "clicks" ≤ counter p' "clicks" ∧
                counter p "orders" ≤ counter p' "orders" ∧
                (counter p' "clicks" ≠ counter p "clicks" →
                 counter p' "clicks" = counter p "clicks" + 1 ∧
                 ∃ product_id request user_id,
                   c = RedirectProduct product_id request user_id) ∧
                (counter p' "orders" ≠ counter p "orders" →
                 counter p' "orders" = counter p "orders" + 1 ∧
                 ∃ payload, c = CreateOrder payload)
            end).
  { intros l' ->. rewrite Hp. repeat split; try done; lia. }
  pose proof (frames_product c) as Hframe.
  destruct c; try (apply Hsame; symmetry; apply Hframe); clear Hframe.
  - (* create_product *)
    destruct (effect_create_product payload e w) as [Heq|[d Heq]];
      cbn [handle]; rewrite Heq; [by apply Hsame|].
    rewrite (lookup_id_app_Some _ _ _ _ Hp). repeat split; try done; lia.
  - (* update_product *)
    by destruct (Hc product_id payload).
  - (* delete_product *)
    destruct (effect_delete_product product_id e w) as [Heq|[j Heq]];
      cbn [handle]; rewrite Heq; [by apply Hsame|].
    destruct (delete_first_by_id (collection w "product") j) as [Hother Hgone].
    destruct (decide (i = j)) as [->|Hne].
    + rewrite Hgone by done. eauto.
    + rewrite Hother, Hp by done. repeat split; try done; lia.
  - (* redirect_product *)
    destruct (effect_redirect_product product_id request user_id e w)
      as [Heq|(j & t & n & Hu)]; cbn [handle]; [rewrite Heq; by apply Hsame|].
    destruct (inc_by_id "clicks" {["updated_at" := VDate t]} _ _ _ _ _ _
                ltac:(done) ltac:(done) Hu Hp Hclicks)
      as [Hl|[_ Hl]]; rewrite Hl; [repeat split; try done; lia|].
    rewrite inc_is_int_same, inc_counter_same by done.
    rewrite inc_is_int_other, inc_counter_other by done.
    repeat split; try done; try lia; eauto.
  - (* create_order *)
    destruct (effect_create_order payload e w) as [Heq|(j & n & Hu)];
      cbn [handle]; [rewrite Heq; by apply Hsame|].
    destruct (inc_by_id "orders" ∅ _ _ _ _ _ _ ltac:(done) ltac:(done) Hu Hp Horders)
      as [Hl|[_ Hl]]; rewrite Hl; [repeat split; try done; lia|].
    rewrite inc_is_int_same, inc_counter_same by done.
    rewrite inc_is_int_other, inc_counter_other by done.
    repeat split; try done; try lia; eauto.
Qed.

(** ** The settings singleton *)

Lemma collection_bind_frames name {A B} (m : M A) (f : A → M B) e w :
  (∀ a, frames name (f a)) →
  collection ((m ≫= f) e w).2 name = collection (m e w).2 name.
Proof.
  intros Hf. unfold mbind, M_bind.
  destruct (m e w) as [[a|x] w1]; cbn [snd]; [|done]. by rewrite <- (Hf a e w1).
Qed.

(** What a save does to the settings collection: the first save inserts the
    validated settings, every later one merges the payload into the document
    that is there. *)
Lemma save_admin_settings_run payload e w :
  collection (save_admin_settings payload e w).2 "adminsetting" =
  match collection w "adminsetting" with
  | [] =>
      match BaseModel AdminSetting (delete "_id" payload) with
      | Some m => [Document (new_id e) (<["created_at" := VDate (now e)]> m)]
      | None => []
      end
  | s :: rest => {| _id := _id s; fields := delete "_id" payload ∪ fields s |} :: rest
  end.
Proof.
  unfold save_admin_settings. cbv zeta.
  unfold mbind at 1, M_bind at 1. rewrite find_one_all.
  rewrite collection_bind_frames by (intros; apply frames_get_admin_settings).
  destruct (collection w "adminsetting") as [|s rest] eqn:Hl; cbn [head].
  - unfold new. destruct (BaseModel AdminSetting (delete "_id" payload)) as [m|].
    + unfold mbind, M_bind, create_document, mbind, M_bind, utcnow, insert_one.
      cbn [mret M_ret snd]. rewrite collection_insert_eq, collection_log, Hl. done.
    + unfold mbind, M_bind, raise. cbn [snd]. by rewrite collection_log, Hl.
  - unfold mbind, M_bind, update_one. rewrite collection_log, Hl.
    cbn [update_first]. rewrite matches_by_id, bool_decide_eq_true_2 by done.
    unfold apply_update. cbn [inc_ set_ apply_incs mbind option_bind].
    rewrite lookup_delete_eq. cbn [mbind option_bind mret M_ret snd].
    by rewrite collection_insert_eq.
Qed.

Lemma settings_step c e w :
  (length (collection w "adminsetting") ≤ 1)%nat →
  (length (collection (handle c e w).2 "adminsetting") ≤ 1)%nat.
Proof.
  intros Hlen. pose proof (frames_adminsetting c) as Hframe.
  destruct c; try (by rewrite <- (Hframe e w)). clear Hframe.
  cbn [handle]. rewrite save_admin_settings_run.
  destruct (collection w "adminsetting") as [|s rest].
  - destruct (BaseModel AdminSetting (delete "_id" payload)); cbn [length]; lia.
  - exact Hlen.
Qed.

Lemma settings_run l : ∀ w,
  (length (collection w "adminsetting") ≤ 1)%nat →
  (length (collection (run l w).2 "adminsetting") ≤ 1)%nat.
Proof.
  induction l as [|[e c] l IH]; intros w Hlen; [done|].
  cbn [run fst snd]. by apply IH, settings_step.
Qed.

Lemma Vendor_not_id vendor : vendor ∈ Vendor → vendor ≠ "_id".
Proof.
  intros Hv ->. revert Hv. apply (bool_decide_unpack _). vm_compute. exact I.
Qed.

(** C9. The settings collection holds at most one document.  A save into
    the empty collection inserts one document (the payload, validated as an
    [AdminSetting]); a save into a collection that has a document updates
    that document in place, keeping its id, and inserts nothing.  No request
    takes the collection past one document, so from an empty store no
    sequence of requests does.  The vendor redirect reads with one find-one
    and an empty filter, and it uses the first document of the collection,
    whatever documents follow it: a vendor of the enumeration with a
    non-empty link in the first document is redirected to exactly that link,
    and a vendor the first document has no entry for ends in 404 "Link not
    available yet", also when a later document has one. *)
Theorem admin_setting_singleton e w :
  (∀ payload,
     collection (save_admin_settings payload e w).2 "adminsetting" =
     match collection w "adminsetting" with
     | [] =>
         match BaseModel AdminSetting (delete "_id" payload) with
         | Some m => [Document (new_id e) (<["created_at" := VDate (now e)]> m)]
         | None => []
         end
     | s :: rest => {| _id := _id s; fields := delete "_id" payload ∪ fields s |} :: rest
     end) ∧
  (∀ c, (length (collection w "adminsetting") ≤ 1)%nat →
        (length (collection (handle c e w).2 "adminsetting") ≤ 1)%nat) ∧
  (∀ l, collection w "adminsetting" = [] →
        (length (collection (run l w).2 "adminsetting") ≤ 1)%nat) ∧
  find_one "adminsetting" [] e w =
    (Ok (head (collection w "adminsetting")), log (FindOne "adminsetting") w) ∧
  (∀ vendor request user_id w2,
     head (collection w2 "adminsetting") = head (collection w "adminsetting") →
     (redirect_vendor vendor request user_id e w2).1 =
     (redirect_vendor vendor request user_id e w).1) ∧
  (∀ s rest vendor u request user_id,
     collection w "adminsetting" = s :: rest →
     vendor ∈ Vendor →
     fields s !! vendor = Some (VStr u) →
     u ≠ "" →
     ∃ w', redirect_vendor vendor request user_id e w =
             (Ok (RedirectResponse (VStr u) 302), w') ∧
           calls w' = calls w ++ [FindOne "adminsetting"; InsertOne "click"]) ∧
  (∀ s rest vendor request user_id,
     collection w "adminsetting" = s :: rest →
     vendor ≠ "_id" →
     fields s !! vendor = None →
     redirect_vendor vendor request user_id e w =
       (Raise (HTTPException 404 "Link not available yet"),
        log (FindOne "adminsetting") w)).
Proof.
  split; [intros; apply save_admin_settings_run|].
  split; [intros; by apply settings_step|].
  split; [intros l Hl; apply settings_run; rewrite Hl; cbn; lia|].
  split; [apply find_one_all|].
  split.
  { intros vendor request user_id w2 Hhead.
    rewrite !redirect_vendor_run, Hhead. cbv zeta.
    destruct (negb (truthy (vendor_url (head (collection w "adminsetting")) vendor)));
      [done|].
    by destruct (bool_decide (vendor ∈ Vendor)). }
  split.
  - intros s rest vendor u request user_id Hl Hv Hu Hne.
    pose proof (Vendor_not_id _ Hv) as Hid.
    rewrite redirect_vendor_run, Hl. cbn [head]. cbv zeta.
    assert (Hurl : vendor_url (Some s) vendor = VStr u).
    { unfold vendor_url, has_key, get. rewrite as_dict_field, Hu by done.
      by rewrite bool_decide_eq_true_2 by eauto. }
    rewrite Hurl. cbn [truthy]. rewrite (bool_decide_eq_false_2 (u = "")) by done.
    cbn [negb]. rewrite bool_decide_eq_true_2 by done.
    eexists. split; [reflexivity|]. cbn [calls]. by rewrite <- app_assoc.
  - intros s rest vendor request user_id Hl Hid Hnone.
    rewrite redirect_vendor_run, Hl. cbn [head]. cbv zeta.
    assert (Hurl : vendor_url (Some s) vendor = VNull).
    { unfold vendor_url, has_key. rewrite as_dict_field, Hnone by done.
      rewrite bool_decide_eq_false_2; [done|]. by intros [? ?]. }
    by rewrite Hurl.
Qed.

End Properties.

(** * Endpoints *)

Section Endpoints.
Context {libs : Libs}.

(** ** Endpoints that only read *)

Lemma keeps_db_ret {A} (a : A) : keeps_db (mret a).
Proof. by intros e w. Qed.
Lemma keeps_db_raise {A} x : keeps_db (raise x : M A).
Proof. by intros e w. Qed.
Lemma keeps_db_utcnow : keeps_db utcnow.
Proof. by intros e w. Qed.
Lemma keeps_db_find_one n q : keeps_db (find_one n q).
Proof. by intros e w. Qed.
Lemma keeps_db_find n q k : keeps_db (find n q k).
Proof. by intros e w. Qed.
Lemma keeps_db_count_documents n q : keeps_db (count_documents n q).
Proof. by intros e w. Qed.
Lemma keeps_db_aggregate_sum n k : keeps_db (aggregate_sum n k).
Proof. by intros e w. Qed.
Lemma keeps_db_oid s : keeps_db (oid s).
Proof. unfold oid. destruct (ObjectId_new s); [apply keeps_db_ret|apply keeps_db_raise]. Qed.

Lemma keeps_db_bind {A B} (m : M A) (f : A → M B) :
  keeps_db m → (∀ a, keeps_db (f a)) → keeps_db (m ≫= f).
Proof.
  intros Hm Hf e w. specialize (Hm e w). unfold mbind, M_bind.
  destruct (m e w) as [[a|x] w1]; cbn [snd] in *; [|done].
  rewrite <- Hm. apply Hf.
Qed.

Ltac keeps_step :=
  lazymatch goal with
  | |- keeps_db (mbind _ _) => apply keeps_db_bind; [|intros ?]
  | |- keeps_db (mret _) => apply keeps_db_ret
  | |- keeps_db (raise _) => apply keeps_db_raise
  | |- keeps_db utcnow => apply keeps_db_utcnow
  | |- keeps_db (find_one _ _) => apply keeps_db_find_one
  | |- keeps_db (find _ _ _) => apply keeps_db_find
  | |- keeps_db (count_documents _ _) => apply keeps_db_count_documents
  | |- keeps_db (aggregate_sum _ _) => apply keeps_db_aggregate_sum
  | |- keeps_db (oid _) => apply keeps_db_oid
  | |- keeps_db (match ?x with _ => _ end) => destruct x
  end.

(** X1. The GET endpoints on documents and the login leave the database
    exactly as it is, whether they answer or fail. *)
Theorem read_endpoints_keep_db c e w :
  is_read c = true → db (handle c e w).2 = db w.
Proof.
  intros Hread. revert e w. change (keeps_db (handle c)).
  destruct c; try discriminate Hread; cbn [handle];
    unfold login, list_users, list_products, get_product, list_orders,
      list_subscriptions, get_admin_settings, admin_stats;
    cbv zeta; repeat keeps_step.
Qed.

(** ** Malformed ids *)

(** X2. With a malformed id, the product lookup, update and deletion, the
    user update (with or without fields to set) and the order creation all
    fail with 400 "Invalid id" in the world they started in: the store is not
    called. *)
Theorem invalid_id_before_any_store_call s e w :
  ObjectId_new s = None →
  get_product s e w = (Raise (HTTPException 400 "Invalid id"), w) ∧
  (∀ payload, update_product s payload e w = (Raise (HTTPException 400 "Invalid id"), w)) ∧
  delete_product s e w = (Raise (HTTPException 400 "Invalid id"), w) ∧
  (∀ payload, update_user s payload e w = (Raise (HTTPException 400 "Invalid id"), w)) ∧
  (∀ user_id, create_order {| OrderIn.user_id := user_id; OrderIn.product_id := s |} e w
              = (Raise (HTTPException 400 "Invalid id"), w)).
Proof.
  intros Hs.
  assert (Hoid : oid s e w = (Raise (HTTPException 400 "Invalid id"), w))
    by (unfold oid; by rewrite Hs).
  repeat split; intros;
    unfold get_product, update_product, delete_product, update_user, create_order;
    cbv zeta; cbn [OrderIn.product_id].
  - unfold mbind, M_bind. by rewrite Hoid.
  - unfold mbind, M_bind, utcnow. by rewrite Hoid.
  - unfold mbind, M_bind. by rewrite Hoid.
  - destruct (bool_decide _); unfold mbind, M_bind, utcnow; by rewrite Hoid.
  - unfold mbind, M_bind. by rewrite Hoid.
Qed.

(** ** Users *)

Lemma value_eqb_VStr v s : value_eqb v (VStr s) = true ↔ v = VStr s.
Proof.
  destruct v; cbn; try (split; [done|intros [=]]).
  rewrite bool_decide_eq_true. split; [by intros ->|by intros [=]].
Qed.

(** X3. [strip_password] passes "no document" through; of a document
    it drops [password_hash], gives [_id] as text and keeps every other
    field. *)
Theorem strip_password_spec :
  strip_password None = None ∧
  ∀ d, ∃ r, strip_password (Some d) = Some r ∧
    r !! "password_hash" = None ∧
    r !! "_id" = Some (VStr (str (_id d))) ∧
    ∀ k, k ≠ "_id" → k ≠ "password_hash" → r !! k = fields d !! k.
Proof.
  split; [done|]. intros d. eexists. split; [reflexivity|].
  split; [by rewrite lookup_insert_ne, lookup_delete_eq|].
  split; [by rewrite lookup_insert_eq|].
  intros k H1 H2. by rewrite lookup_insert_ne, lookup_delete_ne.
Qed.

Lemma strip_password_no_hash x : no_password_hash (JSON_user (strip_password x)).
Proof. destruct x as [d|]; [|done]. cbn. by rewrite lookup_insert_ne, lookup_delete_eq. Qed.

Lemma returns_bind {A B} (P : B → Prop) (m : M A) (f : A → M B) :
  (∀ a, returns P (f a)) → returns P (m ≫= f).
Proof.
  intros Hf e w b w'. unfold mbind, M_bind.
  destruct (m e w) as [[a|x] w1]; [|done]. apply Hf.
Qed.

Lemma returns_ret {A} (P : A → Prop) a : P a → returns P (mret a).
Proof. intros Ha e w b w' [= <- _]. done. Qed.

Lemma returns_raise {A} (P : A → Prop) x : returns P (raise x).
Proof. by intros e w b w'. Qed.

(** X4. No answer of the user endpoints (signup, login, user update,
    user list) carries a [password_hash]. *)
Theorem user_endpoints_hide_password_hash c e w r w' :
  is_user_endpoint c = true →
  handle c e w = (Ok r, w') →
  no_password_hash r.
Proof.
  intros Hc. revert e w r w'. change (returns no_password_hash (handle c)).
  destruct c; try discriminate Hc; cbn [handle].
  - unfold signup. apply returns_bind. intros [u|]; [apply returns_raise|].
    do 4 (apply returns_bind; intros ?).
    apply returns_ret, strip_password_no_hash.
  - unfold login. apply returns_bind. intros [u|]; [|apply returns_raise].
    destruct (negb _); [apply returns_raise|apply returns_ret, strip_password_no_hash].
  - unfold update_user. cbv zeta. destruct (bool_decide _).
    + do 2 (apply returns_bind; intros ?). apply returns_ret, strip_password_no_hash.
    + do 3 (apply returns_bind; intros ?). destruct (_ =? _); [apply returns_raise|].
      do 2 (apply returns_bind; intros ?). apply returns_ret, strip_password_no_hash.
  - unfold list_users. cbv zeta. apply returns_bind. intros users.
    apply returns_ret. cbn. induction users as [|u users IH]; [constructor|].
    cbn. constructor; [|exact IH]. by rewrite lookup_insert_ne, lookup_delete_eq.
Qed.

(** The whole of [login]. *)
Lemma login_run p e w :
  login p e w =
  match user_by_email w (LoginIn.email p) with
  | Some u =>
      if value_eqb (get u "password_hash") (VStr (hash_password (LoginIn.password p)))
      then (Ok (JSON_user (strip_password (Some u))), log (FindOne "user") w)
      else (Raise (HTTPException 401 "Invalid credentials"), log (FindOne "user") w)
  | None => (Raise (HTTPException 401 "Invalid credentials"), log (FindOne "user") w)
  end.
Proof.
  unfold login, mbind, M_bind, find_one, user_by_email.
  destruct (head _) as [u|]; [|done]. by destruct (value_eqb _ _).
Qed.

(** X5. [login] answers with the first user stored under the email,
    without its hash, exactly when that user's [password_hash] is the hash
    of the password; in every other case (no such user, another hash) it
    fails with the same 401 "Invalid credentials". *)
Theorem login_spec p e w :
  (∃ u, user_by_email w (LoginIn.email p) = Some u ∧
        get u "password_hash" = VStr (hash_password (LoginIn.password p)) ∧
        login p e w = (Ok (JSON_user (strip_password (Some u))), log (FindOne "user") w)) ∨
  ((user_by_email w (LoginIn.email p) = None ∨
    ∃ u, user_by_email w (LoginIn.email p) = Some u ∧
         get u "password_hash" ≠ VStr (hash_password (LoginIn.password p))) ∧
   login p e w = (Raise (HTTPException 401 "Invalid credentials"), log (FindOne "user") w)).
Proof.
  rewrite login_run. destruct (user_by_email w (LoginIn.email p)) as [u|]; [|right; auto].
  destruct (value_eqb _ _) eqn:Hv.
  - left. exists u. apply value_eqb_VStr in Hv. done.
  - right. split; [|done]. right. exists u. split; [done|].
    intros Heq. apply value_eqb_VStr in Heq. congruence.
Qed.

Lemma signup_role_ok p :
  Literal Role
    match SignupIn.role p with
    | Some r => if bool_decide (r ∈ ["buyer"; "affiliate"]) then VStr r else VStr "buyer"
    | None => VStr "buyer"
    end
  = Some (VStr (signup_role p)).
Proof.
  unfold signup_role. destruct (SignupIn.role p) as [r|]; [|done].
  destruct (bool_decide (r ∈ ["buyer"; "affiliate"])) eqn:Hr; [|done].
  cbn [Literal]. rewrite bool_decide_eq_true_2; [done|].
  apply bool_decide_eq_true in Hr. unfold Role.
  apply elem_of_cons in Hr as [->|Hr]; [by left|].
  apply elem_of_cons in Hr as [->|Hr]; [right; by left|].
  by apply elem_of_nil in Hr.
Qed.

Lemma User_new p :
  BaseModel User
    (<["name" := VStr (SignupIn.name p)]>
     (<["email" := VStr (SignupIn.email p)]>
     (<["password_hash" := VStr (hash_password (SignupIn.password p))]>
     (<["role" := match SignupIn.role p with
                  | Some r => if bool_decide (r ∈ ["buyer"; "affiliate"])
                              then VStr r else VStr "buyer"
                  | None => VStr "buyer"
                  end]>
     (<["phone" := opt (SignupIn.phone p)]>
     (<["age" := from_option VInt VNull (SignupIn.age p)]>
     (<["gender" := opt (SignupIn.gender p)]> ∅)))))))
  = if signup_valid p then Some (new_user p) else None.
Proof.
  unfold User, signup_valid, new_user. cbn [BaseModel fname ftype fdefault].
  repeat (rewrite lookup_insert_eq || (rewrite lookup_insert_ne by done)).
  rewrite lookup_empty, !Optional_str_opt, signup_role_ok.
  cbn [str_ mbind option_bind].
  destruct (SignupIn.age p) as [n|]; cbn [from_option Optional le ge int_ mbind option_bind];
    [destruct (0 <=? n); cbn [mbind option_bind andb]; [destruct (n <=? 120)|]|];
    cbn [mbind option_bind andb];
    (destruct (SignupIn.gender p) as [g|]; cbn [opt Optional Literal];
     [destruct (bool_decide (g ∈ Gender))|]); reflexivity.
Qed.

(** The whole of [signup]. *)
Lemma signup_run p e w :
  signup p e w =
  match user_by_email w (SignupIn.email p) with
  | Some _ =>
      (Raise (HTTPException 400 "Account exists — please login instead."),
       log (FindOne "user") w)
  | None =>
      if signup_valid p then
        match ObjectId_new (str (new_id e)) with
        | Some i =>
            (Ok (JSON_user (strip_password (stored (signed_up p e w) "user" i))),
             log (FindOne "user") (signed_up p e w))
        | None => (Raise InvalidId, signed_up p e w)
        end
      else (Raise ValidationError, log (FindOne "user") w)
  end.
Proof.
  unfold signup, user_by_email. unfold mbind at 1, M_bind at 1, find_one at 1.
  destruct (head _) as [u|]; [done|].
  unfold new. rewrite User_new. destruct (signup_valid p); [|done].
  unfold mbind, M_bind, create_document, mbind, M_bind, utcnow, insert_one.
  cbn [mret M_ret]. rewrite collection_log. fold (signed_up p e w).
  unfold to_ObjectId. destruct (ObjectId_new (str (new_id e))) as [i|]; [|done].
  cbn [mret M_ret]. by rewrite find_one_by_id.
Qed.

(** X6. [signup] with the email of a stored user fails with 400
    "Account exists — please login instead." after its one read: nothing is
    stored. *)
Theorem signup_existing_account p e w u :
  user_by_email w (SignupIn.email p) = Some u →
  signup p e w =
    (Raise (HTTPException 400 "Account exists — please login instead."),
     log (FindOne "user") w).
Proof. intros Hu. by rewrite signup_run, Hu. Qed.

(** X7. [signup] with a new email and an age outside 0..120, or a
    gender that is none of the [Gender] names, ends in the validation error
    of the [User] schema, and nothing is stored. *)
Theorem signup_invalid_profile p e w :
  user_by_email w (SignupIn.email p) = None →
  (∃ n, SignupIn.age p = Some n ∧ (n < 0 ∨ 120 < n)) ∨
  (∃ g, SignupIn.gender p = Some g ∧ g ∉ Gender) →
  signup p e w = (Raise ValidationError, log (FindOne "user") w).
Proof.
  intros Hu Hbad. rewrite signup_run, Hu.
  assert (Hv : signup_valid p = false).
  { unfold signup_valid. destruct Hbad as [(n & -> & Hn)|(g & -> & Hg)].
    - apply andb_false_intro1. destruct Hn; [apply andb_false_intro1|apply andb_false_intro2];
        lia.
    - apply andb_false_intro2. by apply bool_decide_eq_false_2. }
  by rewrite Hv.
Qed.

Lemma signup_users p e w :
  user_by_email w (SignupIn.email p) = None →
  signup_valid p = true →
  collection (signup p e w).2 "user" = collection w "user" ++ [signed_up_user p e].
Proof.
  intros Hu Hv. rewrite signup_run, Hu, Hv.
  destruct (ObjectId_new (str (new_id e))); cbn [snd]; rewrite ?collection_log;
    unfold signed_up; by rewrite collection_insert_eq.
Qed.

(** X8. [signup] with a new email and a valid profile appends exactly
    one user: it has the id the store generated, the email, the hash of the
    password, the role "buyer" or "affiliate" (never "admin", whatever role
    was asked for), and it is active and not ad-free. *)
Theorem signup_stored_user p e w :
  user_by_email w (SignupIn.email p) = None →
  signup_valid p = true →
  ∃ d, collection (signup p e w).2 "user" = collection w "user" ++ [d] ∧
       _id d = new_id e ∧
       get d "email" = VStr (SignupIn.email p) ∧
       get d "password_hash" = VStr (hash_password (SignupIn.password p)) ∧
       (get d "role" = VStr "buyer" ∨ get d "role" = VStr "affiliate") ∧
       get d "is_active" = VBool true ∧
       get d "ad_free" = VBool false ∧
       get d "created_at" = VDate (now e).
Proof.
  intros Hu Hv. exists (signed_up_user p e). split; [by apply signup_users|].
  unfold get, as_dict, signed_up_user, new_user. cbn [_id fields].
  repeat (rewrite lookup_insert_eq || (rewrite lookup_insert_ne by done)).
  repeat split; try done. cbn [default]. unfold signup_role.
  destruct (SignupIn.role p) as [r|]; [|by left].
  destruct (bool_decide (r ∈ ["buyer"; "affiliate"])) eqn:Hr; [|by left].
  apply bool_decide_eq_true in Hr.
  apply elem_of_cons in Hr as [->|Hr]; [by left|].
  apply elem_of_cons in Hr as [->|Hr]; [by right|].
  by apply elem_of_nil in Hr.
Qed.

Lemma signed_up_user_found p e w1 w :
  user_by_email w (SignupIn.email p) = None →
  collection w1 "user" = collection w "user" ++ [signed_up_user p e] →
  user_by_email w1 (SignupIn.email p) = Some (signed_up_user p e).
Proof.
  unfold user_by_email. intros Hu Hl. rewrite Hl, filter_app.
  apply head_None in Hu. rewrite Hu. cbn [app].
  rewrite filter_cons_True; [done|].
  unfold matches. cbn [forallb clause_holds].
  unfold as_dict, signed_up_user, new_user. cbn [_id fields].
  repeat (rewrite lookup_insert_eq || (rewrite lookup_insert_ne by done)).
  cbn. by rewrite bool_decide_eq_true_2.
Qed.

(** X9. After a [signup] that stored its user, [login] with the same
    email and password answers with that user, and [login] with a password
    of another hash fails with 401. *)
Theorem signup_then_login p e w e' :
  user_by_email w (SignupIn.email p) = None →
  signup_valid p = true →
  (login {| LoginIn.email := SignupIn.email p; LoginIn.password := SignupIn.password p |}
         e' (signup p e w).2).1
    = Ok (JSON_user (strip_password (Some (signed_up_user p e)))) ∧
  ∀ password,
    hash_password password ≠ hash_password (SignupIn.password p) →
    (login {| LoginIn.email := SignupIn.email p; LoginIn.password := password |}
           e' (signup p e w).2).1
      = Raise (HTTPException 401 "Invalid credentials").
Proof.
  intros Hu Hv.
  pose proof (signed_up_user_found p e _ w Hu (signup_users p e w Hu Hv)) as Hfound.
  assert (Hhash : get (signed_up_user p e) "password_hash"
                  = VStr (hash_password (SignupIn.password p))).
  { unfold get, as_dict, signed_up_user, new_user. cbn [_id fields].
    by repeat (rewrite lookup_insert_eq || (rewrite lookup_insert_ne by done)). }
  split.
  - rewrite login_run. cbn [LoginIn.email LoginIn.password]. rewrite Hfound, Hhash.
    cbn. by rewrite bool_decide_eq_true_2.
  - intros password Hne. rewrite login_run. cbn [LoginIn.email LoginIn.password].
    rewrite Hfound, Hhash. cbn. rewrite bool_decide_eq_false_2; [done|]. congruence.
Qed.

Ltac notin :=
  repeat match goal with
         | H : context [_ ∉ _ :: _] |- _ => rewrite not_elem_of_cons in H
         end;
  rewrite ?not_elem_of_cons;
  intuition (try done; try congruence;
             try match goal with H : _ ∈ [] |- _ => by apply elem_of_nil in H end).

Lemma dump_exclude_unset_keys p k :
  k ∉ ["name"; "phone"; "photo_url"; "ad_free"] →
  UserUpdateIn.model_dump_exclude_unset p !! k = None.
Proof.
  intros Hk. unfold UserUpdateIn.model_dump_exclude_unset, UserUpdateIn.put.
  assert (k ≠ "name" ∧ k ≠ "phone" ∧ k ≠ "photo_url" ∧ k ≠ "ad_free") as (?&?&?&?).
  { notin. }
  destruct (UserUpdateIn.name p) as [[?|]|], (UserUpdateIn.phone p) as [[?|]|],
    (UserUpdateIn.photo_url p) as [[?|]|], (UserUpdateIn.ad_free p) as [[?|]|];
    repeat (rewrite lookup_insert_ne by done); apply lookup_empty.
Qed.

Lemma apply_update_set s d :
  s !! "_id" = None →
  apply_update {| inc_ := []; set_ := s |} d = Some {| _id := _id d; fields := s ∪ fields d |}.
Proof. intros Hs. unfold apply_update. cbn [inc_ set_ apply_incs mbind option_bind]. by rewrite Hs. Qed.

(** What an update by id with [$set] alone does to a world. *)
Lemma update_one_set name i s e w :
  s !! "_id" = None →
  match stored w name i with
  | Some u =>
      ∃ l', update_one name (by_id i) {| inc_ := []; set_ := s |} e w =
              (Ok 1, {| db := <[name := l']> (db w); calls := calls w ++ [UpdateOne name] |}) ∧
            length l' = length (collection w name) ∧
            lookup_id l' i = Some {| _id := _id u; fields := s ∪ fields u |} ∧
            ∀ j, j ≠ i → lookup_id l' j = lookup_id (collection w name) j
  | None =>
      update_one name (by_id i) {| inc_ := []; set_ := s |} e w =
        (Ok 0, {| db := <[name := collection w name]> (db w);
                  calls := calls w ++ [UpdateOne name] |})
  end.
Proof.
  intros Hs. unfold stored, update_one.
  destruct (lookup_id (collection w name) i) as [u|] eqn:Hu.
  - destruct (update_first_found _ _ _ _ _ Hu (apply_update_set s u Hs)) as [l' Hl'].
    exists l'. rewrite Hl'. split; [done|].
    destruct (update_first_by_id _ _ _ _ _ Hl') as (Hlen & Hother & Hj).
    rewrite Hu in Hj. destruct Hj as (_ & u' & Hu' & Hlk).
    rewrite apply_update_set in Hu' by done. inversion Hu'; subst u'. done.
  - by rewrite (update_first_not_found _ _ _ Hu).
Qed.

(** X10. A user update with at least one field set, for a stored user:
    the user is found again under the same id with [updated_at] at the time
    of the request, with every field of the body as the body gives it, and
    with every field outside [name], [phone], [photo_url], [ad_free] and
    [updated_at] (so the email, the role and the password hash) as before;
    the other users are as before, and the answer is the updated user. *)
Theorem update_user_keeps_identity s p e w i u :
  ObjectId_new s = Some i →
  stored w "user" i = Some u →
  UserUpdateIn.model_dump_exclude_unset p ≠ ∅ →
  ∃ w' u',
    update_user s p e w = (Ok (JSON_user (strip_password (Some u'))), w') ∧
    stored w' "user" i = Some u' ∧
    _id u' = i ∧
    fields u' !! "updated_at" = Some (VDate (now e)) ∧
    (∀ k v, UserUpdateIn.model_dump_exclude_unset p !! k = Some v →
            fields u' !! k = Some v) ∧
    (∀ k, k ∉ ["name"; "phone"; "photo_url"; "ad_free"; "updated_at"] →
          fields u' !! k = fields u !! k) ∧
    (∀ j, j ≠ i → stored w' "user" j = stored w "user" j).
Proof.
  intros Hoid Hu Hne.
  set (to_set := UserUpdateIn.model_dump_exclude_unset p) in *.
  assert (Hid : <["updated_at" := VDate (now e)]> to_set !! "_id" = None).
  { rewrite lookup_insert_ne by done. apply dump_exclude_unset_keys. notin. }
  pose proof (update_one_set "user" i _ e w Hid) as Hup. rewrite Hu in Hup.
  destruct Hup as (l' & Hup & _ & Hlk & Hother).
  pose proof (stored_id _ _ _ _ Hu) as Hidu.
  exists {| db := <["user" := l']> (db w);
            calls := (calls w ++ [UpdateOne "user"]) ++ [FindOne "user"] |},
         {| _id := _id u; fields := <["updated_at" := VDate (now e)]> to_set ∪ fields u |}.
  split; [|split; [|split; [exact Hidu|]]].
  - unfold update_user. cbv zeta. fold to_set.
    rewrite bool_decide_eq_false_2 by (by rewrite dom_empty_iff_L).
    unfold mbind, M_bind, utcnow, oid. rewrite Hoid. cbn [mret M_ret].
    rewrite Hup. cbn [Z.eqb]. rewrite find_one_by_id.
    unfold stored. rewrite collection_insert_eq, Hlk. reflexivity.
  - unfold stored. by rewrite collection_insert_eq.
  - cbn [fields]. split; [|split; [|split]].
    + rewrite lookup_union_l'; by rewrite lookup_insert_eq.
    + intros k v Hk. apply lookup_union_Some_l.
      destruct (decide (k = "updated_at")) as [->|Hk'].
      * subst to_set. rewrite dump_exclude_unset_keys in Hk by notin. done.
      * by rewrite lookup_insert_ne.
    + intros k Hk. rewrite lookup_union_r; [done|].
      rewrite lookup_insert_ne by (intros <-; notin).
      apply dump_exclude_unset_keys. notin.
    + intros j Hj. unfold stored. rewrite collection_insert_eq. by apply Hother.
Qed.

(** X11. A user update for a well-formed id that no user has: with no
    field set it answers "user: null" after one read (no 404, no write); with
    a field set it fails with 404 "User not found" and every collection is
    as before. *)
Theorem update_user_unknown_user s p e w i :
  ObjectId_new s = Some i →
  stored w "user" i = None →
  (UserUpdateIn.model_dump_exclude_unset p = ∅ →
   update_user s p e w = (Ok (JSON_user None), log (FindOne "user") w)) ∧
  (UserUpdateIn.model_dump_exclude_unset p ≠ ∅ →
   ∃ w', update_user s p e w = (Raise (HTTPException 404 "User not found"), w') ∧
         ∀ name, collection w' name = collection w name).
Proof.
  intros Hoid Hu. split; intros Hp.
  - unfold update_user. cbv zeta. rewrite Hp.
    rewrite bool_decide_eq_true_2 by apply dom_empty_L.
    unfold mbind, M_bind, oid. rewrite Hoid. cbn [mret M_ret].
    rewrite find_one_by_id, Hu. reflexivity.
  - set (to_set := UserUpdateIn.model_dump_exclude_unset p) in *.
    assert (Hid : <["updated_at" := VDate (now e)]> to_set !! "_id" = None).
    { rewrite lookup_insert_ne by done. apply dump_exclude_unset_keys. notin. }
    pose proof (update_one_set "user" i _ e w Hid) as Hup. rewrite Hu in Hup.
    eexists. split.
    + unfold update_user. cbv zeta. fold to_set.
      rewrite bool_decide_eq_false_2 by (by rewrite dom_empty_iff_L).
      unfold mbind, M_bind, utcnow, oid. rewrite Hoid. cbn [mret M_ret].
      rewrite Hup. reflexivity.
    + intros name. unfold collection. cbn [db].
      destruct (decide (name = "user")) as [->|Hn].
      * by rewrite lookup_total_insert_eq.
      * by rewrite lookup_total_insert_ne.
Qed.

(** ** Models *)

(** What a built instance holds: for every field of the schema the validated
    argument, or the default when the argument is not given; nothing else. *)
Lemma BaseModel_fields schema kwargs d :
  BaseModel schema kwargs = Some d →
  NoDup (fname <$> schema) →
  (∀ f, f ∈ schema →
        match kwargs !! fname f with
        | Some x => ftype f x = d !! fname f
        | None => fdefault f = d !! fname f
        end ∧ is_Some (d !! fname f)) ∧
  (∀ k, k ∉ fname <$> schema → d !! k = None).
Proof.
  revert d. induction schema as [|g schema IH]; intros d Hd Hnd.
  - inversion Hd; subst. split; [intros f Hf; by apply elem_of_nil in Hf|done].
  - cbn [BaseModel] in Hd. rewrite fmap_cons in Hnd. apply NoDup_cons in Hnd as [Hg Hnd].
    destruct (match kwargs !! fname g with Some x => ftype g x | None => fdefault g end)
      as [v|] eqn:Hv; [|done].
    cbn [mbind option_bind] in Hd.
    destruct (BaseModel schema kwargs) as [d'|] eqn:Hd'; [|done].
    cbn [mbind option_bind] in Hd. inversion Hd; subst d. clear Hd.
    destruct (IH d' eq_refl Hnd) as [IH1 IH2]. split.
    + intros f Hf. apply elem_of_cons in Hf as [->|Hf].
      * rewrite lookup_insert_eq. split; [|eauto].
        by destruct (kwargs !! fname g).
      * assert (fname g ≠ fname f).
        { intros Heq. apply Hg. rewrite Heq. by apply list_elem_of_fmap_2. }
        rewrite lookup_insert_ne by done. by apply IH1.
    + intros k Hk. apply not_elem_of_cons in Hk as [Hk1 Hk2].
      rewrite lookup_insert_ne by done. by apply IH2.
Qed.

(** An instance is not built when the argument of one field does not
    validate, or a required field is not given. *)
Lemma BaseModel_invalid schema kwargs f :
  f ∈ schema →
  match kwargs !! fname f with Some x => ftype f x | None => fdefault f end = None →
  BaseModel schema kwargs = None.
Proof.
  induction schema as [|g schema IH]; intros Hf Hbad; [by apply elem_of_nil in Hf|].
  cbn [BaseModel]. apply elem_of_cons in Hf as [->|Hf].
  - by rewrite Hbad.
  - rewrite (IH Hf Hbad).
    by destruct (match kwargs !! fname g with Some x => ftype g x | None => fdefault g end).
Qed.

(** ** Products *)

(** The whole of [create_product]. *)
Lemma create_product_run payload e w :
  create_product payload e w =
  match BaseModel Product (ProductIn.model_dump payload) with
  | None => (Raise ValidationError, w)
  | Some prod =>
      match ObjectId_new (str (new_id e)) with
      | None => (Raise InvalidId, with_product prod e w)
      | Some i =>
          match stored (with_product prod e w) "product" i with
          | Some d => (Ok (JSON_doc (str_id d)), log (FindOne "product") (with_product prod e w))
          | None => (Raise TypeError, log (FindOne "product") (with_product prod e w))
          end
      end
  end.
Proof.
  unfold create_product, new. unfold mbind at 1, M_bind at 1.
  destruct (BaseModel Product (ProductIn.model_dump payload)) as [prod|]; [|done].
  cbn [mret M_ret].
  unfold mbind, M_bind, create_document, mbind, M_bind, utcnow, insert_one.
  cbn [mret M_ret]. fold (created_product prod e). fold (with_product prod e w).
  unfold to_ObjectId. destruct (ObjectId_new (str (new_id e))) as [i|]; [|done].
  cbn [mret M_ret]. rewrite find_one_by_id.
  by destruct (stored (with_product prod e w) "product" i).
Qed.

Lemma Product_names_NoDup : NoDup (fname <$> Product).
Proof. apply (bool_decide_unpack _). by vm_compute. Qed.

Lemma model_dump_unset payload :
  ProductIn.model_dump payload !! "featured" = None ∧
  ProductIn.model_dump payload !! "clicks" = None ∧
  ProductIn.model_dump payload !! "orders" = None.
Proof.
  unfold ProductIn.model_dump.
  repeat split; by repeat (rewrite lookup_insert_ne by done).
Qed.

(** X12. A product creation either ends in the validation error of the
    [Product] schema in the world it started in, or appends exactly one
    product: with the generated id, the creation time, the affiliate and a
    vendor of the [Vendor] enumeration as given, and with [clicks] 0,
    [orders] 0 and [featured] false, which the request cannot set. *)
Theorem create_product_starts_at_zero payload e w :
  create_product payload e w = (Raise ValidationError, w) ∨
  ∃ d, collection (create_product payload e w).2 "product" = collection w "product" ++ [d] ∧
       _id d = new_id e ∧
       get d "created_at" = VDate (now e) ∧
       get d "clicks" = VInt 0 ∧
       get d "orders" = VInt 0 ∧
       get d "featured" = VBool false ∧
       get d "affiliate_id" = VStr (ProductIn.affiliate_id payload) ∧
       get d "vendor" = VStr (ProductIn.vendor payload) ∧
       ProductIn.vendor payload ∈ Vendor.
Proof.
  rewrite create_product_run.
  destruct (BaseModel Product (ProductIn.model_dump payload)) as [prod|] eqn:Hprod;
    [right|by left].
  exists (created_product prod e). split.
  { destruct (ObjectId_new (str (new_id e))) as [i|];
      [destruct (stored (with_product prod e w) "product" i)|];
      cbn [snd]; rewrite ?collection_log; unfold with_product;
      by rewrite collection_insert_eq. }
  destruct (BaseModel_fields _ _ _ Hprod Product_names_NoDup) as [Hf _].
  assert (Hget : ∀ k, k ≠ "_id" → k ≠ "created_at" →
                      get (created_product prod e) k = default VNull (prod !! k)).
  { intros k H1 H2. unfold get, as_dict, created_product. cbn [_id fields].
    by rewrite !lookup_insert_ne by done. }
  split; [done|]. split.
  { unfold get, as_dict, created_product. cbn [_id fields].
    by rewrite lookup_insert_ne, lookup_insert_eq. }
  rewrite !Hget by done.
  pose proof (Hf (FieldDef "clicks" int_ (Some (VInt 0)))
                 ltac:(by apply (list_elem_of_lookup_2 _ 14))) as [Hc _].
  pose proof (Hf (FieldDef "orders" int_ (Some (VInt 0)))
                 ltac:(by apply (list_elem_of_lookup_2 _ 15))) as [Ho _].
  pose proof (Hf (FieldDef "featured" bool_ (Some (VBool false)))
                 ltac:(by apply (list_elem_of_lookup_2 _ 13))) as [Hfe _].
  pose proof (Hf (FieldDef "affiliate_id" str_ None)
                 ltac:(by apply (list_elem_of_lookup_2 _ 0))) as [Ha _].
  pose proof (Hf (FieldDef "vendor" (Literal Vendor) None)
                 ltac:(by apply (list_elem_of_lookup_2 _ 6))) as [Hv Hsv].
  cbn [fname ftype fdefault] in *.
  destruct (model_dump_unset payload) as (Hd1 & Hd2 & Hd3).
  rewrite Hd2 in Hc. rewrite Hd3 in Ho. rewrite Hd1 in Hfe.
  rewrite <- Hc, <- Ho, <- Hfe.
  unfold ProductIn.model_dump in Ha, Hv.
  repeat (rewrite lookup_insert_eq in Ha || (rewrite lookup_insert_ne in Ha by done)).
  repeat (rewrite lookup_insert_eq in Hv || (rewrite lookup_insert_ne in Hv by done)).
  rewrite <- Ha. cbn [str_ default]. rewrite <- Hv in Hsv |- *. cbn [Literal] in *.
  destruct (bool_decide (ProductIn.vendor payload ∈ Vendor)) eqn:Hin;
    [|by destruct Hsv].
  apply bool_decide_eq_true in Hin. done.
Qed.

Lemma float_of_Z_0 : float_of_Z 0 = 0%float.
Proof. reflexivity. Qed.

Lemma float_of_Z_5 : float_of_Z 5 = 5%float.
Proof. reflexivity. Qed.

(** X13. A product creation with a vendor outside the [Vendor]
    enumeration, a price or a rating that is not at least 0, a rating that is
    not at most 5, or an affiliate link that is no URL, ends in the
    validation error of the [Product] schema in the world it started in. *)
Theorem create_product_rejects payload e w :
  ProductIn.vendor payload ∉ Vendor ∨
  PrimFloat.leb 0 (ProductIn.price payload) = false ∨
  PrimFloat.leb 0 (ProductIn.rating payload) = false ∨
  PrimFloat.leb (ProductIn.rating payload) 5 = false ∨
  HttpUrl (ProductIn.affiliate_link payload) = None →
  create_product payload e w = (Raise ValidationError, w).
Proof.
  intros Hbad. rewrite create_product_run.
  assert (Hnone : BaseModel Product (ProductIn.model_dump payload) = None); [|by rewrite Hnone].
  destruct Hbad as [Hv|[Hp|[Hr0|[Hr5|Hurl]]]].
  - apply (BaseModel_invalid _ _ (FieldDef "vendor" (Literal Vendor) None));
      [by apply (list_elem_of_lookup_2 _ 6)|].
    cbn [fname ftype fdefault]. unfold ProductIn.model_dump.
    repeat (rewrite lookup_insert_eq || (rewrite lookup_insert_ne by done)).
    cbn [Literal]. by rewrite bool_decide_eq_false_2.
  - apply (BaseModel_invalid _ _ (FieldDef "price" (ge 0 float_) None));
      [by apply (list_elem_of_lookup_2 _ 3)|].
    cbn [fname ftype fdefault]. unfold ProductIn.model_dump.
    repeat (rewrite lookup_insert_eq || (rewrite lookup_insert_ne by done)).
    unfold ge. cbn [float_ mbind option_bind]. by rewrite float_of_Z_0, Hp.
  - apply (BaseModel_invalid _ _ (FieldDef "rating" (le 5 (ge 0 float_)) (Some (VInt 0))));
      [by apply (list_elem_of_lookup_2 _ 10)|].
    cbn [fname ftype fdefault]. unfold ProductIn.model_dump.
    repeat (rewrite lookup_insert_eq || (rewrite lookup_insert_ne by done)).
    unfold le, ge. cbn [float_ mbind option_bind]. by rewrite float_of_Z_0, Hr0.
  - apply (BaseModel_invalid _ _ (FieldDef "rating" (le 5 (ge 0 float_)) (Some (VInt 0))));
      [by apply (list_elem_of_lookup_2 _ 10)|].
    cbn [fname ftype fdefault]. unfold ProductIn.model_dump.
    repeat (rewrite lookup_insert_eq || (rewrite lookup_insert_ne by done)).
    unfold le, ge. cbn [float_ mbind option_bind]. rewrite float_of_Z_0.
    destruct (PrimFloat.leb 0 (ProductIn.rating payload)); [|done].
    cbn [mbind option_bind]. by rewrite float_of_Z_5, Hr5.
  - apply (BaseModel_invalid _ _ (FieldDef "affiliate_link" HttpUrl_ None));
      [by apply (list_elem_of_lookup_2 _ 7)|].
    cbn [fname ftype fdefault]. unfold ProductIn.model_dump.
    repeat (rewrite lookup_insert_eq || (rewrite lookup_insert_ne by done)).
    unfold HttpUrl_. by rewrite Hurl.
Qed.

Lemma get_product_run s i e w :
  ObjectId_new s = Some i →
  get_product s e w =
  match stored w "product" i with
  | Some d => (Ok (JSON_doc (str_id d)), log (FindOne "product") w)
  | None => (Raise (HTTPException 404 "Product not found"), log (FindOne "product") w)
  end.
Proof.
  intros Hoid. unfold get_product, mbind, M_bind, oid. rewrite Hoid. cbn [mret M_ret].
  rewrite find_one_by_id. by destruct (stored w "product" i).
Qed.

(** X14. For a well-formed id, [get_product] answers with the stored
    product, its [_id] as the lower-case text of the id and every other
    field as stored, or fails with 404 "Product not found" when no product
    has the id; in both cases after one read. *)
Theorem get_product_spec s i e w :
  ObjectId_new s = Some i →
  match stored w "product" i with
  | Some d =>
      ∃ r, get_product s e w = (Ok (JSON_doc r), log (FindOne "product") w) ∧
           r !! "_id" = Some (VStr (str i)) ∧
           ∀ k, k ≠ "_id" → r !! k = fields d !! k
  | None =>
      get_product s e w =
        (Raise (HTTPException 404 "Product not found"), log (FindOne "product") w)
  end.
Proof.
  intros Hoid. rewrite (get_product_run _ _ _ _ Hoid).
  destruct (stored w "product" i) as [d|] eqn:Hd; [|done].
  exists (str_id d). split; [done|]. unfold str_id.
  rewrite (stored_id _ _ _ _ Hd). split; [by rewrite lookup_insert_eq|].
  intros k Hk. by rewrite lookup_insert_ne.
Qed.

(** X15. A product creation that validates, with a well-formed
    generated id that no product has yet, answers with the stored product;
    reading the product under that id afterwards gives the same answer. *)
Theorem create_product_then_get payload e w e' prod :
  BaseModel Product (ProductIn.model_dump payload) = Some prod →
  ObjectId_new (str (new_id e)) = Some (new_id e) →
  stored w "product" (new_id e) = None →
  ∃ w', create_product payload e w = (Ok (JSON_doc (str_id (created_product prod e))), w') ∧
        stored w' "product" (new_id e) = Some (created_product prod e) ∧
        (get_product (str (new_id e)) e' w').1 = Ok (JSON_doc (str_id (created_product prod e))).
Proof.
  intros Hprod Hoid Hfresh.
  assert (Hst : stored (with_product prod e w) "product" (new_id e) =
                Some (created_product prod e)).
  { unfold stored, with_product. rewrite collection_insert_eq, lookup_id_app_l.
    unfold stored in Hfresh. rewrite Hfresh, lookup_id_cons.
    by rewrite decide_True. }
  exists (log (FindOne "product") (with_product prod e w)).
  split; [|split].
  - by rewrite create_product_run, Hprod, Hoid, Hst.
  - by rewrite stored_log.
  - rewrite (get_product_run _ _ _ _ Hoid), stored_log, Hst. done.
Qed.

(** X16. A product update for a stored product: the product is found
    again under the same id, with [updated_at] at the time of the request
    (whatever the payload says), with every other field of the payload as
    the payload gives it, and with every field the payload does not name as
    before; an [_id] in the payload is ignored; the other products are as
    before, and the answer is the updated product. *)
Theorem update_product_sets_fields s payload e w i p :
  ObjectId_new s = Some i →
  stored w "product" i = Some p →
  ∃ w' p',
    update_product s payload e w = (Ok (JSON_doc (str_id p')), w') ∧
    stored w' "product" i = Some p' ∧
    _id p' = i ∧
    fields p' !! "updated_at" = Some (VDate (now e)) ∧
    (∀ k v, k ≠ "_id" → k ≠ "updated_at" → payload !! k = Some v →
            fields p' !! k = Some v) ∧
    (∀ k, k ≠ "updated_at" → payload !! k = None ∨ k = "_id" →
          fields p' !! k = fields p !! k) ∧
    (∀ j, j ≠ i → stored w' "product" j = stored w "product" j).
Proof.
  intros Hoid Hp.
  set (to_set := <["updated_at" := VDate (now e)]> (delete "_id" payload)).
  assert (Hid : to_set !! "_id" = None).
  { unfold to_set. by rewrite lookup_insert_ne, lookup_delete_eq. }
  pose proof (update_one_set "product" i _ e w Hid) as Hup. rewrite Hp in Hup.
  destruct Hup as (l' & Hup & _ & Hlk & Hother).
  pose proof (stored_id _ _ _ _ Hp) as Hidp.
  exists {| db := <["product" := l']> (db w);
            calls := (calls w ++ [UpdateOne "product"]) ++ [FindOne "product"] |},
         {| _id := _id p; fields := to_set ∪ fields p |}.
  split; [|split; [|split; [exact Hidp|]]].
  - unfold update_product. cbv zeta. fold to_set.
    unfold mbind at 1 2 3, M_bind at 1 2 3, utcnow, oid. rewrite Hoid. cbn [mret M_ret].
    fold to_set. rewrite Hup. cbn [Z.eqb].
    rewrite (get_product_run _ _ _ _ Hoid). unfold stored.
    rewrite collection_insert_eq, Hlk. reflexivity.
  - unfold stored. by rewrite collection_insert_eq.
  - cbn [fields]. split; [|split; [|split]].
    + rewrite lookup_union_l'; unfold to_set; by rewrite lookup_insert_eq.
    + intros k v H1 H2 Hk. apply lookup_union_Some_l. unfold to_set.
      by rewrite lookup_insert_ne, lookup_delete_ne.
    + intros k H1 Hk. rewrite lookup_union_r; [done|]. unfold to_set.
      rewrite lookup_insert_ne by done. destruct Hk as [Hk| ->].
      * destruct (decide (k = "_id")) as [->|?];
          [apply lookup_delete_eq|by rewrite lookup_delete_ne].
      * apply lookup_delete_eq.
    + intros j Hj. unfold stored. rewrite collection_insert_eq. by apply Hother.
Qed.

(** X17. A product update for a well-formed id that no product has
    fails with 404 "Not found", and every collection is as before. *)
Theorem update_product_unknown s payload e w i :
  ObjectId_new s = Some i →
  stored w "product" i = None →
  ∃ w', update_product s payload e w = (Raise (HTTPException 404 "Not found"), w') ∧
        ∀ name, collection w' name = collection w name.
Proof.
  intros Hoid Hp.
  set (to_set := <["updated_at" := VDate (now e)]> (delete "_id" payload)).
  assert (Hid : to_set !! "_id" = None).
  { unfold to_set. by rewrite lookup_insert_ne, lookup_delete_eq. }
  pose proof (update_one_set "product" i _ e w Hid) as Hup. rewrite Hp in Hup.
  eexists. split.
  - unfold update_product. cbv zeta. fold to_set.
    unfold mbind, M_bind, utcnow, oid. rewrite Hoid. cbn [mret M_ret].
    fold to_set. rewrite Hup. reflexivity.
  - intros name. unfold collection. cbn [db].
    destruct (decide (name = "product")) as [->|Hn].
    + by rewrite lookup_total_insert_eq.
    + by rewrite lookup_total_insert_ne.
Qed.

Lemma delete_first_count l j :
  match lookup_id l j with
  | Some _ => (delete_first (by_id j) l).1 = 1
  | None => delete_first (by_id j) l = (0, l)
  end.
Proof.
  induction l as [|d l IH]; [done|].
  rewrite lookup_id_cons. cbn [delete_first]. rewrite matches_by_id.
  destruct (decide (j = _id d)) as [->|Hne].
  - by rewrite bool_decide_eq_true_2.
  - rewrite bool_decide_eq_false_2 by done.
    destruct (lookup_id l j); [done|]. by rewrite IH.
Qed.

Lemma delete_product_run s i e w :
  ObjectId_new s = Some i →
  delete_product s e w =
  let r := delete_first (by_id i) (collection w "product") in
  let w' := {| db := <["product" := r.2]> (db w); calls := calls w ++ [DeleteOne "product"] |} in
  if r.1 =? 0 then (Raise (HTTPException 404 "Not found"), w') else (Ok JSON_ok, w').
Proof.
  intros Hoid. unfold delete_product, mbind, M_bind, oid. rewrite Hoid. cbn [mret M_ret].
  unfold delete_one. cbv zeta. cbn [fst snd].
  by destruct ((delete_first (by_id i) (collection w "product")).1 =? 0).
Qed.

(** X18. Deleting a stored product (ids in the collection being
    unique) answers ok; afterwards no product has the id, the other products
    are as before, reading the product fails with 404 "Product not found" and
    deleting it again fails with 404 "Not found". *)
Theorem delete_product_removes s e w i p e1 e2 :
  ObjectId_new s = Some i →
  stored w "product" i = Some p →
  NoDup (_id <$> collection w "product") →
  ∃ w', delete_product s e w = (Ok JSON_ok, w') ∧
        stored w' "product" i = None ∧
        (∀ j, j ≠ i → stored w' "product" j = stored w "product" j) ∧
        (get_product s e1 w').1 = Raise (HTTPException 404 "Product not found") ∧
        (delete_product s e2 w').1 = Raise (HTTPException 404 "Not found").
Proof.
  intros Hoid Hp Hnd. unfold stored in Hp.
  pose proof (delete_first_count (collection w "product") i) as Hcount.
  rewrite Hp in Hcount.
  destruct (delete_first_by_id (collection w "product") i) as [Hother Hgone].
  eexists. split; [|split; [|split; [|split]]].
  - rewrite (delete_product_run _ _ _ _ Hoid). cbv zeta. rewrite Hcount. reflexivity.
  - unfold stored. rewrite collection_insert_eq. by apply Hgone.
  - intros j Hj. unfold stored. rewrite collection_insert_eq. by apply Hother.
  - rewrite (get_product_run _ _ _ _ Hoid). unfold stored.
    rewrite collection_insert_eq, Hgone by done. done.
  - rewrite (delete_product_run _ _ _ _ Hoid). cbv zeta.
    rewrite collection_insert_eq.
    pose proof (delete_first_count (delete_first (by_id i) (collection w "product")).2 i)
      as Hc2.
    rewrite Hgone in Hc2 by done. by rewrite Hc2.
Qed.

(** X19. Deleting under a well-formed id that no product has fails
    with 404 "Not found", and every collection is as before. *)
Theorem delete_product_unknown s e w i :
  ObjectId_new s = Some i →
  stored w "product" i = None →
  ∃ w', delete_product s e w = (Raise (HTTPException 404 "Not found"), w') ∧
        ∀ name, collection w' name = collection w name.
Proof.
  intros Hoid Hp. unfold stored in Hp.
  pose proof (delete_first_count (collection w "product") i) as Hcount.
  rewrite Hp in Hcount.
  eexists. split.
  - rewrite (delete_product_run _ _ _ _ Hoid). cbv zeta. rewrite Hcount. reflexivity.
  - intros name. unfold collection. cbn [db snd].
    destruct (decide (name = "product")) as [->|Hn].
    + by rewrite lookup_total_insert_eq.
    + by rewrite lookup_total_insert_ne.
Qed.

(** ** Orders *)

Ltac frames_auto :=
  cbv zeta;
  repeat lazymatch goal with
  | |- frames _ (mbind _ _) => apply frames_bind; [|intros ?]
  | |- frames _ (mret _) => apply frames_ret
  | |- frames _ (raise _) => apply frames_raise
  | |- frames _ utcnow => apply frames_utcnow
  | |- frames _ (find_one _ _) => apply frames_find_one
  | |- frames _ (find _ _ _) => apply frames_find
  | |- frames _ (count_documents _ _) => apply frames_count_documents
  | |- frames _ (aggregate_sum _ _) => apply frames_aggregate_sum
  | |- frames _ (insert_one _ _) => apply frames_insert_one; discriminate
  | |- frames _ (update_one _ _ _) => apply frames_update_one; discriminate
  | |- frames _ (delete_one _ _) => apply frames_delete_one; discriminate
  | |- frames _ (create_document _ _) => apply frames_create_document; discriminate
  | |- frames _ (new _ _) => apply frames_new
  | |- frames _ (oid _) => apply frames_oid
  | |- frames _ (to_ObjectId _) => apply frames_to_ObjectId
  | |- frames _ (with_str_id _) => apply frames_with_str_id
  | |- frames _ (get_product _) => apply frames_get_product
  | |- frames _ get_admin_settings => apply frames_get_admin_settings
  | |- frames _ (match ?x with _ => _ end) => destruct x
  end.

Lemma Order_new uid pid aff url :
  Optional str_ aff = Some aff →
  Optional str_ url = Some url →
  BaseModel Order
    (<["user_id" := VStr uid]>
     (<["product_id" := VStr pid]>
     (<["affiliate_id" := aff]>
     (<["status" := VStr "redirected"]>
     (<["vendor_url" := url]> ∅)))))
  = Some (order_fields (VStr uid) (VStr pid) aff (VStr "redirected") url).
Proof.
  intros Haff Hurl. unfold Order. cbn [BaseModel fname ftype fdefault].
  repeat (rewrite lookup_insert_eq || (rewrite lookup_insert_ne by done)).
  rewrite Haff, Hurl. reflexivity.
Qed.

Lemma is_str_field_Optional d k :
  k ≠ "_id" → is_str_field d k = true → Optional str_ (get d k) = Some (get d k).
Proof.
  intros Hk Hs. unfold get, is_str_field in *. rewrite as_dict_field by done.
  by destruct (fields d !! k) as [[]|].
Qed.

(** What [create_order] has done to the orders and to the product when it
    is over, however it ends after the two writes. *)
Lemma create_order_run payload e w i prod :
  ObjectId_new (OrderIn.product_id payload) = Some i →
  stored w "product" i = Some prod →
  is_int_field prod "orders" = true →
  is_str_field prod "affiliate_id" = true →
  is_str_field prod "affiliate_link" = true →
  collection (create_order payload e w).2 "order" =
    collection w "order" ++
    [Document (new_id e)
       (<["created_at" := VDate (now e)]>
          (order_fields (VStr (OrderIn.user_id payload)) (VStr (OrderIn.product_id payload))
             (get prod "affiliate_id") (VStr "redirected") (get prod "affiliate_link")))] ∧
  stored (create_order payload e w).2 "product" i =
    Some {| _id := i;
            fields := ∅ ∪ <["orders" := VInt (counter prod "orders" + 1)]> (fields prod) |} ∧
  ∀ j, j ≠ i → stored (create_order payload e w).2 "product" j = stored w "product" j.
Proof.
  intros Hoid Hst Hcnt Haff Hurl.
  pose proof (stored_id _ _ _ _ Hst) as Hid. subst i.
  pose proof (apply_update_inc "orders" ∅ prod ltac:(done) ltac:(done) Hcnt) as Hup.
  destruct (update_first_found _ _ _ _ _ Hst Hup) as [l' Hl'].
  destruct (update_first_by_id _ _ _ _ _ Hl') as (_ & Hother & Hj).
  unfold stored in Hst. rewrite Hst in Hj. destruct Hj as (_ & p' & Hp' & Hlk).
  rewrite Hup in Hp'. inversion Hp'; subst p'. clear Hp'.
  assert (Hw : ∀ name,
    collection (create_order payload e w).2 name =
    collection
      {| db := <["product" := l']>
                 (<["order" := collection w "order" ++
                     [Document (new_id e)
                        (<["created_at" := VDate (now e)]>
                           (order_fields (VStr (OrderIn.user_id payload))
                              (VStr (OrderIn.product_id payload))
                              (get prod "affiliate_id") (VStr "redirected")
                              (get prod "affiliate_link")))]]> (db w));
         calls := [] |} name).
  { intros name. unfold create_order.
    unfold mbind at 1, M_bind at 1, oid. rewrite Hoid. cbn [mret M_ret].
    unfold mbind at 1, M_bind at 1. rewrite find_one_by_id. unfold stored.
    rewrite Hst.
    unfold mbind at 1, M_bind at 1, new.
    rewrite (Order_new _ _ _ _
               (is_str_field_Optional prod "affiliate_id" ltac:(done) Haff)
               (is_str_field_Optional prod "affiliate_link" ltac:(done) Hurl)).
    cbn [mret M_ret].
    unfold mbind at 1, M_bind at 1.
    unfold create_document at 1, mbind at 1 2, M_bind at 1 2, utcnow, insert_one.
    cbn [mret M_ret].
    unfold mbind at 1, M_bind at 1, update_one at 1.
    rewrite collection_insert_ne by done. rewrite collection_log.
    change (db (log (FindOne "product") w) !!! "product") with (collection w "product").
    rewrite Hl'. rewrite collection_bind_frames by (intros; frames_auto).
    rewrite <- (frames_to_ObjectId name (str (new_id e)) e). reflexivity. }
  unfold stored. rewrite !Hw. rewrite collection_insert_ne by done.
  rewrite lookup_total_insert_eq, collection_insert_eq.
  split; [done|]. split; [exact Hlk|]. exact Hother.
Qed.

(** X20. An order for a stored product (integer [orders], string
    [affiliate_id] and [affiliate_link]) appends exactly one order, with the
    user and product ids as given, the product's affiliate, the status
    "redirected" and the product's link as [vendor_url], and leaves the
    product's [orders] one higher and its [clicks] as they were. *)
Theorem create_order_records payload e w i prod :
  ObjectId_new (OrderIn.product_id payload) = Some i →
  stored w "product" i = Some prod →
  is_int_field prod "orders" = true →
  is_str_field prod "affiliate_id" = true →
  is_str_field prod "affiliate_link" = true →
  ∃ o p',
    collection (create_order payload e w).2 "order" = collection w "order" ++ [o] ∧
    _id o = new_id e ∧
    get o "user_id" = VStr (OrderIn.user_id payload) ∧
    get o "product_id" = VStr (OrderIn.product_id payload) ∧
    get o "affiliate_id" = get prod "affiliate_id" ∧
    get o "status" = VStr "redirected" ∧
    get o "vendor_url" = get prod "affiliate_link" ∧
    stored (create_order payload e w).2 "product" i = Some p' ∧
    counter p' "orders" = counter prod "orders" + 1 ∧
    counter p' "clicks" = counter prod "clicks".
Proof.
  intros Hoid Hst Hcnt Haff Hurl.
  destruct (create_order_run payload e w i prod Hoid Hst Hcnt Haff Hurl) as (Ho & Hp & _).
  pose proof (stored_id _ _ _ _ Hst) as Hid.
  exists (Document (new_id e)
            (<["created_at" := VDate (now e)]>
               (order_fields (VStr (OrderIn.user_id payload))
                  (VStr (OrderIn.product_id payload)) (get prod "affiliate_id")
                  (VStr "redirected") (get prod "affiliate_link")))),
         {| _id := i;
            fields := ∅ ∪ <["orders" := VInt (counter prod "orders" + 1)]> (fields prod) |}.
  split; [exact Ho|]. split; [done|].
  split; [|split; [|split; [|split; [|split; [|split; [exact Hp|]]]]]];
    try (unfold get at 1, as_dict, order_fields; cbn [_id fields];
         by repeat (rewrite lookup_insert_eq || (rewrite lookup_insert_ne by done))).
  rewrite <- Hid. by rewrite inc_counter_same, inc_counter_other.
Qed.

(** X21. An order for a well-formed product id that no product has
    fails with 404 "Product not found" after one read: no order is stored
    and no counter moves. *)
Theorem create_order_unknown_product payload e w i :
  ObjectId_new (OrderIn.product_id payload) = Some i →
  stored w "product" i = None →
  create_order payload e w =
    (Raise (HTTPException 404 "Product not found"), log (FindOne "product") w).
Proof.
  intros Hoid Hst. unfold create_order, mbind, M_bind, oid. rewrite Hoid.
  cbn [mret M_ret]. by rewrite find_one_by_id, Hst.
Qed.

(** ** Subscriptions *)

(** The whole of [create_subscription]: the subscription is stored first;
    only then is the user id looked at. *)
Lemma create_subscription_run payload e w :
  create_subscription payload e w =
  match ObjectId_new (SubscriptionIn.user_id payload) with
  | None => (Raise (HTTPException 400 "Invalid id"), subscribed payload e w)
  | Some i =>
      match update_one "user" (by_id i)
              {| inc_ := [];
                 set_ := <["ad_free" := VBool true]> {["updated_at" := VDate (now e)]} |}
              e (subscribed payload e w) with
      | (Ok _, w') => (Ok (JSON_ok_expires (now e + days_30)), w')
      | (Raise x, w') => (Raise x, w')
      end
  end.
Proof.
  unfold create_subscription. unfold mbind at 1, M_bind at 1, utcnow. cbv zeta.
  unfold mbind at 1, M_bind at 1, new.
  cbn [Subscription BaseModel fname ftype fdefault].
  repeat (rewrite lookup_insert_eq || (rewrite lookup_insert_ne by done)).
  cbn [str_ float_ datetime_ mbind option_bind mret M_ret].
  unfold mbind at 1, M_bind at 1.
  unfold create_document, mbind at 1 2, M_bind at 1 2, utcnow, insert_one.
  cbn [mret M_ret]. fold (new_subscription payload e). fold (subscribed payload e w).
  unfold mbind at 1, M_bind at 1, oid.
  destruct (ObjectId_new (SubscriptionIn.user_id payload)) as [i|]; [|done].
  cbn [mret M_ret]. unfold mbind, M_bind.
  by destruct (update_one _ _ _ _ _) as [[n|x] w'].
Qed.

(** X22. A subscription request always appends exactly one subscription,
    for the user id and transaction as given, starting at the time of the
    request and expiring 30 days later (2592000000 ms).  This happens before
    the user id is checked: with a malformed user id the request fails with
    400 "Invalid id" and the subscription stays stored. *)
Theorem create_subscription_stores_first payload e w :
  ∃ d, collection (create_subscription payload e w).2 "subscription"
         = collection w "subscription" ++ [d] ∧
       _id d = new_id e ∧
       get d "user_id" = VStr (SubscriptionIn.user_id payload) ∧
       get d "tx_id" = VStr (SubscriptionIn.tx_id payload) ∧
       get d "amount" = VFloat (SubscriptionIn.amount payload) ∧
       get d "starts_at" = VDate (now e) ∧
       get d "expires_at" = VDate (now e + 2592000000) ∧
       (ObjectId_new (SubscriptionIn.user_id payload) = None →
        (create_subscription payload e w).1 = Raise (HTTPException 400 "Invalid id")).
Proof.
  exists (new_subscription payload e). split.
  { rewrite create_subscription_run.
    destruct (ObjectId_new (SubscriptionIn.user_id payload)) as [i|].
    - pose proof (frames_update_one "subscription" "user" (by_id i)
                    {| inc_ := [];
                       set_ := <["ad_free" := VBool true]> {["updated_at" := VDate (now e)]} |}
                    ltac:(discriminate) e (subscribed payload e w)) as Hfr.
      destruct (update_one _ _ _ _ _) as [[n|x] w']; cbn [snd] in *;
        rewrite <- Hfr; unfold subscribed; by rewrite collection_insert_eq.
    - cbn [snd]. unfold subscribed. by rewrite collection_insert_eq. }
  split; [done|].
  split; [|split; [|split; [|split; [|split]]]];
    try (unfold get, as_dict, new_subscription; cbn [_id fields];
         by repeat (rewrite lookup_insert_eq || (rewrite lookup_insert_ne by done))).
  intros Hbad. by rewrite create_subscription_run, Hbad.
Qed.

(** X23. A subscription request with a well-formed user id answers ok
    with the expiry 30 days after the request, whether or not a user has the
    id.  A stored user with the id is then ad-free, with [updated_at] at the
    time of the request and every other field as before; the other users are
    as before. *)
Theorem create_subscription_sets_ad_free payload e w i :
  ObjectId_new (SubscriptionIn.user_id payload) = Some i →
  (create_subscription payload e w).1 = Ok (JSON_ok_expires (now e + 2592000000)) ∧
  match stored w "user" i with
  | Some u =>
      ∃ u', stored (create_subscription payload e w).2 "user" i = Some u' ∧
            fields u' !! "ad_free" = Some (VBool true) ∧
            fields u' !! "updated_at" = Some (VDate (now e)) ∧
            ∀ k, k ≠ "ad_free" → k ≠ "updated_at" → fields u' !! k = fields u !! k
  | None => stored (create_subscription payload e w).2 "user" i = None
  end ∧
  ∀ j, j ≠ i → stored (create_subscription payload e w).2 "user" j = stored w "user" j.
Proof.
  intros Hoid. rewrite create_subscription_run, Hoid.
  set (s := <["ad_free" := VBool true]> {["updated_at" := VDate (now e)]} : dict).
  assert (Hid : s !! "_id" = None).
  { unfold s. by rewrite lookup_insert_ne, lookup_singleton_ne. }
  pose proof (update_one_set "user" i s e (subscribed payload e w) Hid) as Hup.
  assert (Hsame : ∀ j, stored (subscribed payload e w) "user" j = stored w "user" j).
  { intros j. unfold stored, subscribed. rewrite collection_insert_ne by done. done. }
  rewrite Hsame in Hup.
  destruct (stored w "user" i) as [u|] eqn:Hu.
  - destruct Hup as (l' & -> & _ & Hlk & Hother). cbn [fst snd]. split; [done|].
    split.
    + eexists. unfold stored. rewrite collection_insert_eq. split; [exact Hlk|].
      cbn [fields]. unfold s. split; [|split].
      * apply lookup_union_Some_l. by rewrite lookup_insert_eq.
      * apply lookup_union_Some_l. by rewrite lookup_insert_ne, lookup_singleton_eq.
      * intros k H1 H2. rewrite lookup_union_r; [done|].
        by rewrite lookup_insert_ne, lookup_singleton_ne.
    + intros j Hj. unfold stored. rewrite collection_insert_eq, Hother by done.
      apply Hsame.
  - rewrite Hup. cbn [fst snd]. split; [done|].
    assert (Hst : ∀ j, stored {| db := <["user" := collection (subscribed payload e w) "user"]>
                                         (db (subscribed payload e w));
                                 calls := calls (subscribed payload e w) ++ [UpdateOne "user"] |}
                         "user" j = stored w "user" j).
    { intros j. unfold stored at 1. rewrite collection_insert_eq. apply Hsame. }
    split; [by rewrite Hst|]. intros j _. apply Hst.
Qed.

(** ** Admin settings *)

Lemma get_admin_settings_run e w :
  get_admin_settings e w =
  match head (collection w "adminsetting") with
  | Some d => (Ok (JSON_doc (str_id d)), log (FindOne "adminsetting") w)
  | None => (Ok JSON_empty, log (FindOne "adminsetting") w)
  end.
Proof.
  unfold get_admin_settings, mbind, M_bind. rewrite find_one_all.
  by destruct (head (collection w "adminsetting")).
Qed.

Lemma AdminSetting_by_vendor :
  AdminSetting = (λ v, FieldDef v (Optional HttpUrl_) (Some VNull)) <$> Vendor.
Proof. reflexivity. Qed.

Lemma AdminSetting_names : fname <$> AdminSetting = Vendor.
Proof. reflexivity. Qed.

Lemma Vendor_NoDup : NoDup Vendor.
Proof. apply (bool_decide_unpack _). by vm_compute. Qed.

(** The whole of a first save. *)
Lemma save_admin_settings_create payload e w :
  collection w "adminsetting" = [] →
  save_admin_settings payload e w =
  match BaseModel AdminSetting (delete "_id" payload) with
  | Some m =>
      (Ok (JSON_doc (str_id (Document (new_id e) (<["created_at" := VDate (now e)]> m)))),
       {| db := <["adminsetting" := [Document (new_id e) (<["created_at" := VDate (now e)]> m)]]>
                  (db w);
          calls := ((calls w ++ [FindOne "adminsetting"]) ++ [InsertOne "adminsetting"])
                   ++ [FindOne "adminsetting"] |})
  | None => (Raise ValidationError, log (FindOne "adminsetting") w)
  end.
Proof.
  intros Hl. unfold save_admin_settings. cbv zeta.
  unfold mbind at 1, M_bind at 1. rewrite find_one_all, Hl. cbn [head].
  unfold mbind at 1, M_bind at 1. unfold mbind at 1, M_bind at 1, new.
  destruct (BaseModel AdminSetting (delete "_id" payload)) as [m|]; [|done].
  cbn [mret M_ret].
  unfold mbind at 1, M_bind at 1, create_document, mbind, M_bind, utcnow, insert_one.
  cbn [mret M_ret]. rewrite collection_log, Hl. cbn [app].
  rewrite get_admin_settings_run, collection_insert_eq. reflexivity.
Qed.

(** X24. The first save (no settings stored yet) validates the payload
    as an [AdminSetting]: it stores and answers with a document that holds
    exactly the eight vendor names and the creation time, a vendor that the
    payload does not give as null, a given link as the URL it validates to;
    keys that are no vendor name are dropped.  A link that is no URL ends the
    request in the validation error, with nothing stored. *)
Theorem save_admin_settings_first payload e w :
  collection w "adminsetting" = [] →
  match BaseModel AdminSetting (delete "_id" payload) with
  | Some m =>
      ∃ w', save_admin_settings payload e w =
              (Ok (JSON_doc (str_id (Document (new_id e)
                                       (<["created_at" := VDate (now e)]> m)))), w') ∧
            collection w' "adminsetting" =
              [Document (new_id e) (<["created_at" := VDate (now e)]> m)] ∧
            (∀ k, k ∉ Vendor → m !! k = None) ∧
            (∀ k, k ∈ Vendor → payload !! k = None → m !! k = Some VNull) ∧
            (∀ k u, k ∈ Vendor → payload !! k = Some (VStr u) →
                    ∃ u', HttpUrl u = Some u' ∧ m !! k = Some (VStr u'))
  | None =>
      save_admin_settings payload e w = (Raise ValidationError, log (FindOne "adminsetting") w)
  end ∧
  (∀ k u, k ∈ Vendor → payload !! k = Some (VStr u) → HttpUrl u = None →
          save_admin_settings payload e w
            = (Raise ValidationError, log (FindOne "adminsetting") w)).
Proof.
  intros Hl. rewrite (save_admin_settings_create _ _ _ Hl).
  assert (Hfield : ∀ k, k ∈ Vendor → FieldDef k (Optional HttpUrl_) (Some VNull) ∈ AdminSetting).
  { intros k Hk. rewrite AdminSetting_by_vendor.
    by apply (list_elem_of_fmap_2 (λ v, FieldDef v (Optional HttpUrl_) (Some VNull))). }
  assert (Hkey : ∀ k, k ∈ Vendor → delete "_id" payload !! k = payload !! k).
  { intros k Hk. apply lookup_delete_ne. intros <-.
    apply (bool_decide_pack _) in Hk. by vm_compute in Hk. }
  split.
  - destruct (BaseModel AdminSetting (delete "_id" payload)) as [m|] eqn:Hm; [|done].
    eexists. split; [reflexivity|]. split; [by rewrite collection_insert_eq|].
    destruct (BaseModel_fields _ _ _ Hm) as [Hf Hnot].
    { rewrite AdminSetting_names. apply Vendor_NoDup. }
    split; [|split].
    + intros k Hk. apply Hnot. by rewrite AdminSetting_names.
    + intros k Hk Hp. destruct (Hf _ (Hfield k Hk)) as [Hv _].
      cbn [fname ftype fdefault] in Hv. by rewrite Hkey, Hp in Hv.
    + intros k u Hk Hp. destruct (Hf _ (Hfield k Hk)) as [Hv Hs].
      cbn [fname ftype fdefault] in Hv, Hs. rewrite Hkey, Hp in Hv by done.
      cbn [Optional HttpUrl_] in Hv. rewrite <- Hv in Hs |- *.
      destruct (HttpUrl u) as [u'|]; [eauto|by destruct Hs].
  - intros k u Hk Hp Hbad.
    rewrite (BaseModel_invalid _ _ _ (Hfield k Hk)); [done|].
    cbn [fname ftype fdefault]. rewrite Hkey, Hp by done.
    cbn [Optional HttpUrl_]. by rewrite Hbad.
Qed.

(** The whole of a later save. *)
Lemma save_admin_settings_update payload e w s rest :
  collection w "adminsetting" = s :: rest →
  save_admin_settings payload e w =
    (Ok (JSON_doc (str_id {| _id := _id s; fields := delete "_id" payload ∪ fields s |})),
     {| db := <["adminsetting" :=
                {| _id := _id s; fields := delete "_id" payload ∪ fields s |} :: rest]> (db w);
        calls := ((calls w ++ [FindOne "adminsetting"]) ++ [UpdateOne "adminsetting"])
                 ++ [FindOne "adminsetting"] |}).
Proof.
  intros Hl. unfold save_admin_settings. cbv zeta.
  unfold mbind at 1, M_bind at 1. rewrite find_one_all, Hl. cbn [head].
  unfold mbind at 1, M_bind at 1. unfold mbind at 1, M_bind at 1, update_one.
  rewrite collection_log, Hl. cbn [update_first].
  rewrite matches_by_id, bool_decide_eq_true_2 by done.
  rewrite apply_update_set by apply lookup_delete_eq.
  cbn [mbind option_bind mret M_ret].
  rewrite get_admin_settings_run, collection_insert_eq. reflexivity.
Qed.

Lemma union_absorb (m n : dict) : m ∪ (m ∪ n) = m ∪ n.
Proof.
  apply map_eq. intros k. rewrite !lookup_union.
  by destruct (m !! k), (n !! k).
Qed.

(** X25. A save when settings are stored does not validate: it merges
    the payload into the stored document, so the answer has the id of that
    document as text, every key of the payload (other than [_id]) with the
    value given, vendor name or not, and every other key as before.  Reading
    the settings afterwards gives the same answer, and saving the same
    payload again changes nothing in the collection. *)
Theorem save_admin_settings_later payload e w s rest :
  collection w "adminsetting" = s :: rest →
  ∃ r w',
    save_admin_settings payload e w = (Ok (JSON_doc r), w') ∧
    r !! "_id" = Some (VStr (str (_id s))) ∧
    (∀ k v, k ≠ "_id" → payload !! k = Some v → r !! k = Some v) ∧
    (∀ k, k ≠ "_id" → payload !! k = None → r !! k = fields s !! k) ∧
    (∀ e', (get_admin_settings e' w').1 = Ok (JSON_doc r)) ∧
    (∀ e', collection (save_admin_settings payload e' w').2 "adminsetting"
           = collection w' "adminsetting").
Proof.
  intros Hl. eexists _, _. split; [apply (save_admin_settings_update _ _ _ _ _ Hl)|].
  unfold str_id. cbn [_id fields]. split; [by rewrite lookup_insert_eq|].
  split; [|split; [|split]].
  - intros k v Hk Hp. rewrite lookup_insert_ne by done.
    apply lookup_union_Some_l. by rewrite lookup_delete_ne.
  - intros k Hk Hp. rewrite lookup_insert_ne by done.
    rewrite lookup_union_r; [done|]. by rewrite lookup_delete_ne.
  - intros e'. rewrite get_admin_settings_run, collection_insert_eq. reflexivity.
  - intros e'. rewrite save_admin_settings_run, collection_insert_eq.
    cbn [_id fields]. by rewrite union_absorb.
Qed.

(** ** Listings *)

Lemma elem_of_found q key (l : list document) d :
  d ∈ sort_desc key (filter (λ d, matches q d = true) l) ↔ d ∈ l ∧ matches q d = true.
Proof. rewrite sort_desc_perm, list_elem_of_filter. tauto. Qed.

Lemma matches_app q1 q2 d : matches (q1 ++ q2) d = matches q1 d && matches q2 d.
Proof. unfold matches. apply forallb_app. Qed.

Lemma matches_eq_str k s d :
  matches [Field k (Eq (VStr s))] d = true ↔ holds_str (get d k) s.
Proof.
  unfold matches, holds_str, get. cbn [forallb clause_holds]. rewrite andb_true_r.
  destruct (as_dict d !! k) as [v|]; cbn [cond_holds default].
  2:{ split; [done|]. by intros [[=]|(l' & [=] & _)]. }
  destruct v; cbn [value_eqb orb]; rewrite ?bool_decide_eq_true;
    try (split; [done|]; by intros [[=]|(l' & [=] & _)]).
  - split; [intros ->; by left|]. by intros [[= ->]|(l' & [=] & _)].
  - split; [intros Hin; right; eauto|]. by intros [[=]|(l' & [= <-] & Hin)].
Qed.

(** X26. The order list answers with stored orders only, their ids as
    text.  Without a user and an affiliate (or with empty ones) these are all
    the orders; with a user id every listed order is of that user, and every
    order of that user is listed when no affiliate is given. *)
Theorem list_orders_spec user_id affiliate_id e w :
  ∃ items,
    list_orders user_id affiliate_id e w =
      (Ok (JSON_items (str_id <$> items)), log (Find "order") w) ∧
    (∀ d, d ∈ items → d ∈ collection w "order") ∧
    (given user_id = None → given affiliate_id = None →
     items ≡ₚ collection w "order") ∧
    (∀ u d, given user_id = Some u → d ∈ items → holds_str (get d "user_id") u) ∧
    (∀ a d, given affiliate_id = Some a → d ∈ items → holds_str (get d "affiliate_id") a) ∧
    (∀ u d, given user_id = Some u → given affiliate_id = None →
            d ∈ collection w "order" → get d "user_id" = VStr u → d ∈ items).
Proof.
  eexists. split; [reflexivity|].
  split; [intros d Hd; by apply elem_of_found in Hd as [? _]|].
  split; [|split; [|split]].
  - intros -> ->. cbn [app]. by rewrite sort_desc_perm, filter_all.
  - intros u d -> Hd. apply elem_of_found in Hd as [_ Hm].
    rewrite matches_app in Hm. apply andb_true_iff in Hm as [Hm _].
    by apply matches_eq_str.
  - intros a d -> Hd. apply elem_of_found in Hd as [_ Hm].
    rewrite matches_app in Hm. apply andb_true_iff in Hm as [_ Hm].
    by apply matches_eq_str.
  - intros u d -> -> Hd Hu. apply elem_of_found. split; [done|].
    rewrite app_nil_r. apply matches_eq_str. by left.
Qed.

(** X27. The product list answers with stored products only, their
    ids as text.  With [hot_only] every listed product is a hot deal at the
    time of the request, whatever the other filters; with an affiliate id
    every listed product is of that affiliate; with no filter at all these
    are all the products. *)
Theorem list_products_filters q category vendor hot_only affiliate_id e w :
  ∃ items,
    list_products q category vendor hot_only affiliate_id e w =
      (Ok (JSON_items (str_id <$> items)), log (Find "product") w) ∧
    (∀ d, d ∈ items → d ∈ collection w "product") ∧
    (hot_only = true → ∀ d, d ∈ items → is_hot_deal (now e) d = true) ∧
    (∀ a d, given affiliate_id = Some a → d ∈ items →
            holds_str (get d "affiliate_id") a) ∧
    (given q = None → given category = None → given vendor = None →
     given affiliate_id = None → hot_only = false →
     items ≡ₚ collection w "product").
Proof.
  destruct hot_only.
  - eexists. split; [reflexivity|].
    split; [intros d Hd; by apply elem_of_found in Hd as [? _]|].
    split; [|split; [|done]].
    + intros _ d Hd. apply elem_of_found in Hd as [_ Hm].
      rewrite matches_app in Hm. apply andb_true_iff in Hm as [_ Hm].
      fold (hot_filter (now e)) in Hm. by rewrite hot_filter_matches in Hm.
    + intros a d -> Hd. apply elem_of_found in Hd as [_ Hm].
      rewrite !matches_app in Hm. rewrite !andb_true_iff in Hm.
      destruct Hm as [(_ & _ & _ & Hm) _]. by apply matches_eq_str.
  - eexists. split; [reflexivity|].
    split; [intros d Hd; by apply elem_of_found in Hd as [? _]|].
    split; [done|]. split.
    + intros a d -> Hd. apply elem_of_found in Hd as [_ Hm].
      rewrite !matches_app in Hm. rewrite !andb_true_iff in Hm.
      destruct Hm as (_ & _ & _ & Hm). by apply matches_eq_str.
    + intros -> -> -> -> _. cbn [app]. by rewrite sort_desc_perm, filter_all.
Qed.

(** ** Logs *)

Ltac appends :=
  cbv zeta;
  repeat lazymatch goal with
  | |- effect ?n _ (mbind _ (create_document ?n _)) =>
      apply effect_bind_r;
      [eapply effect_mono; [|apply effect_create_document]; intros ? ? [? ->]; eauto
      |intros ?; solve [frames_auto]]
  | |- effect _ _ (mbind _ _) =>
      apply effect_bind_l; [by left|solve [frames_auto]|intros ?]
  | |- effect _ _ (match ?x with _ => _ end) => destruct x
  | |- effect _ _ _ => apply frames_effect; [by left|solve [frames_auto]]
  end.

Lemma appends_click c :
  effect "click" (λ l l', l' = l ∨ (appends_to c = Some "click" ∧ ∃ d, l' = l ++ [d]))
         (handle c).
Proof.
  destruct c; cbn [handle appends_to];
    unfold signup, login, update_user, list_users, list_products, create_product,
      get_product, update_product, delete_product, redirect_vendor, redirect_product,
      create_order, list_orders, create_subscription, list_subscriptions,
      get_admin_settings, save_admin_settings, admin_stats;
    appends.
Qed.

Lemma appends_order c :
  effect "order" (λ l l', l' = l ∨ (appends_to c = Some "order" ∧ ∃ d, l' = l ++ [d]))
         (handle c).
Proof.
  destruct c; cbn [handle appends_to];
    unfold signup, login, update_user, list_users, list_products, create_product,
      get_product, update_product, delete_product, redirect_vendor, redirect_product,
      create_order, list_orders, create_subscription, list_subscriptions,
      get_admin_settings, save_admin_settings, admin_stats;
    appends.
Qed.

Lemma appends_subscription c :
  effect "subscription"
         (λ l l', l' = l ∨ (appends_to c = Some "subscription" ∧ ∃ d, l' = l ++ [d]))
         (handle c).
Proof.
  destruct c; cbn [handle appends_to];
    unfold signup, login, update_user, list_users, list_products, create_product,
      get_product, update_product, delete_product, redirect_vendor, redirect_product,
      create_order, list_orders, create_subscription, list_subscriptions,
      get_admin_settings, save_admin_settings, admin_stats;
    appends.
Qed.

(** X28. Clicks, orders and subscriptions are append-only: whatever the
    request and however it ends, each of these collections is afterwards as
    before, or as before with one document more at the end, and the latter
    only for a request that inserts into that collection (a redirect, an
    order creation, a subscription). *)
Theorem logs_append_only c e w name :
  name ∈ ["click"; "order"; "subscription"] →
  collection (handle c e w).2 name = collection w name ∨
  (appends_to c = Some name ∧
   ∃ d, collection (handle c e w).2 name = collection w name ++ [d]).
Proof.
  intros Hname.
  apply elem_of_cons in Hname as [->|Hname]; [apply (appends_click c e w)|].
  apply elem_of_cons in Hname as [->|Hname]; [apply (appends_order c e w)|].
  apply elem_of_cons in Hname as [->|Hname]; [apply (appends_subscription c e w)|].
  by apply elem_of_nil in Hname.
Qed.

(** ** Accounts *)

Lemma user_change_refl l : user_change l l.
Proof. by left. Qed.

Lemma user_effect c : effect "user" user_change (handle c).
Proof.
  destruct c; cbn [handle];
    try (apply frames_effect; [apply user_change_refl|];
         unfold login, list_users, list_products, create_product,
           get_product, update_product, delete_product, redirect_vendor, redirect_product,
           create_order, list_orders, list_subscriptions,
           get_admin_settings, save_admin_settings, admin_stats;
         solve [frames_auto]).
  - (* signup *)
    unfold signup.
    apply effect_bind_l; [apply user_change_refl|solve [frames_auto]|intros [u|]].
    { apply frames_effect; [apply user_change_refl|solve [frames_auto]]. }
    apply effect_bind_l; [apply user_change_refl|solve [frames_auto]|intros user].
    apply effect_bind_r; [|intros ?; solve [frames_auto]].
    eapply effect_mono; [|apply effect_create_document].
    intros l l' [d ->]. right. left. eauto.
  - (* update_user *)
    unfold update_user. cbv zeta.
    destruct (bool_decide _);
      [apply frames_effect; [apply user_change_refl|solve [frames_auto]]|].
    apply effect_bind_l; [apply user_change_refl|solve [frames_auto]|intros t].
    apply effect_bind_l; [apply user_change_refl|solve [frames_auto]|intros i].
    apply effect_bind_r; [|intros ?; solve [frames_auto]].
    eapply effect_mono; [|apply effect_update_one].
    intros l l' [->|[n Hn]]; [by left|]. right. right.
    eexists _, _, _. repeat split; [..|exact Hn];
      rewrite lookup_insert_ne by done; apply dump_exclude_unset_keys; notin.
  - (* create_subscription *)
    unfold create_subscription.
    apply effect_bind_l; [apply user_change_refl|solve [frames_auto]|intros t]. cbv zeta.
    apply effect_bind_l; [apply user_change_refl|solve [frames_auto]|intros sub].
    apply effect_bind_l; [apply user_change_refl|solve [frames_auto]|intros ?].
    apply effect_bind_l; [apply user_change_refl|solve [frames_auto]|intros i].
    apply effect_bind_r; [|intros ?; solve [frames_auto]].
    eapply effect_mono; [|apply effect_update_one].
    intros l l' [->|[n Hn]]; [by left|]. right. right.
    eexists _, _, _. repeat split; [..|exact Hn];
      by rewrite lookup_insert_ne, lookup_singleton_ne.
Qed.

(** X29. No request removes a user or changes a stored user's email,
    password hash or role: after any request, however it ends, the user is
    still found under its id with these three fields as before. *)
Theorem users_keep_identity c e w i u :
  stored w "user" i = Some u →
  ∃ u', stored (handle c e w).2 "user" i = Some u' ∧
        fields u' !! "email" = fields u !! "email" ∧
        fields u' !! "password_hash" = fields u !! "password_hash" ∧
        fields u' !! "role" = fields u !! "role".
Proof.
  intros Hu. unfold stored in *.
  destruct (user_effect c e w) as [->|[[d ->]|(j & s & n & He & Hp & Hr & Hid & Hup)]].
  - eauto.
  - exists u. by rewrite (lookup_id_app_Some _ _ _ _ Hu).
  - destruct (update_first_by_id _ _ _ _ _ Hup) as (_ & Hother & Hj).
    destruct (decide (i = j)) as [->|Hne].
    + rewrite Hu in Hj. destruct Hj as (_ & u' & Hu' & ->).
      rewrite apply_update_set in Hu' by done. inversion Hu'; subst u'.
      eexists. split; [done|]. cbn [fields]. by rewrite !lookup_union_r.
    + exists u. by rewrite Hother.
Qed.

End Endpoints.

(** * Examples *)

#[local] Existing Instance example_libs.

Example settings_ebay_document :
  (_id <$> collection settings_ebay "adminsetting") = [id_d] ∧
  ((λ s, get s "ebay") <$> collection settings_ebay "adminsetting") = [VStr ebay_link] ∧
  ((λ s, get s "amazon") <$> collection settings_ebay "adminsetting")
    = [VStr "https://www.amazon.in/?tag=s"] ∧
  ((λ s, get s "flipkart") <$> collection settings_ebay "adminsetting") = [VNull].
Proof. repeat split; vm_compute; reflexivity. Qed.

Example list_products_hot_only_abc :
  list_products None None None true None env_hot deals =
    (Ok (JSON_items [str_id deal_a]), log (Find "product") deals).
Proof. vm_compute. reflexivity. Qed.

Example redirect_product_example :
  let r := redirect_product "AAAAAAAAAAAAAAAAAAAAAAAA" curl (Some "u9") env_1 shop in
  r.1 = Ok (RedirectResponse (VStr "https://www.amazon.in/dp/B0?tag=u1") 302) ∧
  (λ d, counter d "clicks") <$> stored r.2 "product" id_a = Some 6 ∧
  length (collection r.2 "click") = 1%nat ∧
  calls r.2 = [FindOne "product"; UpdateOne "product"; InsertOne "click"].
Proof. repeat split; vm_compute; reflexivity. Qed.

(** Identifiers as [bson.ObjectId] reads them: 24 hexadecimal digits in
    either case; 24 characters with whitespace between pairs of digits, which
    give a shorter id; and neither a digit pair split by a space nor a string
    of another length. *)
Example ObjectId_new_examples :
  ObjectId_new "AAAAAAAAAAAAAAAAAAAAAAAA" = Some id_a ∧
  ObjectId_new "aaaaaaaaaaaaaaaaaaaaaa  " = Some (Oid "aaaaaaaaaaaaaaaaaaaaaa") ∧
  ObjectId_new " aa aa aa aa aa aa aa aa" = Some (Oid "aaaaaaaaaaaaaaaa") ∧
  ObjectId_new "a aaaaaaaaaaaaaaaaaaaaaa" = None ∧
  ObjectId_new "aaaaaaaaaaaaaaaaaaaaaaag" = None ∧
  ObjectId_new "aaaaaaaaaaaaaaaaaaaaaaa" = None ∧
  ObjectId_new "not-an-object-id" = None.
Proof. repeat split; reflexivity. Qed.

(** An id of 24 characters that ends in two spaces is accepted, so the
    product redirect reads the store and answers 404, not 400. *)
Example redirect_product_whitespace_id :
  redirect_product "aaaaaaaaaaaaaaaaaaaaaa  " curl None env_1 shop =
    (Raise (HTTPException 404 "Product not found"), log (FindOne "product") shop).
Proof. vm_compute. reflexivity. Qed.

(** With two settings documents the vendor redirect follows the first: to
    its link for amazon, and to 404 for flipkart, for which only the second
    document has a link. *)
Example redirect_vendor_first_document :
  (redirect_vendor "amazon" curl None env_1 two_settings).1
    = Ok (RedirectResponse (VStr "https://www.amazon.in/?tag=s") 302) ∧
  (redirect_vendor "flipkart" curl None env_1 two_settings).1
    = Raise (HTTPException 404 "Link not available yet").
Proof. split; vm_compute; reflexivity. Qed.

(** ** The theorems at concrete requests *)

Lemma redirect_product_counts_and_records_witness :
  ObjectId_new "AAAAAAAAAAAAAAAAAAAAAAAA" = Some id_a ∧
  stored shop "product" id_a = Some prod_a ∧
  is_int_field prod_a "clicks" = true ∧
  (∃ prod',
     stored (redirect_product "AAAAAAAAAAAAAAAAAAAAAAAA" curl (Some "u9") env_1 shop).2
            "product" id_a = Some prod' ∧
     counter prod' "clicks" = counter prod_a "clicks" + 1) ∧
  (is_str_field prod_a "affiliate_id" = true →
   ∃ url w' prod' c,
     redirect_product "AAAAAAAAAAAAAAAAAAAAAAAA" curl (Some "u9") env_1 shop
       = (Ok (RedirectResponse url 302), w') ∧
     stored w' "product" id_a = Some prod' ∧
     counter prod' "clicks" = counter prod_a "clicks" + 1 ∧
     collection w' "click" = collection shop "click" ++ [c] ∧
     get c "target" = VStr "product" ∧
     get c "product_id" = VStr (str (_id prod_a)) ∧
     get c "affiliate_id" = get prod_a "affiliate_id" ∧
     get c "user_id" = opt (Some "u9") ∧
     get c "ip" = opt (host <$> client curl) ∧
     get c "user_agent" = opt (headers curl !! "user-agent")).
Proof.
  assert (H1 : ObjectId_new "AAAAAAAAAAAAAAAAAAAAAAAA" = Some id_a) by reflexivity.
  assert (H2 : stored shop "product" id_a = Some prod_a) by (vm_compute; reflexivity).
  assert (H3 : is_int_field prod_a "clicks" = true) by (vm_compute; reflexivity).
  split; [exact H1|]. split; [exact H2|]. split; [exact H3|].
  exact (@redirect_product_counts_and_records example_libs _ curl (Some "u9") env_1
           shop id_a prod_a H1 H2 H3).
Defined.

(** C1 as stated fails: the product is stored and its id is well-formed,
    but the generic update has stored a number as its [affiliate_id]; the
    redirect counts the click and then ends in the validation error of the
    [Click] schema, with no click record and no 302. *)
Lemma redirect_product_ill_typed_affiliate :
  ObjectId_new "aaaaaaaaaaaaaaaaaaaaaaaa" = Some id_a ∧
  (λ d, get d "affiliate_id") <$> stored shop_affiliate_7 "product" id_a = Some (VInt 7) ∧
  (λ d, counter d "clicks") <$> stored shop_affiliate_7 "product" id_a = Some 5 ∧
  (redirect_product "aaaaaaaaaaaaaaaaaaaaaaaa" curl None env_2 shop_affiliate_7).1
    = Raise ValidationError ∧
  collection (redirect_product "aaaaaaaaaaaaaaaaaaaaaaaa" curl None env_2 shop_affiliate_7).2
             "click" = [] ∧
  (λ d, counter d "clicks") <$>
    stored (redirect_product "aaaaaaaaaaaaaaaaaaaaaaaa" curl None env_2 shop_affiliate_7).2
           "product" id_a = Some 6.
Proof. repeat split; vm_compute; reflexivity. Qed.

Lemma redirect_product_invalid_id_witness :
  ObjectId_new "not-an-object-id" = None ∧
  redirect_product "not-an-object-id" curl None env_1 shop =
    (Raise (HTTPException 400 "Invalid id"), shop).
Proof.
  assert (H1 : ObjectId_new "not-an-object-id" = None) by reflexivity.
  split; [exact H1|].
  exact (@redirect_product_invalid_id example_libs _ curl None env_1 shop H1).
Defined.

Lemma redirect_product_link_as_is_witness :
  ObjectId_new "aaaaaaaaaaaaaaaaaaaaaaaa" = Some id_a ∧
  stored shop_no_link "product" id_a = Some prod_no_link ∧
  is_number_field prod_no_link "clicks" = true ∧
  is_str_field prod_no_link "affiliate_id" = true ∧
  (fields prod_no_link !! "affiliate_link" = None ∨
   fields prod_no_link !! "affiliate_link" = Some VNull ∨
   fields prod_no_link !! "affiliate_link" = Some (VStr "")) ∧
  ∃ w',
    redirect_product "aaaaaaaaaaaaaaaaaaaaaaaa" curl None env_1 shop_no_link =
      (Ok (RedirectResponse (get prod_no_link "affiliate_link") 302), w') ∧
    (get prod_no_link "affiliate_link" = VNull ∨ get prod_no_link "affiliate_link" = VStr "").
Proof.
  assert (H1 : ObjectId_new "aaaaaaaaaaaaaaaaaaaaaaaa" = Some id_a) by reflexivity.
  assert (H2 : stored shop_no_link "product" id_a = Some prod_no_link)
    by (vm_compute; reflexivity).
  assert (H3 : is_number_field prod_no_link "clicks" = true) by (vm_compute; reflexivity).
  assert (H4 : is_str_field prod_no_link "affiliate_id" = true) by (vm_compute; reflexivity).
  assert (H5 : fields prod_no_link !! "affiliate_link" = None ∨
               fields prod_no_link !! "affiliate_link" = Some VNull ∨
               fields prod_no_link !! "affiliate_link" = Some (VStr ""))
    by (left; vm_compute; reflexivity).
  split; [exact H1|]. split; [exact H2|]. split; [exact H3|]. split; [exact H4|].
  split; [exact H5|].
  exact (@redirect_product_link_as_is example_libs _ curl None env_1 shop_no_link
           id_a prod_no_link H1 H2 H3 H4 H5).
Defined.

(** C8 as stated fails: a stored product with no [affiliate_link] whose
    [affiliate_id] the generic update has set to a number gets no
    destination at all; the redirect ends in the validation error of the
    [Click] schema. *)
Lemma redirect_product_no_link_ill_typed :
  ObjectId_new "aaaaaaaaaaaaaaaaaaaaaaaa" = Some id_a ∧
  (λ d, fields d !! "affiliate_link") <$> stored shop_no_link_affiliate_7 "product" id_a
    = Some None ∧
  (λ d, get d "affiliate_id") <$> stored shop_no_link_affiliate_7 "product" id_a
    = Some (VInt 7) ∧
  (redirect_product "aaaaaaaaaaaaaaaaaaaaaaaa" curl None env_2 shop_no_link_affiliate_7).1
    = Raise ValidationError.
Proof. repeat split; vm_compute; reflexivity. Qed.

Lemma redirect_product_n_times_witness :
  ObjectId_new "aaaaaaaaaaaaaaaaaaaaaaaa" = Some id_a ∧
  stored shop "product" id_a = Some prod_a ∧
  is_int_field prod_a "clicks" = true ∧
  (∃ prod', stored (run (redirects "aaaaaaaaaaaaaaaaaaaaaaaa" three_requests) shop).2
                   "product" id_a = Some prod' ∧
            counter prod' "clicks"
              = counter prod_a "clicks" + Z.of_nat (length three_requests)) ∧
  (is_str_field prod_a "affiliate_id" = true →
   Forall (λ o, ∃ url, o = Ok (RedirectResponse url 302))
          (run (redirects "aaaaaaaaaaaaaaaaaaaaaaaa" three_requests) shop).1).
Proof.
  assert (H1 : ObjectId_new "aaaaaaaaaaaaaaaaaaaaaaaa" = Some id_a) by reflexivity.
  assert (H2 : stored shop "product" id_a = Some prod_a) by (vm_compute; reflexivity).
  assert (H3 : is_int_field prod_a "clicks" = true) by (vm_compute; reflexivity).
  split; [exact H1|]. split; [exact H2|]. split; [exact H3|].
  exact (@redirect_product_n_times example_libs _ id_a three_requests shop prod_a
           H1 H2 H3).
Defined.

(** C6 as stated fails: the product is stored, but the generic update has
    stored text as its [clicks]; each of three redirects ends in the write
    error of [$inc], no click is recorded, and [clicks] is what it was,
    not three higher. *)
Lemma redirect_product_text_clicks_not_counted :
  (λ d, get d "clicks") <$> stored shop_clicks_text "product" id_a = Some (VStr "5") ∧
  (run (redirects "aaaaaaaaaaaaaaaaaaaaaaaa" three_requests) shop_clicks_text).1
    = [Raise WriteError; Raise WriteError; Raise WriteError] ∧
  (λ d, get d "clicks") <$>
    stored (run (redirects "aaaaaaaaaaaaaaaaaaaaaaaa" three_requests) shop_clicks_text).2
           "product" id_a = Some (VStr "5") ∧
  collection (run (redirects "aaaaaaaaaaaaaaaaaaaaaaaa" three_requests) shop_clicks_text).2
             "click" = [].
Proof. repeat split; vm_compute; reflexivity. Qed.

Lemma redirect_vendor_listed_witness :
  head (collection configured "adminsetting") = Some settings_doc ∧
  get settings_doc "amazon" = VStr "https://www.amazon.in/?tag=s" ∧
  "amazon" ∈ Vendor ∧
  ∃ w' c,
    redirect_vendor "amazon" curl (Some "u9") env_1 configured =
      (Ok (RedirectResponse (VStr "https://www.amazon.in/?tag=s") 302), w') ∧
    collection w' "click" = collection configured "click" ++ [c] ∧
    get c "target" = VStr "vendor_logo" ∧
    get c "vendor" = VStr "amazon" ∧
    get c "user_id" = opt (Some "u9") ∧
    get c "ip" = opt (host <$> client curl) ∧
    get c "user_agent" = opt (headers curl !! "user-agent").
Proof.
  assert (H1 : head (collection configured "adminsetting") = Some settings_doc)
    by (vm_compute; reflexivity).
  assert (H2 : get settings_doc "amazon" = VStr "https://www.amazon.in/?tag=s")
    by (vm_compute; reflexivity).
  assert (H3 : "https://www.amazon.in/?tag=s" ≠ "") by discriminate.
  assert (H4 : "amazon" ∈ Vendor) by (apply (bool_decide_unpack _); vm_compute; exact I).
  split; [exact H1|]. split; [exact H2|]. split; [exact H4|].
  exact (@redirect_vendor_listed example_libs "amazon" curl (Some "u9") env_1 configured
           settings_doc _ H1 H2 H3 H4).
Defined.

Lemma redirect_vendor_not_available_witness :
  head (collection configured "adminsetting") = Some settings_doc ∧
  as_dict settings_doc !! "flipkart" = Some VNull ∧
  ∃ w',
    redirect_vendor "flipkart" curl None env_1 configured =
      (Raise (HTTPException 404 "Link not available yet"), w') ∧
    db w' = db configured ∧
    collection w' "click" = collection configured "click" ∧
    calls w' = calls configured ++ [FindOne "adminsetting"].
Proof.
  assert (H1 : head (collection configured "adminsetting") = Some settings_doc)
    by (vm_compute; reflexivity).
  assert (H2 : as_dict settings_doc !! "flipkart" = Some VNull)
    by (vm_compute; reflexivity).
  split; [exact H1|]. split; [exact H2|].
  apply (@redirect_vendor_not_available example_libs "flipkart" curl None env_1 configured).
  right. exists settings_doc. split; [exact H1|].
  right. exists VNull. split; [exact H2|reflexivity].
Defined.

Lemma redirect_vendor_reserved_key_witness :
  head (collection configured "adminsetting") = Some settings_doc ∧
  has_key settings_doc "_id" = true ∧
  vendor_url (Some settings_doc) "_id" = VOid (_id settings_doc) ∧
  truthy (vendor_url (Some settings_doc) "_id") = true ∧
  (redirect_vendor "_id" curl None env_1 configured).1 ≠
    Raise (HTTPException 404 "Link not available yet") ∧
  redirect_vendor "_id" curl None env_1 configured =
    (Raise ValidationError, log (FindOne "adminsetting") configured).
Proof.
  assert (H1 : head (collection configured "adminsetting") = Some settings_doc)
    by (vm_compute; reflexivity).
  split; [exact H1|].
  exact (@redirect_vendor_reserved_key example_libs curl None env_1 configured
           settings_doc H1).
Defined.

(** C2. At a vendor name outside the [Vendor] enumeration the vendor
    redirect does not do what the claim says: the settings store a non-empty
    link under "ebay" (a save into existing settings takes any key), the
    lookup finds it, and the request then ends in the validation error of
    the [Click] schema, which the handler builds with the name as it came;
    there is no redirect and no click record. *)
Theorem redirect_vendor_unlisted_name_fails :
  ((λ s, get s "ebay") <$> head (collection settings_ebay "adminsetting"))
    = Some (VStr ebay_link) ∧
  ebay_link ≠ "" ∧
  vendor_url (head (collection settings_ebay "adminsetting")) "ebay" = VStr ebay_link ∧
  (redirect_vendor "ebay" curl None env_3 settings_ebay).1 = Raise ValidationError ∧
  collection (redirect_vendor "ebay" curl None env_3 settings_ebay).2 "click" = [] ∧
  collection settings_ebay "click" = [].
Proof.
  split; [vm_compute; reflexivity|]. split; [discriminate|].
  repeat split; vm_compute; reflexivity.
Qed.

Lemma counters_change_only_by_redirect_and_order_witness :
  NoDup (_id <$> collection shop "product") ∧
  stored shop "product" id_a = Some prod_a ∧
  is_int_field prod_a "clicks" = true ∧
  is_int_field prod_a "orders" = true ∧
  match stored (handle (CreateOrder {| OrderIn.user_id := "u9";
                                       OrderIn.product_id := "aaaaaaaaaaaaaaaaaaaaaaaa" |})
                       env_1 shop).2 "product" id_a with
  | None => ∃ product_id,
      CreateOrder {| OrderIn.user_id := "u9";
                     OrderIn.product_id := "aaaaaaaaaaaaaaaaaaaaaaaa" |}
      = DeleteProduct product_id
  | Some p' =>
      is_int_field p' "clicks" = true ∧ is_int_field p' "orders" = true ∧
      counter prod_a "clicks" ≤ counter p' "clicks" ∧
      counter prod_a "orders" ≤ counter p' "orders" ∧
      (counter p' "clicks" ≠ counter prod_a "clicks" →
       counter p' "clicks" = counter prod_a "clicks" + 1 ∧
       ∃ product_id request user_id,
         CreateOrder {| OrderIn.user_id := "u9";
                        OrderIn.product_id := "aaaaaaaaaaaaaaaaaaaaaaaa" |}
         = RedirectProduct product_id request user_id) ∧
      (counter p' "orders" ≠ counter prod_a "orders" →
       counter p' "orders" = counter prod_a "orders" + 1 ∧
       ∃ payload,
         CreateOrder {| OrderIn.user_id := "u9";
                        OrderIn.product_id := "aaaaaaaaaaaaaaaaaaaaaaaa" |}
         = CreateOrder payload)
  end.
Proof.
  assert (H1 : NoDup (_id <$> collection shop "product"))
    by (apply (bool_decide_unpack _); vm_compute; exact I).
  assert (H2 : stored shop "product" id_a = Some prod_a) by (vm_compute; reflexivity).
  assert (H3 : is_int_field prod_a "clicks" = true) by (vm_compute; reflexivity).
  assert (H4 : is_int_field prod_a "orders" = true) by (vm_compute; reflexivity).
  split; [exact H1|]. split; [exact H2|]. split; [exact H3|]. split; [exact H4|].
  apply (@counters_change_only_by_redirect_and_order example_libs
           (CreateOrder {| OrderIn.user_id := "u9";
                           OrderIn.product_id := "aaaaaaaaaaaaaaaaaaaaaaaa" |})
           env_1 shop id_a prod_a); [discriminate|exact H1|exact H2|exact H3|exact H4].
Defined.

(** C5 as stated fails: the generic product update writes whatever its
    payload names, so it takes [clicks] from 5 down to 0, and it is neither
    the product redirect nor the order creation. *)
Lemma update_product_overwrites_clicks :
  (λ d, counter d "clicks") <$> stored shop "product" id_a = Some 5 ∧
  (λ d, counter d "clicks") <$>
    stored (handle (UpdateProduct "aaaaaaaaaaaaaaaaaaaaaaaa" {["clicks" := VInt 0]})
                   env_1 shop).2 "product" id_a = Some 0.
Proof. split; vm_compute; reflexivity. Qed.

(** ** The endpoint theorems at concrete requests *)

Lemma read_endpoints_keep_db_witness :
  is_read (ListProducts None None None true None) = true ∧
  db (handle (ListProducts None None None true None) env_hot deals).2 = db deals.
Proof.
  assert (H1 : is_read (ListProducts None None None true None) = true) by reflexivity.
  split; [exact H1|].
  exact (@read_endpoints_keep_db example_libs _ env_hot deals H1).
Defined.

Lemma invalid_id_before_any_store_call_witness :
  ObjectId_new "not-an-object-id" = None ∧
  get_product "not-an-object-id" env_1 shop = (Raise (HTTPException 400 "Invalid id"), shop) ∧
  (∀ payload, update_product "not-an-object-id" payload env_1 shop
              = (Raise (HTTPException 400 "Invalid id"), shop)) ∧
  delete_product "not-an-object-id" env_1 shop = (Raise (HTTPException 400 "Invalid id"), shop) ∧
  (∀ payload, update_user "not-an-object-id" payload env_1 shop
              = (Raise (HTTPException 400 "Invalid id"), shop)) ∧
  (∀ user_id, create_order {| OrderIn.user_id := user_id;
                              OrderIn.product_id := "not-an-object-id" |} env_1 shop
              = (Raise (HTTPException 400 "Invalid id"), shop)).
Proof.
  assert (H1 : ObjectId_new "not-an-object-id" = None) by reflexivity.
  split; [exact H1|].
  exact (@invalid_id_before_any_store_call example_libs _ env_1 shop H1).
Defined.

Lemma user_endpoints_hide_password_hash_witness :
  is_user_endpoint (Login login_ann) = true ∧
  handle (Login login_ann) env_1 members
    = (Ok (JSON_user (strip_password (Some user_ann))), log (FindOne "user") members) ∧
  no_password_hash (JSON_user (strip_password (Some user_ann))).
Proof.
  assert (H1 : is_user_endpoint (Login login_ann) = true) by reflexivity.
  assert (H2 : handle (Login login_ann) env_1 members
               = (Ok (JSON_user (strip_password (Some user_ann))),
                  log (FindOne "user") members)) by (vm_compute; reflexivity).
  split; [exact H1|]. split; [exact H2|].
  exact (@user_endpoints_hide_password_hash example_libs _ env_1 members _ _ H1 H2).
Defined.

Lemma signup_existing_account_witness :
  user_by_email members (SignupIn.email signup_ann) = Some user_ann ∧
  signup signup_ann env_1 members =
    (Raise (HTTPException 400 "Account exists — please login instead."),
     log (FindOne "user") members).
Proof.
  assert (H1 : user_by_email members (SignupIn.email signup_ann) = Some user_ann)
    by (vm_compute; reflexivity).
  split; [exact H1|].
  exact (@signup_existing_account example_libs signup_ann env_1 members user_ann H1).
Defined.

Lemma signup_invalid_profile_witness :
  user_by_email members (SignupIn.email signup_old) = None ∧
  ((∃ n, SignupIn.age signup_old = Some n ∧ (n < 0 ∨ 120 < n)) ∨
   (∃ g, SignupIn.gender signup_old = Some g ∧ g ∉ Gender)) ∧
  signup signup_old env_1 members = (Raise ValidationError, log (FindOne "user") members).
Proof.
  assert (H1 : user_by_email members (SignupIn.email signup_old) = None)
    by (vm_compute; reflexivity).
  assert (H2 : (∃ n, SignupIn.age signup_old = Some n ∧ (n < 0 ∨ 120 < n)) ∨
               (∃ g, SignupIn.gender signup_old = Some g ∧ g ∉ Gender))
    by (left; exists 130; split; [reflexivity|right; lia]).
  split; [exact H1|]. split; [exact H2|].
  exact (@signup_invalid_profile example_libs signup_old env_1 members H1 H2).
Defined.

Lemma signup_stored_user_witness :
  user_by_email members (SignupIn.email signup_bob) = None ∧
  signup_valid signup_bob = true ∧
  ∃ d, collection (signup signup_bob env_1 members).2 "user" = collection members "user" ++ [d] ∧
       _id d = new_id env_1 ∧
       get d "email" = VStr (SignupIn.email signup_bob) ∧
       get d "password_hash" = VStr (hash_password (SignupIn.password signup_bob)) ∧
       (get d "role" = VStr "buyer" ∨ get d "role" = VStr "affiliate") ∧
       get d "is_active" = VBool true ∧
       get d "ad_free" = VBool false ∧
       get d "created_at" = VDate (now env_1).
Proof.
  assert (H1 : user_by_email members (SignupIn.email signup_bob) = None)
    by (vm_compute; reflexivity).
  assert (H2 : signup_valid signup_bob = true) by (vm_compute; reflexivity).
  split; [exact H1|]. split; [exact H2|].
  exact (@signup_stored_user example_libs signup_bob env_1 members H1 H2).
Defined.

Lemma signup_then_login_witness :
  user_by_email members (SignupIn.email signup_bob) = None ∧
  signup_valid signup_bob = true ∧
  (login {| LoginIn.email := SignupIn.email signup_bob;
            LoginIn.password := SignupIn.password signup_bob |}
         env_2 (signup signup_bob env_1 members).2).1
    = Ok (JSON_user (strip_password (Some (signed_up_user signup_bob env_1)))) ∧
  ∀ password,
    hash_password password ≠ hash_password (SignupIn.password signup_bob) →
    (login {| LoginIn.email := SignupIn.email signup_bob; LoginIn.password := password |}
           env_2 (signup signup_bob env_1 members).2).1
      = Raise (HTTPException 401 "Invalid credentials").
Proof.
  assert (H1 : user_by_email members (SignupIn.email signup_bob) = None)
    by (vm_compute; reflexivity).
  assert (H2 : signup_valid signup_bob = true) by (vm_compute; reflexivity).
  split; [exact H1|]. split; [exact H2|].
  exact (@signup_then_login example_libs signup_bob env_1 members env_2 H1 H2).
Defined.

Lemma update_user_keeps_identity_witness :
  ObjectId_new "bbbbbbbbbbbbbbbbbbbbbbbb" = Some id_b ∧
  stored members "user" id_b = Some user_ann ∧
  UserUpdateIn.model_dump_exclude_unset rename_ann ≠ ∅ ∧
  ∃ w' u',
    update_user "bbbbbbbbbbbbbbbbbbbbbbbb" rename_ann env_2 members
      = (Ok (JSON_user (strip_password (Some u'))), w') ∧
    stored w' "user" id_b = Some u' ∧
    _id u' = id_b ∧
    fields u' !! "updated_at" = Some (VDate (now env_2)) ∧
    (∀ k v, UserUpdateIn.model_dump_exclude_unset rename_ann !! k = Some v →
            fields u' !! k = Some v) ∧
    (∀ k, k ∉ ["name"; "phone"; "photo_url"; "ad_free"; "updated_at"] →
          fields u' !! k = fields user_ann !! k) ∧
    (∀ j, j ≠ id_b → stored w' "user" j = stored members "user" j).
Proof.
  assert (H1 : ObjectId_new "bbbbbbbbbbbbbbbbbbbbbbbb" = Some id_b) by reflexivity.
  assert (H2 : stored members "user" id_b = Some user_ann) by (vm_compute; reflexivity).
  assert (H3 : UserUpdateIn.model_dump_exclude_unset rename_ann ≠ ∅)
    by (intros H; apply (f_equal (λ m : dict, m !! "name")) in H; vm_compute in H;
        discriminate H).
  split; [exact H1|]. split; [exact H2|]. split; [exact H3|].
  exact (@update_user_keeps_identity example_libs _ rename_ann env_2 members id_b user_ann
           H1 H2 H3).
Defined.

Lemma update_user_unknown_user_witness :
  ObjectId_new "cccccccccccccccccccccccc" = Some id_c ∧
  stored members "user" id_c = None ∧
  (UserUpdateIn.model_dump_exclude_unset rename_ann = ∅ →
   update_user "cccccccccccccccccccccccc" rename_ann env_2 members
     = (Ok (JSON_user None), log (FindOne "user") members)) ∧
  (UserUpdateIn.model_dump_exclude_unset rename_ann ≠ ∅ →
   ∃ w', update_user "cccccccccccccccccccccccc" rename_ann env_2 members
           = (Raise (HTTPException 404 "User not found"), w') ∧
         ∀ name, collection w' name = collection members name).
Proof.
  assert (H1 : ObjectId_new "cccccccccccccccccccccccc" = Some id_c) by reflexivity.
  assert (H2 : stored members "user" id_c = None) by (vm_compute; reflexivity).
  split; [exact H1|]. split; [exact H2|].
  exact (@update_user_unknown_user example_libs _ rename_ann env_2 members id_c H1 H2).
Defined.

Lemma create_product_rejects_witness :
  (ProductIn.vendor ebay_phone ∉ Vendor ∨
   PrimFloat.leb 0 (ProductIn.price ebay_phone) = false ∨
   PrimFloat.leb 0 (ProductIn.rating ebay_phone) = false ∨
   PrimFloat.leb (ProductIn.rating ebay_phone) 5 = false ∨
   HttpUrl (ProductIn.affiliate_link ebay_phone) = None) ∧
  create_product ebay_phone env_1 shop = (Raise ValidationError, shop).
Proof.
  assert (H1 : ProductIn.vendor ebay_phone ∉ Vendor ∨
               PrimFloat.leb 0 (ProductIn.price ebay_phone) = false ∨
               PrimFloat.leb 0 (ProductIn.rating ebay_phone) = false ∨
               PrimFloat.leb (ProductIn.rating ebay_phone) 5 = false ∨
               HttpUrl (ProductIn.affiliate_link ebay_phone) = None)
    by (left; apply (bool_decide_unpack _); vm_compute; exact I).
  split; [exact H1|].
  exact (@create_product_rejects example_libs ebay_phone env_1 shop H1).
Defined.

Lemma get_product_spec_witness :
  ObjectId_new "AAAAAAAAAAAAAAAAAAAAAAAA" = Some id_a ∧
  match stored shop "product" id_a with
  | Some d =>
      ∃ r, get_product "AAAAAAAAAAAAAAAAAAAAAAAA" env_1 shop
             = (Ok (JSON_doc r), log (FindOne "product") shop) ∧
           r !! "_id" = Some (VStr (str id_a)) ∧
           ∀ k, k ≠ "_id" → r !! k = fields d !! k
  | None =>
      get_product "AAAAAAAAAAAAAAAAAAAAAAAA" env_1 shop =
        (Raise (HTTPException 404 "Product not found"), log (FindOne "product") shop)
  end.
Proof.
  assert (H1 : ObjectId_new "AAAAAAAAAAAAAAAAAAAAAAAA" = Some id_a) by reflexivity.
  split; [exact H1|].
  exact (@get_product_spec example_libs _ id_a env_1 shop H1).
Defined.

Lemma create_product_then_get_witness :
  BaseModel Product (ProductIn.model_dump new_phone) = Some phone_product ∧
  ObjectId_new (str (new_id env_1)) = Some (new_id env_1) ∧
  stored shop "product" (new_id env_1) = None ∧
  ∃ w', create_product new_phone env_1 shop
          = (Ok (JSON_doc (str_id (created_product phone_product env_1))), w') ∧
        stored w' "product" (new_id env_1) = Some (created_product phone_product env_1) ∧
        (get_product (str (new_id env_1)) env_2 w').1
          = Ok (JSON_doc (str_id (created_product phone_product env_1))).
Proof.
  assert (H1 : BaseModel Product (ProductIn.model_dump new_phone) = Some phone_product)
    by reflexivity.
  assert (H2 : ObjectId_new (str (new_id env_1)) = Some (new_id env_1)) by reflexivity.
  assert (H3 : stored shop "product" (new_id env_1) = None) by (vm_compute; reflexivity).
  split; [exact H1|]. split; [exact H2|]. split; [exact H3|].
  exact (@create_product_then_get example_libs new_phone env_1 shop env_2 phone_product
           H1 H2 H3).
Defined.

Lemma update_product_sets_fields_witness :
  ObjectId_new "aaaaaaaaaaaaaaaaaaaaaaaa" = Some id_a ∧
  stored shop "product" id_a = Some prod_a ∧
  ∃ w' p',
    update_product "aaaaaaaaaaaaaaaaaaaaaaaa" {["title" := VStr "Phone"]} env_2 shop
      = (Ok (JSON_doc (str_id p')), w') ∧
    stored w' "product" id_a = Some p' ∧
    _id p' = id_a ∧
    fields p' !! "updated_at" = Some (VDate (now env_2)) ∧
    (∀ k v, k ≠ "_id" → k ≠ "updated_at" →
            ({["title" := VStr "Phone"]} : dict) !! k = Some v →
            fields p' !! k = Some v) ∧
    (∀ k, k ≠ "updated_at" → ({["title" := VStr "Phone"]} : dict) !! k = None ∨ k = "_id" →
          fields p' !! k = fields prod_a !! k) ∧
    (∀ j, j ≠ id_a → stored w' "product" j = stored shop "product" j).
Proof.
  assert (H1 : ObjectId_new "aaaaaaaaaaaaaaaaaaaaaaaa" = Some id_a) by reflexivity.
  assert (H2 : stored shop "product" id_a = Some prod_a) by (vm_compute; reflexivity).
  split; [exact H1|]. split; [exact H2|].
  exact (@update_product_sets_fields example_libs _ {["title" := VStr "Phone"]} env_2 shop
           id_a prod_a H1 H2).
Defined.

Lemma update_product_unknown_witness :
  ObjectId_new "cccccccccccccccccccccccc" = Some id_c ∧
  stored shop "product" id_c = None ∧
  ∃ w', update_product "cccccccccccccccccccccccc" {["title" := VStr "Phone"]} env_2 shop
          = (Raise (HTTPException 404 "Not found"), w') ∧
        ∀ name, collection w' name = collection shop name.
Proof.
  assert (H1 : ObjectId_new "cccccccccccccccccccccccc" = Some id_c) by reflexivity.
  assert (H2 : stored shop "product" id_c = None) by (vm_compute; reflexivity).
  split; [exact H1|]. split; [exact H2|].
  exact (@update_product_unknown example_libs _ {["title" := VStr "Phone"]} env_2 shop
           id_c H1 H2).
Defined.

Lemma delete_product_removes_witness :
  ObjectId_new "aaaaaaaaaaaaaaaaaaaaaaaa" = Some id_a ∧
  stored shop "product" id_a = Some prod_a ∧
  NoDup (_id <$> collection shop "product") ∧
  ∃ w', delete_product "aaaaaaaaaaaaaaaaaaaaaaaa" env_1 shop = (Ok JSON_ok, w') ∧
        stored w' "product" id_a = None ∧
        (∀ j, j ≠ id_a → stored w' "product" j = stored shop "product" j) ∧
        (get_product "aaaaaaaaaaaaaaaaaaaaaaaa" env_2 w').1
          = Raise (HTTPException 404 "Product not found") ∧
        (delete_product "aaaaaaaaaaaaaaaaaaaaaaaa" env_2 w').1
          = Raise (HTTPException 404 "Not found").
Proof.
  assert (H1 : ObjectId_new "aaaaaaaaaaaaaaaaaaaaaaaa" = Some id_a) by reflexivity.
  assert (H2 : stored shop "product" id_a = Some prod_a) by (vm_compute; reflexivity).
  assert (H3 : NoDup (_id <$> collection shop "product"))
    by (apply (bool_decide_unpack _); vm_compute; exact I).
  split; [exact H1|]. split; [exact H2|]. split; [exact H3|].
  exact (@delete_product_removes example_libs _ env_1 shop id_a prod_a env_2 env_2 H1 H2 H3).
Defined.

Lemma delete_product_unknown_witness :
  ObjectId_new "cccccccccccccccccccccccc" = Some id_c ∧
  stored shop "product" id_c = None ∧
  ∃ w', delete_product "cccccccccccccccccccccccc" env_1 shop
          = (Raise (HTTPException 404 "Not found"), w') ∧
        ∀ name, collection w' name = collection shop name.
Proof.
  assert (H1 : ObjectId_new "cccccccccccccccccccccccc" = Some id_c) by reflexivity.
  assert (H2 : stored shop "product" id_c = None) by (vm_compute; reflexivity).
  split; [exact H1|]. split; [exact H2|].
  exact (@delete_product_unknown example_libs _ env_1 shop id_c H1 H2).
Defined.

Lemma create_order_records_witness :
  ObjectId_new (OrderIn.product_id order_a) = Some id_a ∧
  stored shop "product" id_a = Some prod_a ∧
  is_int_field prod_a "orders" = true ∧
  is_str_field prod_a "affiliate_id" = true ∧
  is_str_field prod_a "affiliate_link" = true ∧
  ∃ o p',
    collection (create_order order_a env_1 shop).2 "order" = collection shop "order" ++ [o] ∧
    _id o = new_id env_1 ∧
    get o "user_id" = VStr (OrderIn.user_id order_a) ∧
    get o "product_id" = VStr (OrderIn.product_id order_a) ∧
    get o "affiliate_id" = get prod_a "affiliate_id" ∧
    get o "status" = VStr "redirected" ∧
    get o "vendor_url" = get prod_a "affiliate_link" ∧
    stored (create_order order_a env_1 shop).2 "product" id_a = Some p' ∧
    counter p' "orders" = counter prod_a "orders" + 1 ∧
    counter p' "clicks" = counter prod_a "clicks".
Proof.
  assert (H1 : ObjectId_new (OrderIn.product_id order_a) = Some id_a) by reflexivity.
  assert (H2 : stored shop "product" id_a = Some prod_a) by (vm_compute; reflexivity).
  assert (H3 : is_int_field prod_a "orders" = true) by (vm_compute; reflexivity).
  assert (H4 : is_str_field prod_a "affiliate_id" = true) by (vm_compute; reflexivity).
  assert (H5 : is_str_field prod_a "affiliate_link" = true) by (vm_compute; reflexivity).
  split; [exact H1|]. split; [exact H2|]. split; [exact H3|]. split; [exact H4|].
  split; [exact H5|].
  exact (@create_order_records example_libs order_a env_1 shop id_a prod_a H1 H2 H3 H4 H5).
Defined.

Lemma create_order_unknown_product_witness :
  ObjectId_new (OrderIn.product_id order_c) = Some id_c ∧
  stored shop "product" id_c = None ∧
  create_order order_c env_1 shop =
    (Raise (HTTPException 404 "Product not found"), log (FindOne "product") shop).
Proof.
  assert (H1 : ObjectId_new (OrderIn.product_id order_c) = Some id_c) by reflexivity.
  assert (H2 : stored shop "product" id_c = None) by (vm_compute; reflexivity).
  split; [exact H1|]. split; [exact H2|].
  exact (@create_order_unknown_product example_libs order_c env_1 shop id_c H1 H2).
Defined.

Lemma create_subscription_sets_ad_free_witness :
  ObjectId_new (SubscriptionIn.user_id subscription_ann) = Some id_b ∧
  (create_subscription subscription_ann env_1 members).1
    = Ok (JSON_ok_expires (now env_1 + 2592000000)) ∧
  match stored members "user" id_b with
  | Some u =>
      ∃ u', stored (create_subscription subscription_ann env_1 members).2 "user" id_b
              = Some u' ∧
            fields u' !! "ad_free" = Some (VBool true) ∧
            fields u' !! "updated_at" = Some (VDate (now env_1)) ∧
            ∀ k, k ≠ "ad_free" → k ≠ "updated_at" → fields u' !! k = fields u !! k
  | None => stored (create_subscription subscription_ann env_1 members).2 "user" id_b = None
  end ∧
  ∀ j, j ≠ id_b →
       stored (create_subscription subscription_ann env_1 members).2 "user" j
         = stored members "user" j.
Proof.
  assert (H1 : ObjectId_new (SubscriptionIn.user_id subscription_ann) = Some id_b)
    by reflexivity.
  split; [exact H1|].
  exact (@create_subscription_sets_ad_free example_libs subscription_ann env_1 members
           id_b H1).
Defined.

Lemma save_admin_settings_first_witness :
  collection empty_world "adminsetting" = [] ∧
  match BaseModel AdminSetting (delete "_id" ({["amazon" := VStr ebay_link]} : dict)) with
  | Some m =>
      ∃ w', save_admin_settings {["amazon" := VStr ebay_link]} env_1 empty_world =
              (Ok (JSON_doc (str_id (Document (new_id env_1)
                                       (<["created_at" := VDate (now env_1)]> m)))), w') ∧
            collection w' "adminsetting" =
              [Document (new_id env_1) (<["created_at" := VDate (now env_1)]> m)] ∧
            (∀ k, k ∉ Vendor → m !! k = None) ∧
            (∀ k, k ∈ Vendor → ({["amazon" := VStr ebay_link]} : dict) !! k = None →
                  m !! k = Some VNull) ∧
            (∀ k u, k ∈ Vendor → ({["amazon" := VStr ebay_link]} : dict) !! k = Some (VStr u) →
                    ∃ u', HttpUrl u = Some u' ∧ m !! k = Some (VStr u'))
  | None =>
      save_admin_settings {["amazon" := VStr ebay_link]} env_1 empty_world
        = (Raise ValidationError, log (FindOne "adminsetting") empty_world)
  end ∧
  (∀ k u, k ∈ Vendor → ({["amazon" := VStr ebay_link]} : dict) !! k = Some (VStr u) →
          HttpUrl u = None →
          save_admin_settings {["amazon" := VStr ebay_link]} env_1 empty_world
            = (Raise ValidationError, log (FindOne "adminsetting") empty_world)).
Proof.
  assert (H1 : collection empty_world "adminsetting" = []) by reflexivity.
  split; [exact H1|].
  exact (@save_admin_settings_first example_libs {["amazon" := VStr ebay_link]} env_1
           empty_world H1).
Defined.

Lemma save_admin_settings_later_witness :
  collection configured "adminsetting" = settings_doc :: [] ∧
  ∃ r w',
    save_admin_settings {["ebay" := VStr ebay_link]} env_2 configured = (Ok (JSON_doc r), w') ∧
    r !! "_id" = Some (VStr (str (_id settings_doc))) ∧
    (∀ k v, k ≠ "_id" → ({["ebay" := VStr ebay_link]} : dict) !! k = Some v →
            r !! k = Some v) ∧
    (∀ k, k ≠ "_id" → ({["ebay" := VStr ebay_link]} : dict) !! k = None →
          r !! k = fields settings_doc !! k) ∧
    (∀ e', (get_admin_settings e' w').1 = Ok (JSON_doc r)) ∧
    (∀ e', collection (save_admin_settings {["ebay" := VStr ebay_link]} e' w').2 "adminsetting"
           = collection w' "adminsetting").
Proof.
  assert (H1 : collection configured "adminsetting" = settings_doc :: [])
    by (vm_compute; reflexivity).
  split; [exact H1|].
  exact (@save_admin_settings_later example_libs {["ebay" := VStr ebay_link]} env_2
           configured settings_doc [] H1).
Defined.

Lemma logs_append_only_witness :
  "order" ∈ ["click"; "order"; "subscription"] ∧
  (collection (handle (CreateOrder order_a) env_1 shop).2 "order" = collection shop "order" ∨
   (appends_to (CreateOrder order_a) = Some "order" ∧
    ∃ d, collection (handle (CreateOrder order_a) env_1 shop).2 "order"
           = collection shop "order" ++ [d])).
Proof.
  assert (H1 : "order" ∈ ["click"; "order"; "subscription"])
    by (apply (bool_decide_unpack _); vm_compute; exact I).
  split; [exact H1|].
  exact (@logs_append_only example_libs (CreateOrder order_a) env_1 shop "order" H1).
Defined.

Lemma users_keep_identity_witness :
  stored members "user" id_b = Some user_ann ∧
  ∃ u', stored (handle (UpdateUser "bbbbbbbbbbbbbbbbbbbbbbbb" rename_ann) env_2 members).2
               "user" id_b = Some u' ∧
        fields u' !! "email" = fields user_ann !! "email" ∧
        fields u' !! "password_hash" = fields user_ann !! "password_hash" ∧
        fields u' !! "role" = fields user_ann !! "role".
Proof.
  assert (H1 : stored members "user" id_b = Some user_ann) by (vm_compute; reflexivity).
  split; [exact H1|].
  exact (@users_keep_identity example_libs (UpdateUser "bbbbbbbbbbbbbbbbbbbbbbbb" rename_ann)
           env_2 members id_b user_ann H1).
Defined.
